(** * Library management: borrow/return workflow, search, overdue report
      and attendance tracking

    A shallow embedding of [book.py], [member.py], [library.py] and
    [attendance.py], followed by the properties of the library aggregate.

    Conventions of the embedding.
    - A Python [str] is a [string]; the text handled is ASCII, on which
      [str.lower] maps ['A'..'Z'] to ['a'..'z'] and leaves the rest alone.
    - A Python [int] is a [Z].
    - A naive [datetime] is a [Z]: microseconds since 0001-01-01T00:00:00.
      [datetime.now()] reads a clock; every call consumes one reading, so two
      calls in one expression may see two different instants.
    - A Python [dict] keeps insertion order, which [search_books] and
      [get_overdue_books] expose; it is an association list whose keys are
      kept distinct by the operations.
    - Methods mutate [self]; here they take the object and return the new
      one, and the caller stores it back under the key it was fetched from.
    - An operation that may raise returns an [Outcome]; the state reached at
      the moment of the raise is returned with it. *)

From Stdlib Require Import ZArith List String Ascii Bool Lia Arith.
Import ListNotations.
Local Open Scope string_scope.
Local Open Scope list_scope.
Local Open Scope Z_scope.

Set Implicit Arguments.

(* ================================================================== *)
(** * The Python runtime: outcomes, clock, datetime, dict, list, str   *)
(* ================================================================== *)

Inductive Exn : Type := KeyError | ValueError | OverflowError.

Inductive Outcome (A : Type) : Type :=
| Returns (a : A)
| Raises (e : Exn).

Arguments Returns {A} a.
Arguments Raises {A} e.

(** ** Time *)

Definition datetime := Z.
Definition timedelta := Z.
Definition date := Z.

Definition DAY : Z := 86400000000.

(** [datetime.max] is 9999-12-31T23:59:59.999999, whose date has proleptic
    ordinal 3652059. *)
Definition MAX_ORDINAL : Z := 3652059.
Definition TIMEDELTA_MAX_DAYS : Z := 999999999.

Definition datetime_in_range (t : Z) : bool :=
  (0 <=? t) && (t <? MAX_ORDINAL * DAY).

(** [timedelta(days=n)] *)
Definition timedelta_of_days (n : Z) : Outcome timedelta :=
  if Z.abs n <=? TIMEDELTA_MAX_DAYS then Returns (n * DAY)
  else Raises OverflowError.

(** [t - d] for a datetime [t] and a timedelta [d] *)
Definition datetime_minus (t : datetime) (d : timedelta) : Outcome datetime :=
  if datetime_in_range (t - d) then Returns (t - d) else Raises OverflowError.

(** [(t1 - t2).days]: a timedelta is normalised with a non-negative
    remainder, so [days] is the floor. *)
Definition days_between (t1 t2 : datetime) : Z := (t1 - t2) / DAY.

(** [datetime.date()] *)
Definition date_of (t : datetime) : date := t / DAY.

Record Clock : Type := mkClock {
  reading : nat -> datetime;
  ticks : nat
}.

(** [datetime.now()] *)
Definition now (clk : Clock) : datetime * Clock :=
  (reading clk (ticks clk), mkClock (reading clk) (S (ticks clk))).

(** [date.today()] *)
Definition today (clk : Clock) : date * Clock :=
  let '(t, clk') := now clk in (date_of t, clk').

(** A clock that shows [t] at every reading. *)
Definition frozen (t : datetime) : Clock := mkClock (fun _ => t) 0.

(** A clock that starts at [t] and advances by [step] at every reading. *)
Definition ticking (t step : Z) : Clock :=
  mkClock (fun n => t + step * Z.of_nat n) 0.

(** ** dict *)

Class Hashable (K : Type) : Type := {
  key_eqb : K -> K -> bool;
  key_eqb_eq : forall x y, key_eqb x y = true <-> x = y
}.

#[export] Instance str_hashable : Hashable string :=
  {| key_eqb := String.eqb; key_eqb_eq := String.eqb_eq |}.

#[export] Instance int_hashable : Hashable Z :=
  {| key_eqb := Z.eqb; key_eqb_eq := Z.eqb_eq |}.

Definition dict (K V : Type) : Type := list (K * V).

Section Dict.
Context {K V : Type} `{Hashable K}.

(** [d.get(k)] *)
Fixpoint dict_get (k : K) (d : dict K V) : option V :=
  match d with
  | [] => None
  | (k', v) :: d' => if key_eqb k k' then Some v else dict_get k d'
  end.

(** [k in d] *)
Definition dict_contains (k : K) (d : dict K V) : bool :=
  match dict_get k d with Some _ => true | None => false end.

(** [d[k]] *)
Definition dict_item (k : K) (d : dict K V) : Outcome V :=
  match dict_get k d with Some v => Returns v | None => Raises KeyError end.

(** [d[k] = v]: an existing key keeps its place, a new one goes last. *)
Fixpoint dict_set (k : K) (v : V) (d : dict K V) : dict K V :=
  match d with
  | [] => [(k, v)]
  | (k', v') :: d' =>
      if key_eqb k k' then (k', v) :: d' else (k', v') :: dict_set k v d'
  end.

(** [del d[k]] *)
Fixpoint dict_del (k : K) (d : dict K V) : Outcome (dict K V) :=
  match d with
  | [] => Raises KeyError
  | (k', v') :: d' =>
      if key_eqb k k' then Returns d'
      else match dict_del k d' with
           | Returns d'' => Returns ((k', v') :: d'')
           | Raises e => Raises e
           end
  end.

Definition dict_keys (d : dict K V) : list K := map fst d.
Definition dict_values (d : dict K V) : list V := map snd d.
Definition dict_items (d : dict K V) : list (K * V) := d.

(** Keys of a dict are pairwise distinct. *)
Fixpoint distinct_keys (d : dict K V) : bool :=
  match d with
  | [] => true
  | (k, _) :: d' => negb (dict_contains k d') && distinct_keys d'
  end.
End Dict.

(** ** list and str *)

(** [x in l] for a list of strings *)
Definition list_contains (x : string) (l : list string) : bool :=
  existsb (String.eqb x) l.

(** [l.remove(x)]: drops the first occurrence. *)
Fixpoint list_remove (x : string) (l : list string) : Outcome (list string) :=
  match l with
  | [] => Raises ValueError
  | y :: l' =>
      if String.eqb x y then Returns l'
      else match list_remove x l' with
           | Returns l'' => Returns (y :: l'')
           | Raises e => Raises e
           end
  end.

Definition lower_char (c : ascii) : ascii :=
  let n := nat_of_ascii c in
  if ((65 <=? n) && (n <=? 90))%nat then ascii_of_nat (n + 32) else c.

(** [s.lower()] *)
Fixpoint lower (s : string) : string :=
  match s with
  | EmptyString => EmptyString
  | String c s' => String (lower_char c) (lower s')
  end.

(** [q in s] for strings: [q] occurs in [s] as a contiguous run. *)
Fixpoint str_in (q s : string) : bool :=
  String.prefix q s ||
  match s with
  | EmptyString => false
  | String _ s' => str_in q s'
  end.

(* ================================================================== *)
(** * book.py                                                          *)
(* ================================================================== *)

Module Book.

Record t : Type := mk {
  book_id : string;
  title : string;
  author : string;
  isbn : string;
  category : string;
  total_copies : Z;
  available_copies : Z;
  borrowed_by : dict string datetime
}.

Definition init (book_id title author isbn category : string) (copies : Z) : t :=
  mk book_id title author isbn category copies copies [].

Definition with_loans (avail : Z) (loans : dict string datetime) (self : t) : t :=
  mk (book_id self) (title self) (author self) (isbn self) (category self)
     (total_copies self) avail loans.

Definition is_available (self : t) : bool := 0 <? available_copies self.

Definition borrow (member_id : string) (self : t) (clk : Clock)
  : bool * t * Clock :=
  if is_available self then
    let avail := available_copies self - 1 in
    let '(t0, clk') := now clk in
    (true, with_loans avail (dict_set member_id t0 (borrowed_by self)) self, clk')
  else (false, self, clk).

Definition return_book (member_id : string) (self : t) : Outcome bool * t :=
  if dict_contains member_id (borrowed_by self) then
    let avail := available_copies self + 1 in
    match dict_del member_id (borrowed_by self) with
    | Returns loans => (Returns true, with_loans avail loans self)
    | Raises e => (Raises e, with_loans avail (borrowed_by self) self)
    end
  else (Returns false, self).

Definition get_borrower_info (self : t) : dict string datetime :=
  borrowed_by self.

End Book.

(* ================================================================== *)
(** * member.py                                                        *)
(* ================================================================== *)

Module Member.

Record t : Type := mk {
  member_id : string;
  name : string;
  email : string;
  phone : string;
  membership_type : string;
  join_date : datetime;
  borrowed_books : list string;
  borrowing_history : list (string * datetime * datetime);
  max_books : Z
}.

Definition init (member_id name email phone membership_type : string)
    (clk : Clock) : t * Clock :=
  let '(t0, clk') := now clk in
  (mk member_id name email phone membership_type t0 [] []
      (if String.eqb membership_type "Premium" then 5 else 3),
   clk').

Definition with_loans (held : list string)
    (hist : list (string * datetime * datetime)) (self : t) : t :=
  mk (member_id self) (name self) (email self) (phone self)
     (membership_type self) (join_date self) held hist (max_books self).

Definition can_borrow (self : t) : bool :=
  Z.of_nat (List.length (borrowed_books self)) <? max_books self.

Definition borrow_book (book_id : string) (self : t) : bool * t :=
  if can_borrow self then
    (true, with_loans (borrowed_books self ++ [book_id]) (borrowing_history self) self)
  else (false, self).

Definition return_book (book_id : string) (self : t) (clk : Clock)
  : Outcome bool * t * Clock :=
  if list_contains book_id (borrowed_books self) then
    match list_remove book_id (borrowed_books self) with
    | Returns held =>
        let '(t1, clk1) := now clk in
        let '(t2, clk2) := now clk1 in
        (Returns true,
         with_loans held (borrowing_history self ++ [(book_id, t1, t2)]) self,
         clk2)
    | Raises e => (Raises e, self, clk)
    end
  else (Returns false, self, clk).

Definition get_borrowed_books (self : t) : list string := borrowed_books self.

Definition get_borrowing_history (self : t) : list (string * datetime * datetime) :=
  borrowing_history self.

End Member.


(* ================================================================== *)
(** * attendance.py                                                    *)
(* ================================================================== *)

Inductive VisitorType : Type := MEMBER | VISITOR | STAFF.

Definition VisitorType_value (vt : VisitorType) : string :=
  match vt with
  | MEMBER => "member"
  | VISITOR => "visitor"
  | STAFF => "staff"
  end.

Module AttendanceRecord.

Record t : Type := mk {
  visitor_id : string;
  name : string;
  visitor_type : VisitorType;
  entry_time : datetime;
  exit_time : option datetime;
  purpose : string;
  is_active : bool
}.

(** [AttendanceRecord(visitor_id, name, visitor_type)]: no entry time is
    passed, so the constructor reads the clock. *)
Definition init (visitor_id name : string) (visitor_type : VisitorType)
    (clk : Clock) : t * Clock :=
  let '(t0, clk') := now clk in
  (mk visitor_id name visitor_type t0 None "" true, clk').

Definition set_purpose (p : string) (self : t) : t :=
  mk (visitor_id self) (name self) (visitor_type self) (entry_time self)
     (exit_time self) p (is_active self).

(** [record.check_out()]: no exit time is passed, so it reads the clock. *)
Definition check_out (self : t) (clk : Clock) : t * Clock :=
  let '(t0, clk') := now clk in
  (mk (visitor_id self) (name self) (visitor_type self) (entry_time self)
      (Some t0) (purpose self) false,
   clk').

End AttendanceRecord.

Module AttendanceTracker.

Definition Counters : Type := dict string Z.

Record t : Type := mk {
  attendance_records : list AttendanceRecord.t;
  daily_stats : dict date Counters
}.

Definition init : t := mk [] [].

Definition zero_counters : Counters :=
  [("total_visitors", 0); ("members", 0); ("visitors", 0); ("staff", 0)].

(** The test of both scanning loops. *)
Definition active_for (visitor_id : string) (r : AttendanceRecord.t) : bool :=
  String.eqb (AttendanceRecord.visitor_id r) visitor_id
  && AttendanceRecord.is_active r.

(** The loop of [is_currently_present], over the records it is given. *)
Fixpoint present_in (visitor_id : string) (rs : list AttendanceRecord.t) : bool :=
  match rs with
  | [] => false
  | r :: rs' => if active_for visitor_id r then true else present_in visitor_id rs'
  end.

Definition is_currently_present (visitor_id : string) (self : t) : bool :=
  present_in visitor_id (rev (attendance_records self)).

(** [self.daily_stats[day][key] += 1] *)
Definition bump (day : date) (key : string) (stats : dict date Counters)
  : Outcome (dict date Counters) :=
  match dict_item day stats with
  | Raises e => Raises e
  | Returns counters =>
      match dict_item key counters with
      | Raises e => Raises e
      | Returns n => Returns (dict_set day (dict_set key (n + 1) counters) stats)
      end
  end.

Definition check_in (visitor_id name : string) (visitor_type : VisitorType)
    (purpose : string) (self : t) (clk : Clock) : Outcome bool * t * Clock :=
  if is_currently_present visitor_id self then (Returns false, self, clk)
  else
    let '(record, clk1) := AttendanceRecord.init visitor_id name visitor_type clk in
    let record := AttendanceRecord.set_purpose purpose record in
    let records := attendance_records self ++ [record] in
    let '(day, clk2) := today clk1 in
    let stats :=
      if negb (dict_contains day (daily_stats self))
      then dict_set day zero_counters (daily_stats self)
      else daily_stats self in
    match bump day "total_visitors" stats with
    | Raises e => (Raises e, mk records stats, clk2)
    | Returns stats1 =>
        match bump day (String.append (VisitorType_value visitor_type) "s") stats1 with
        | Raises e => (Raises e, mk records stats1, clk2)
        | Returns stats2 => (Returns true, mk records stats2, clk2)
        end
    end.

(** The loop of [check_out], over the records it is given: the first
    match is checked out in place and the scan stops. *)
Fixpoint check_out_scan (visitor_id : string) (rs : list AttendanceRecord.t)
    (clk : Clock) : option (list AttendanceRecord.t * Clock) :=
  match rs with
  | [] => None
  | r :: rs' =>
      if active_for visitor_id r then
        let '(r', clk') := AttendanceRecord.check_out r clk in
        Some (r' :: rs', clk')
      else
        match check_out_scan visitor_id rs' clk with
        | Some (rs'', clk') => Some (r :: rs'', clk')
        | None => None
        end
  end.

Definition check_out (visitor_id : string) (self : t) (clk : Clock)
  : bool * t * Clock :=
  match check_out_scan visitor_id (rev (attendance_records self)) clk with
  | Some (rs, clk') => (true, mk (rev rs) (daily_stats self), clk')
  | None => (false, self, clk)
  end.

Definition get_current_visitors (self : t) : list AttendanceRecord.t :=
  filter AttendanceRecord.is_active (attendance_records self).

Definition get_visitor_history (visitor_id : string) (self : t)
  : list AttendanceRecord.t :=
  filter (fun r => String.eqb (AttendanceRecord.visitor_id r) visitor_id)
         (attendance_records self).

(** ** Daily figures *)

Definition HOUR : Z := 3600000000.

(** [t.hour] *)
Definition hour_of (t : datetime) : Z := (t mod DAY) / HOUR.

(** [target_date], or today's date when none is given. *)
Definition date_or_today (target_date : option date) (clk : Clock) : date * Clock :=
  match target_date with
  | Some d => (d, clk)
  | None => today clk
  end.

Definition get_daily_attendance (target_date : option date) (self : t)
    (clk : Clock) : list AttendanceRecord.t * Clock :=
  let '(d, clk') := date_or_today target_date clk in
  (filter (fun r => Z.eqb (date_of (AttendanceRecord.entry_time r)) d)
          (attendance_records self),
   clk').

Definition get_daily_stats (target_date : option date) (self : t) (clk : Clock)
  : Counters * Clock :=
  let '(d, clk') := date_or_today target_date clk in
  (match dict_get d (daily_stats self) with
   | Some counters => counters
   | None => zero_counters
   end,
   clk').

Record PeakHours : Type := mkPeak {
  hourly_breakdown : dict Z Z;
  peak_hour : Z;
  peak_count : Z
}.

(** The loop that fills [hourly_counts]. *)
Definition tally (hourly_counts : dict Z Z) (r : AttendanceRecord.t) : dict Z Z :=
  let hour := hour_of (AttendanceRecord.entry_time r) in
  dict_set hour
    (match dict_get hour hourly_counts with Some n => n | None => 0 end + 1)
    hourly_counts.

(** [max(items, key=lambda x: x[1])]: the first of the largest. *)
Fixpoint max_by_count (best : Z * Z) (items : list (Z * Z)) : Z * Z :=
  match items with
  | [] => best
  | x :: rest => max_by_count (if snd best <? snd x then x else best) rest
  end.

Definition get_peak_hours (target_date : option date) (self : t) (clk : Clock)
  : PeakHours * Clock :=
  let '(d, clk1) := date_or_today target_date clk in
  let '(daily_records, clk2) := get_daily_attendance (Some d) self clk1 in
  let hourly_counts := fold_left tally daily_records [] in
  let peak :=
    match dict_items hourly_counts with
    | [] => (0, 0)
    | x :: rest => max_by_count x rest
    end in
  (mkPeak hourly_counts (fst peak) (snd peak), clk2).

(** The calls a client can make, and the states they lead to. *)
Inductive Op : Type :=
| CheckIn (visitor_id name : string) (visitor_type : VisitorType) (purpose : string)
| CheckOut (visitor_id : string).

Definition call (op : Op) (self : t) (clk : Clock) : Outcome bool * t * Clock :=
  match op with
  | CheckIn v n vt p => check_in v n vt p self clk
  | CheckOut v =>
      let '(b, self', clk') := check_out v self clk in (Returns b, self', clk')
  end.

Fixpoint run (ops : list Op) (self : t) (clk : Clock) : t * Clock :=
  match ops with
  | [] => (self, clk)
  | op :: ops' =>
      let '(_, self', clk') := call op self clk in run ops' self' clk'
  end.

Definition reachable (s : t) : Prop :=
  exists ops clk, fst (run ops init clk) = s.

End AttendanceTracker.


(* ================================================================== *)
(** * library.py                                                       *)
(* ================================================================== *)

Module Library.

Record Transaction : Type := mkTransaction {
  timestamp : datetime;
  action : string;
  description : string
}.

Record t : Type := mk {
  name : string;
  books : dict string Book.t;
  members : dict string Member.t;
  transactions : list Transaction;
  attendance_tracker : AttendanceTracker.t
}.

Definition init (name : string) : t := mk name [] [] [] AttendanceTracker.init.

Definition set_books (bs : dict string Book.t) (self : t) : t :=
  mk (name self) bs (members self) (transactions self) (attendance_tracker self).

Definition set_members (ms : dict string Member.t) (self : t) : t :=
  mk (name self) (books self) ms (transactions self) (attendance_tracker self).

Definition set_attendance (a : AttendanceTracker.t) (self : t) : t :=
  mk (name self) (books self) (members self) (transactions self) a.

Definition _log_transaction (action description : string) (self : t)
    (clk : Clock) : t * Clock :=
  let '(t0, clk') := now clk in
  (mk (name self) (books self) (members self)
      (transactions self ++ [mkTransaction t0 action description])
      (attendance_tracker self),
   clk').

Definition get_book (book_id : string) (self : t) : option Book.t :=
  dict_get book_id (books self).

Definition get_member (member_id : string) (self : t) : option Member.t :=
  dict_get member_id (members self).

Definition list_all_books (self : t) : list Book.t := dict_values (books self).

Definition list_available_books (self : t) : list Book.t :=
  filter Book.is_available (dict_values (books self)).

Definition list_all_members (self : t) : list Member.t :=
  dict_values (members self).

(** ** Book management *)

Definition add_book (book_id title author isbn category : string) (copies : Z)
    (self : t) (clk : Clock) : Outcome bool * t * Clock :=
  if dict_contains book_id (books self) then (Returns false, self, clk)
  else
    let book := Book.init book_id title author isbn category copies in
    let self1 := set_books (dict_set book_id book (books self)) self in
    let '(self2, clk1) :=
      _log_transaction "ADD_BOOK" (String.append "Added book: " title) self1 clk in
    (Returns true, self2, clk1).

Definition remove_book (book_id : string) (self : t) (clk : Clock)
  : Outcome bool * t * Clock :=
  if negb (dict_contains book_id (books self)) then (Returns false, self, clk)
  else
    match dict_item book_id (books self) with
    | Raises e => (Raises e, self, clk)
    | Returns book =>
        if Book.available_copies book <? Book.total_copies book
        then (Returns false, self, clk)
        else
          match dict_del book_id (books self) with
          | Raises e => (Raises e, self, clk)
          | Returns bs =>
              let '(self2, clk1) :=
                _log_transaction "REMOVE_BOOK"
                  (String.append "Removed book: " (Book.title book))
                  (set_books bs self) clk in
              (Returns true, self2, clk1)
          end
    end.

(** The test of the loop of [search_books]; [query] is already lowered. *)
Definition search_hit (query search_type : string) (book : Book.t) : bool :=
  if String.eqb search_type "title" && str_in query (lower (Book.title book))
  then true
  else if String.eqb search_type "author" && str_in query (lower (Book.author book))
  then true
  else if String.eqb search_type "category" && str_in query (lower (Book.category book))
  then true
  else if String.eqb search_type "isbn" && str_in query (Book.isbn book)
  then true
  else false.

Definition search_books (query search_type : string) (self : t) : list Book.t :=
  let query := lower query in
  fold_left
    (fun results book =>
       if search_hit query search_type book then results ++ [book] else results)
    (dict_values (books self)) [].

(** ** Member management *)

Definition add_member (member_id name email phone membership_type : string)
    (self : t) (clk : Clock) : Outcome bool * t * Clock :=
  if dict_contains member_id (members self) then (Returns false, self, clk)
  else
    let '(member, clk1) := Member.init member_id name email phone membership_type clk in
    let self1 := set_members (dict_set member_id member (members self)) self in
    let '(self2, clk2) :=
      _log_transaction "ADD_MEMBER" (String.append "Added member: " name) self1 clk1 in
    (Returns true, self2, clk2).

Definition remove_member (member_id : string) (self : t) (clk : Clock)
  : Outcome bool * t * Clock :=
  if negb (dict_contains member_id (members self)) then (Returns false, self, clk)
  else
    match dict_item member_id (members self) with
    | Raises e => (Raises e, self, clk)
    | Returns member =>
        match Member.borrowed_books member with
        | _ :: _ => (Returns false, self, clk)
        | [] =>
            match dict_del member_id (members self) with
            | Raises e => (Raises e, self, clk)
            | Returns ms =>
                let '(self2, clk1) :=
                  _log_transaction "REMOVE_MEMBER"
                    (String.append "Removed member: " (Member.name member))
                    (set_members ms self) clk in
                (Returns true, self2, clk1)
            end
        end
    end.

(** ** Borrowing and returning

    [book] and [member] are references to the objects held in the two
    dicts: whatever a method call does to them is stored, whether or not
    the call that follows succeeds. *)

Definition borrow_book (member_id book_id : string) (self : t) (clk : Clock)
  : Outcome bool * t * Clock :=
  match get_member member_id self, get_book book_id self with
  | Some member, Some book =>
      if negb (Member.can_borrow member) then (Returns false, self, clk)
      else if negb (Book.is_available book) then (Returns false, self, clk)
      else
        let '(ok1, book', clk1) := Book.borrow member_id book clk in
        let self1 := set_books (dict_set book_id book' (books self)) self in
        if ok1 then
          let '(ok2, member') := Member.borrow_book book_id member in
          let self2 := set_members (dict_set member_id member' (members self1)) self1 in
          if ok2 then
            let '(self3, clk2) :=
              _log_transaction "BORROW"
                (String.append "Member "
                   (String.append (Member.name member)
                      (String.append " borrowed " (Book.title book))))
                self2 clk1 in
            (Returns true, self3, clk2)
          else (Returns false, self2, clk1)
        else (Returns false, self1, clk1)
  | _, _ => (Returns false, self, clk)
  end.

Definition return_book (member_id book_id : string) (self : t) (clk : Clock)
  : Outcome bool * t * Clock :=
  match get_member member_id self, get_book book_id self with
  | Some member, Some book =>
      if negb (list_contains book_id (Member.borrowed_books member))
      then (Returns false, self, clk)
      else
        let '(r1, book') := Book.return_book member_id book in
        let self1 := set_books (dict_set book_id book' (books self)) self in
        match r1 with
        | Raises e => (Raises e, self1, clk)
        | Returns false => (Returns false, self1, clk)
        | Returns true =>
            let '(r2, member', clk1) := Member.return_book book_id member clk in
            let self2 := set_members (dict_set member_id member' (members self1)) self1 in
            match r2 with
            | Raises e => (Raises e, self2, clk1)
            | Returns false => (Returns false, self2, clk1)
            | Returns true =>
                let '(self3, clk2) :=
                  _log_transaction "RETURN"
                    (String.append "Member "
                       (String.append (Member.name member)
                          (String.append " returned " (Book.title book))))
                    self2 clk1 in
                (Returns true, self3, clk2)
            end
        end
  | _, _ => (Returns false, self, clk)
  end.

(** ** Reporting *)

Record OverdueEntry : Type := mkOverdue {
  book : Book.t;
  member : option Member.t;
  borrow_date : datetime;
  days_overdue : Z
}.

(** The body of the inner loop of [get_overdue_books]. *)
Definition overdue_visit (self : t) (cutoff : datetime) (b : Book.t)
    (acc : list OverdueEntry * Clock) (item : string * datetime)
  : list OverdueEntry * Clock :=
  let '(overdue, clk) := acc in
  let '(member_id, borrowed_at) := item in
  if borrowed_at <? cutoff then
    let m := get_member member_id self in
    let '(t1, clk') := now clk in
    (overdue ++ [mkOverdue b m borrowed_at (days_between t1 borrowed_at)], clk')
  else (overdue, clk).

Definition get_overdue_books (days : Z) (self : t) (clk : Clock)
  : Outcome (list OverdueEntry) * Clock :=
  let '(t0, clk0) := now clk in
  match timedelta_of_days days with
  | Raises e => (Raises e, clk0)
  | Returns delta =>
      match datetime_minus t0 delta with
      | Raises e => (Raises e, clk0)
      | Returns cutoff_date =>
          let '(overdue, clk') :=
            fold_left
              (fun acc b =>
                 fold_left (overdue_visit self cutoff_date b)
                           (dict_items (Book.borrowed_by b)) acc)
              (dict_values (books self)) ([], clk0) in
          (Returns overdue, clk')
      end
  end.

(** ** Attendance, delegated to the tracker *)

Definition on_tracker (r : Outcome bool * AttendanceTracker.t * Clock) (self : t)
  : Outcome bool * t * Clock :=
  let '(b, a, clk') := r in (b, set_attendance a self, clk').

Definition check_in_member (member_id : string) (self : t) (clk : Clock)
  : Outcome bool * t * Clock :=
  match get_member member_id self with
  | None => (Returns false, self, clk)
  | Some m =>
      on_tracker
        (AttendanceTracker.check_in member_id (Member.name m) MEMBER ""
           (attendance_tracker self) clk) self
  end.

Definition check_in_visitor (visitor_id name purpose : string) (self : t)
    (clk : Clock) : Outcome bool * t * Clock :=
  on_tracker
    (AttendanceTracker.check_in visitor_id name VISITOR purpose
       (attendance_tracker self) clk) self.

Definition check_in_staff (staff_id name : string) (self : t) (clk : Clock)
  : Outcome bool * t * Clock :=
  on_tracker
    (AttendanceTracker.check_in staff_id name STAFF ""
       (attendance_tracker self) clk) self.

Definition check_out (visitor_id : string) (self : t) (clk : Clock)
  : Outcome bool * t * Clock :=
  on_tracker
    (AttendanceTracker.call (AttendanceTracker.CheckOut visitor_id)
       (attendance_tracker self) clk) self.

(** ** Statistics and history *)

Record LibraryStats : Type := mkStats {
  total_books : Z;
  total_copies : Z;
  available_copies : Z;
  borrowed_copies : Z;
  total_members : Z;
  active_members : Z
}.

Definition sum (l : list Z) : Z := fold_left Z.add l 0.

Definition get_library_stats (self : t) : LibraryStats :=
  let total_books := Z.of_nat (List.length (books self)) in
  let total_copies := sum (map Book.total_copies (dict_values (books self))) in
  let available_copies := sum (map Book.available_copies (dict_values (books self))) in
  let borrowed_copies := total_copies - available_copies in
  let total_members := Z.of_nat (List.length (members self)) in
  let active_members :=
    Z.of_nat (List.length
                (filter (fun m => match Member.borrowed_books m with
                                  | [] => false
                                  | _ :: _ => true
                                  end)
                        (dict_values (members self)))) in
  mkStats total_books total_copies available_copies borrowed_copies
          total_members active_members.

(** [l[i:]]: a negative [i] counts from the end, and both ends clamp. *)
Definition slice_from (A : Type) (i : Z) (l : list A) : list A :=
  let n := Z.of_nat (List.length l) in
  skipn (Z.to_nat (if i <? 0 then Z.max (n + i) 0 else Z.min i n)) l.

Definition get_transaction_history (limit : Z) (self : t) : list Transaction :=
  if limit =? 0 then transactions self
  else slice_from (- limit) (transactions self).

Definition get_current_visitors (self : t) : list AttendanceRecord.t :=
  AttendanceTracker.get_current_visitors (attendance_tracker self).

Definition get_visitor_history (visitor_id : string) (self : t)
  : list AttendanceRecord.t :=
  AttendanceTracker.get_visitor_history visitor_id (attendance_tracker self).

Definition get_daily_attendance_stats (target_date : option date) (self : t)
    (clk : Clock) : AttendanceTracker.Counters * Clock :=
  AttendanceTracker.get_daily_stats target_date (attendance_tracker self) clk.

Definition get_peak_hours (target_date : option date) (self : t) (clk : Clock)
  : AttendanceTracker.PeakHours * Clock :=
  AttendanceTracker.get_peak_hours target_date (attendance_tracker self) clk.

(** ** The mutating calls on books and members, and the states they reach *)

Inductive Op : Type :=
| AddBook (book_id title author isbn category : string) (copies : Z)
| RemoveBook (book_id : string)
| AddMember (member_id name email phone membership_type : string)
| RemoveMember (member_id : string)
| BorrowBook (member_id book_id : string)
| ReturnBook (member_id book_id : string).

Definition call (op : Op) (self : t) (clk : Clock) : Outcome bool * t * Clock :=
  match op with
  | AddBook b ti au i c n => add_book b ti au i c n self clk
  | RemoveBook b => remove_book b self clk
  | AddMember m n e p ty => add_member m n e p ty self clk
  | RemoveMember m => remove_member m self clk
  | BorrowBook m b => borrow_book m b self clk
  | ReturnBook m b => return_book m b self clk
  end.

Fixpoint run (ops : list Op) (self : t) (clk : Clock) : t * Clock :=
  match ops with
  | [] => (self, clk)
  | op :: ops' =>
      let '(_, self', clk') := call op self clk in run ops' self' clk'
  end.

Definition reachable (s : t) : Prop :=
  exists lib_name ops clk, fst (run ops (init lib_name) clk) = s.

End Library.


(* ================================================================== *)
(** * Vocabulary of the properties, and the scenarios they are tried on *)
(* ================================================================== *)

(** What a well-behaved call looks like: it returns a boolean, and when
    that boolean is [False] neither the library nor the clock moved. *)
Definition clean_call (r : Outcome bool * Library.t * Clock)
    (self : Library.t) (clk : Clock) : Prop :=
  exists b self' clk',
    r = (Returns b, self', clk') /\ (b = false -> self' = self /\ clk' = clk).

(** A member holds no more books than the limit fixed when the member
    was created: five for a Premium membership, three for any other. *)
Definition within_limit (m : Member.t) : Prop :=
  Z.of_nat (List.length (Member.borrowed_books m)) <= Member.max_books m
  /\ Member.max_books m
     = (if String.eqb (Member.membership_type m) "Premium" then 5 else 3).

Definition members_within_limit (s : Library.t) : Prop :=
  forall k m, In (k, m) (Library.members s) -> within_limit m.

(** Every book of the catalog accounts for all its copies: those on the
    shelf plus those lent out. *)
Definition copies_accounted (b : Book.t) : Prop :=
  Book.available_copies b + Z.of_nat (List.length (Book.borrowed_by b))
  = Book.total_copies b.

Definition catalog_accounted (s : Library.t) : Prop :=
  forall k b, In (k, b) (Library.books s) -> copies_accounted b.

(** The call lends a book to a member recorded as holding a copy of it
    already. *)
Definition lends_again (op : Library.Op) (s : Library.t) : bool :=
  match op with
  | Library.BorrowBook m b =>
      match Library.get_book b s with
      | Some book => dict_contains m (Book.borrowed_by book)
      | None => false
      end
  | _ => false
  end.

(** ** Scenarios *)

Definition opening_day : list Library.Op :=
  [ Library.AddBook "B1" "Dune" "Frank Herbert" "080442957X" "Fiction" 2;
    Library.AddBook "B2" "Emma" "Jane Austen" "0141439580" "Classics" 1;
    Library.AddMember "M1" "Ada" "ada@example.org" "555-0100" "Regular" ].

(** Midnight of a day in the twenty-first century. *)
Definition opening_time : datetime := 738000 * DAY.

Definition wall_clock : Clock := ticking opening_time 1.

Definition after (ops : list Library.Op) : Library.t :=
  fst (Library.run ops (Library.init "Community Library") wall_clock).

(** M1 holds one copy of B1. *)
Definition one_loan : Library.t :=
  after (opening_day ++ [Library.BorrowBook "M1" "B1"]).

(** M1 holds B1, then B2. *)
Definition two_loans : Library.t :=
  after (opening_day ++ [Library.BorrowBook "M1" "B1"; Library.BorrowBook "M1" "B2"]).

(** M1 has asked for B1 twice in a row. *)
Definition same_book_twice : Library.t :=
  after (opening_day ++ [Library.BorrowBook "M1" "B1"; Library.BorrowBook "M1" "B1"]).

Definition held_by (member_id : string) (s : Library.t) : list string :=
  match Library.get_member member_id s with
  | Some m => Member.borrowed_books m
  | None => []
  end.

Definition on_shelf (book_id : string) (s : Library.t) : Z :=
  match Library.get_book book_id s with
  | Some b => Book.available_copies b
  | None => 0
  end.

(** ** History tuples *)

(** The reading of C9 as it is worded: the tuple added by a successful
    [Member.return_book] carries the same instant twice. *)
Definition history_dates_coincide : Prop :=
  forall (book_id : string) (m m' : Member.t) (clk clk' : Clock),
    Member.return_book book_id m clk = (Returns true, m', clk') ->
    exists t : datetime,
      Member.borrowing_history m' = Member.borrowing_history m ++ [(book_id, t, t)].

Definition reader_with (held : list string) : Member.t :=
  Member.mk "M1" "Ada" "ada@example.org" "555-0100" "Regular" 0 held [] 3.

(** M1, a Regular member, holds three books. *)
Definition full_hands : Library.t :=
  after (opening_day ++
         [ Library.AddBook "B3" "Ulysses" "James Joyce" "0679722769" "Classics" 1;
           Library.BorrowBook "M1" "B1";
           Library.BorrowBook "M1" "B2";
           Library.BorrowBook "M1" "B3" ]).

(** ** Searching *)

(** [q] occurs in [s] as it is written. *)
Definition occurs_in (q s : string) : Prop :=
  exists pre post, s = String.append pre (String.append q post).


Definition known_field (search_type : string) : Prop :=
  search_type = "title" \/ search_type = "author"
  \/ search_type = "category" \/ search_type = "isbn".

(** ** The overdue report *)

Definition Loan : Type := (Book.t * string * datetime)%type.

(** A loan taken at [borrowed_at] is overdue at [t] when more than [days]
    days have passed since. *)
Definition overdue_at (t : datetime) (days : Z) (borrowed_at : datetime) : bool :=
  days * DAY <? t - borrowed_at.

(** The loans to report at [t]: book by book in catalog order, and for
    each book borrower by borrower in the order of [borrowed_by], every
    loan that is overdue -- each once. *)
Definition overdue_loans (t : datetime) (days : Z) (s : Library.t) : list Loan :=
  flat_map
    (fun b =>
       map (fun item : string * datetime => (b, fst item, snd item))
           (filter (fun item : string * datetime => overdue_at t days (snd item))
                   (dict_items (Book.borrowed_by b))))
    (Library.list_all_books s).

(** The entries for the given loans, the first of which is dated with
    reading [k] of the clock, the next with reading [k + 1], and so on. *)
Fixpoint report (s : Library.t) (rd : nat -> datetime) (k : nat)
    (loans : list Loan) : list Library.OverdueEntry :=
  match loans with
  | [] => []
  | (b, member_id, borrowed_at) :: rest =>
      Library.mkOverdue b (Library.get_member member_id s) borrowed_at
        (days_between (rd k) borrowed_at)
      :: report s rd (S k) rest
  end.

(** The instant at which [wall_clock] dates the loan of B1 to M1. *)
Definition lent_at : datetime := opening_time + 4.

(** ** Attendance *)

(** The active records of a visitor. *)
Definition active_records (visitor_id : string) (trk : AttendanceTracker.t)
  : list AttendanceRecord.t :=
  filter (AttendanceTracker.active_for visitor_id)
         (AttendanceTracker.attendance_records trk).

(** How many of the records are active records of the visitor. *)
Definition count_active (v : string) (rs : list AttendanceRecord.t) : nat :=
  List.length (filter (AttendanceTracker.active_for v) rs).

Definition single_presence (trk : AttendanceTracker.t) : Prop :=
  forall v, (List.length (active_records v trk) <= 1)%nat.

(** The records of a visitor among those [get_current_visitors] lists. *)
Definition current_records_of (visitor_id : string) (trk : AttendanceTracker.t)
  : list AttendanceRecord.t :=
  filter (fun r => String.eqb (AttendanceRecord.visitor_id r) visitor_id)
         (AttendanceTracker.get_current_visitors trk).

(** The call is not a check-out of the visitor. *)
Definition keeps_in (visitor_id : string) (op : AttendanceTracker.Op) : bool :=
  match op with
  | AttendanceTracker.CheckOut v => negb (String.eqb v visitor_id)
  | AttendanceTracker.CheckIn _ _ _ _ => true
  end.

Definition busy_morning : list AttendanceTracker.Op :=
  [ AttendanceTracker.CheckIn "V1" "Vera" VISITOR "reading";
    AttendanceTracker.CheckIn "S1" "Sam" STAFF "";
    AttendanceTracker.CheckIn "V2" "Victor" VISITOR "research";
    AttendanceTracker.CheckOut "V2" ].

Definition late_morning : AttendanceTracker.t :=
  fst (AttendanceTracker.run busy_morning AttendanceTracker.init wall_clock).

Definition noon : list AttendanceTracker.Op :=
  [ AttendanceTracker.CheckIn "V2" "Victor" VISITOR "more research";
    AttendanceTracker.CheckOut "S1" ].

(** ** Keys

    The two dicts of the library and the borrowers of each book never hold
    a key twice, and every book sits under its own id. *)
Definition keyed (bs : dict string Book.t) (ms : dict string Member.t) : Prop :=
  distinct_keys bs = true
  /\ distinct_keys ms = true
  /\ forall k b, In (k, b) bs ->
       Book.book_id b = k /\ distinct_keys (Book.borrowed_by b) = true.

Definition well_keyed (s : Library.t) : Prop :=
  keyed (Library.books s) (Library.members s).

(** ** Stock and borrowers *)

(** What survives of the copy count whatever the calls: the copies on the
    shelf and the recorded borrowers never exceed the copies owned, and
    the shelf count of a book owned in non-negative number is never
    negative. *)
Definition stock_bounded (b : Book.t) : Prop :=
  Book.available_copies b + Z.of_nat (List.length (Book.borrowed_by b))
  <= Book.total_copies b
  /\ (0 <= Book.total_copies b -> 0 <= Book.available_copies b).

Definition catalog_bounded (s : Library.t) : Prop :=
  forall k b, In (k, b) (Library.books s) -> stock_bounded b.

(** Every borrower recorded on a book is a member, and that member's
    list names the book. *)
Definition borrowers_known (s : Library.t) : Prop :=
  forall k b m t,
    In (k, b) (Library.books s) -> In (m, t) (Book.borrowed_by b) ->
    exists mem, Library.get_member m s = Some mem
                /\ list_contains k (Member.borrowed_books mem) = true.

(** The tag under which a successful call is logged. *)
Definition action_of (op : Library.Op) : string :=
  match op with
  | Library.AddBook _ _ _ _ _ _ => "ADD_BOOK"
  | Library.RemoveBook _ => "REMOVE_BOOK"
  | Library.AddMember _ _ _ _ _ => "ADD_MEMBER"
  | Library.RemoveMember _ => "REMOVE_MEMBER"
  | Library.BorrowBook _ _ => "BORROW"
  | Library.ReturnBook _ _ => "RETURN"
  end.

(** ** The transitions of the two dicts

    What one call can do to the books and the members of a library [s]:
    nothing, or one of six updates, each with the facts that the guards
    of the call have established. *)
Inductive change (s : Library.t)
  : dict string Book.t -> dict string Member.t -> Prop :=
| change_nothing :
    change s (Library.books s) (Library.members s)
| change_add_book b ti au i c n :
    dict_contains b (Library.books s) = false ->
    change s (dict_set b (Book.init b ti au i c n) (Library.books s))
             (Library.members s)
| change_remove_book b book bs :
    Library.get_book b s = Some book ->
    Book.total_copies book <= Book.available_copies book ->
    dict_del b (Library.books s) = Returns bs ->
    change s bs (Library.members s)
| change_add_member m n e p ty clk :
    dict_contains m (Library.members s) = false ->
    change s (Library.books s)
             (dict_set m (fst (Member.init m n e p ty clk)) (Library.members s))
| change_remove_member m mem ms :
    Library.get_member m s = Some mem ->
    Member.borrowed_books mem = [] ->
    dict_del m (Library.members s) = Returns ms ->
    change s (Library.books s) ms
| change_borrow m b mem book t :
    Library.get_member m s = Some mem ->
    Library.get_book b s = Some book ->
    Member.can_borrow mem = true ->
    Book.is_available book = true ->
    change s
      (dict_set b
         (Book.with_loans (Book.available_copies book - 1)
            (dict_set m t (Book.borrowed_by book)) book)
         (Library.books s))
      (dict_set m
         (Member.with_loans (Member.borrowed_books mem ++ [b])
            (Member.borrowing_history mem) mem)
         (Library.members s))
| change_return m b mem book loans held t1 t2 :
    Library.get_member m s = Some mem ->
    Library.get_book b s = Some book ->
    dict_del m (Book.borrowed_by book) = Returns loans ->
    list_remove b (Member.borrowed_books mem) = Returns held ->
    change s
      (dict_set b (Book.with_loans (Book.available_copies book + 1) loans book)
                (Library.books s))
      (dict_set m
         (Member.with_loans held
            (Member.borrowing_history mem ++ [(b, t1, t2)]) mem)
         (Library.members s)).

(** ** The log *)

(** The entries that [newer] has after those of [older]. *)
Definition logged_since (older newer : Library.t) : list Library.Transaction :=
  skipn (List.length (Library.transactions older)) (Library.transactions newer).

(** The number of recorded loans of the catalog. *)
Definition recorded_loans (s : Library.t) : Z :=
  Library.sum (map (fun b => Z.of_nat (List.length (Book.borrowed_by b)))
                   (Library.list_all_books s)).

(** ** Attendance figures *)

(** What a record says of the visit, apart from its end. *)
Definition visit_of (r : AttendanceRecord.t)
  : string * string * VisitorType * datetime * string :=
  (AttendanceRecord.visitor_id r, AttendanceRecord.name r,
   AttendanceRecord.visitor_type r, AttendanceRecord.entry_time r,
   AttendanceRecord.purpose r).

(** The figure kept under [key] in the counters of a day; a missing key
    counts for nothing. *)
Definition figure (key : string) (counters : AttendanceTracker.Counters) : Z :=
  match dict_get key counters with
  | Some n => n
  | None => 0
  end.

(** The figure kept under [key], summed over all days. *)
Definition overall (key : string) (trk : AttendanceTracker.t) : Z :=
  Library.sum (map (fun day => figure key (snd day))
                   (AttendanceTracker.daily_stats trk)).

(** The counters of a day have the four keys of [zero_counters], in that
    order, and nothing is counted under [staff]. *)
Definition counters_shape (c : AttendanceTracker.Counters) : Prop :=
  exists t m v,
    c = [("total_visitors", t); ("members", m); ("visitors", v); ("staff", 0)]
    /\ 0 <= m /\ 0 <= v /\ m + v <= t.

Definition is_of_type (vt : VisitorType) (r : AttendanceRecord.t) : bool :=
  match vt, AttendanceRecord.visitor_type r with
  | MEMBER, MEMBER | VISITOR, VISITOR | STAFF, STAFF => true
  | _, _ => false
  end.

(** The records of a given type. *)
Definition records_of_type (vt : VisitorType) (trk : AttendanceTracker.t)
  : list AttendanceRecord.t :=
  filter (is_of_type vt) (AttendanceTracker.attendance_records trk).

Definition figures_match (trk : AttendanceTracker.t) : Prop :=
  (forall d c, In (d, c) (AttendanceTracker.daily_stats trk) -> counters_shape c)
  /\ overall "total_visitors" trk
     = Z.of_nat (List.length (AttendanceTracker.attendance_records trk))
  /\ overall "members" trk = Z.of_nat (List.length (records_of_type MEMBER trk))
  /\ overall "visitors" trk = Z.of_nat (List.length (records_of_type VISITOR trk)).

(** ** Records over time *)

(** A record and what a later state may hold in its place: the record
    itself or, when it was active, a record of the same visit. *)
Definition kept (r r' : AttendanceRecord.t) : Prop :=
  r' = r \/ (AttendanceRecord.is_active r = true /\ visit_of r' = visit_of r).

(** The later records hold the earlier ones, place by place, and then
    possibly more. *)
Definition extends (rs rs' : list AttendanceRecord.t) : Prop :=
  exists upd extra, rs' = upd ++ extra /\ Forall2 kept rs upd.

(** ** Peak hours *)

(** How many of the records were entered during hour [h]. *)
Definition entered_at (h : Z) (rs : list AttendanceRecord.t) : Z :=
  Z.of_nat
    (List.length
       (filter (fun r => Z.eqb (AttendanceTracker.hour_of (AttendanceRecord.entry_time r)) h)
               rs)).

(** The breakdown that goes with the records: an hour is listed exactly
    when some record was entered in it, with the number of such
    records. *)
Definition breakdown_of (rs : list AttendanceRecord.t) (counts : dict Z Z) : Prop :=
  distinct_keys counts = true
  /\ forall h, dict_get h counts
               = if entered_at h rs =? 0 then None else Some (entered_at h rs).

(** Three check-ins on the opening day, at 9, at 9 and at 14 o'clock. *)
Definition nine_nine_fourteen : Clock :=
  mkClock (fun n => opening_time
                    + (if (n <? 4)%nat then 9 else 14) * AttendanceTracker.HOUR
                    + Z.of_nat n) 0.

Definition three_arrivals : AttendanceTracker.t :=
  fst (AttendanceTracker.run
         [ AttendanceTracker.CheckIn "V1" "Vera" VISITOR "";
           AttendanceTracker.CheckIn "V2" "Victor" VISITOR "";
           AttendanceTracker.CheckIn "V3" "Vic" VISITOR "" ]
         AttendanceTracker.init nine_nine_fourteen).


(* ================================================================== *)
(** * Facts about the runtime model                                    *)
(* ================================================================== *)

Section DictFacts.
Context {K V : Type} `{Hashable K}.

Lemma key_eqb_refl (k : K) : key_eqb k k = true.
Proof. now apply key_eqb_eq. Qed.

Lemma key_eqb_neq (k k' : K) : k <> k' -> key_eqb k k' = false.
Proof.
  intros Hne. destruct (key_eqb k k') eqn:E; [|reflexivity].
  apply key_eqb_eq in E. contradiction.
Qed.

Lemma dict_set_same (k : K) (v : V) (d : dict K V) :
  dict_get k d = Some v -> dict_set k v d = d.
Proof.
  induction d as [|[k' v'] d IH]; simpl; [discriminate|].
  destruct (key_eqb k k').
  - now intros [= ->].
  - intros Hg. now rewrite IH.
Qed.

Lemma dict_get_set_same (k : K) (v : V) (d : dict K V) :
  dict_get k (dict_set k v d) = Some v.
Proof.
  induction d as [|[k' v'] d IH]; simpl.
  - now rewrite key_eqb_refl.
  - destruct (key_eqb k k') eqn:E; simpl; now rewrite E.
Qed.

Lemma dict_get_set_other (k k' : K) (v : V) (d : dict K V) :
  k <> k' -> dict_get k' (dict_set k v d) = dict_get k' d.
Proof.
  intros Hne. induction d as [|[k0 v0] d IH]; simpl.
  - rewrite key_eqb_neq; [reflexivity|congruence].
  - destruct (key_eqb k k0) eqn:E; simpl.
    + apply key_eqb_eq in E. subst k0.
      rewrite key_eqb_neq; [reflexivity|congruence].
    + now rewrite IH.
Qed.

Lemma dict_del_present (k : K) (d : dict K V) :
  dict_contains k d = true -> exists d', dict_del k d = Returns d'.
Proof.
  unfold dict_contains.
  induction d as [|[k' v'] d IH]; simpl; [discriminate|].
  destruct (key_eqb k k').
  - eauto.
  - intros Hc. destruct (IH Hc) as [d' ->]. eauto.
Qed.

Lemma dict_item_present (k : K) (d : dict K V) :
  dict_contains k d = true -> exists v, dict_item k d = Returns v.
Proof.
  unfold dict_contains, dict_item. destruct (dict_get k d); [eauto|discriminate].
Qed.

Lemma dict_set_In (k : K) (v : V) (d : dict K V) (x : K * V) :
  In x (dict_set k v d) -> In x d \/ snd x = v.
Proof.
  induction d as [|[k' v'] d IH]; simpl.
  - intros [<-|[]]. now right.
  - destruct (key_eqb k k'); simpl.
    + intros [<-|Hin]; auto.
    + intros [<-|Hin]; auto. destruct (IH Hin); auto.
Qed.

Lemma dict_del_In (k : K) (d d' : dict K V) (x : K * V) :
  dict_del k d = Returns d' -> In x d' -> In x d.
Proof.
  revert d'. induction d as [|[k' v'] d IH]; simpl; intros d'; [discriminate|].
  destruct (key_eqb k k').
  - intros [= <-]. auto.
  - destruct (dict_del k d) as [d''|e]; [|discriminate].
    intros [= <-] [<-|Hin]; eauto.
Qed.

Lemma dict_get_In (k : K) (v : V) (d : dict K V) :
  dict_get k d = Some v -> exists k', In (k', v) d.
Proof.
  induction d as [|[k' v'] d IH]; simpl; [discriminate|].
  destruct (key_eqb k k').
  - intros [= ->]. eauto.
  - intros Hg. destruct (IH Hg) as [k0 Hin]. eauto.
Qed.

End DictFacts.

Lemma list_remove_present (x : string) (l : list string) :
  list_contains x l = true -> exists l', list_remove x l = Returns l'.
Proof.
  unfold list_contains.
  induction l as [|y l IH]; simpl; [discriminate|].
  destruct (String.eqb x y); simpl.
  - eauto.
  - intros Hc. destruct (IH Hc) as [l' ->]. eauto.
Qed.

Lemma list_remove_length (x : string) (l l' : list string) :
  list_remove x l = Returns l' -> List.length l = S (List.length l').
Proof.
  revert l'. induction l as [|y l IH]; simpl; intros l'; [discriminate|].
  destruct (String.eqb x y).
  - now intros [= ->].
  - destruct (list_remove x l) as [l''|e]; [|discriminate].
    intros [= <-]. simpl. f_equal. now apply IH.
Qed.

(* ================================================================== *)
(** * Rejected calls leave the aggregate alone                         *)
(* ================================================================== *)

Lemma clean_reject (self : Library.t) (clk : Clock) :
  clean_call (Returns false, self, clk) self clk.
Proof. exists false, self, clk. auto. Qed.

Lemma clean_accept (self self' : Library.t) (clk clk' : Clock) :
  clean_call (Returns true, self', clk') self clk.
Proof. exists true, self', clk'. split; [reflexivity|discriminate]. Qed.

Create HintDb clean.
#[local] Hint Resolve clean_reject clean_accept : clean.

Ltac clean := unfold Library._log_transaction; simpl; auto with clean.

Lemma set_books_same (self : Library.t) :
  Library.set_books (Library.books self) self = self.
Proof. now destruct self. Qed.

Lemma set_members_same (self : Library.t) :
  Library.set_members (Library.members self) self = self.
Proof. now destruct self. Qed.

Lemma add_book_clean b ti au i c n self clk :
  clean_call (Library.add_book b ti au i c n self clk) self clk.
Proof.
  unfold Library.add_book.
  destruct (dict_contains b (Library.books self)); clean.
Qed.

Lemma remove_book_clean b self clk :
  clean_call (Library.remove_book b self clk) self clk.
Proof.
  unfold Library.remove_book.
  destruct (dict_contains b (Library.books self)) eqn:Hin; clean.
  destruct (dict_item_present _ _ Hin) as [book ->].
  destruct (Book.available_copies book <? Book.total_copies book); clean.
  destruct (dict_del_present _ _ Hin) as [bs ->]. clean.
Qed.

Lemma add_member_clean m n e p ty self clk :
  clean_call (Library.add_member m n e p ty self clk) self clk.
Proof.
  unfold Library.add_member.
  destruct (dict_contains m (Library.members self)); clean.
Qed.

Lemma remove_member_clean m self clk :
  clean_call (Library.remove_member m self clk) self clk.
Proof.
  unfold Library.remove_member.
  destruct (dict_contains m (Library.members self)) eqn:Hin; clean.
  destruct (dict_item_present _ _ Hin) as [member ->].
  destruct (Member.borrowed_books member); clean.
  destruct (dict_del_present _ _ Hin) as [ms ->]. clean.
Qed.

(** After the two guards of [borrow_book] both method calls succeed, so
    the branches that would keep half of the update are never taken. *)
Lemma borrow_book_clean m b self clk :
  clean_call (Library.borrow_book m b self clk) self clk.
Proof.
  unfold Library.borrow_book.
  destruct (Library.get_member m self) as [member|]; clean.
  destruct (Library.get_book b self) as [book|]; clean.
  destruct (Member.can_borrow member) eqn:Hcan; clean.
  destruct (Book.is_available book) eqn:Hav; clean.
  unfold Book.borrow. rewrite Hav. simpl.
  unfold Member.borrow_book. rewrite Hcan. clean.
Qed.

(** [Book.return_book] may refuse (the member is not among the borrowers
    of the book); it has then changed nothing, and [Member.return_book]
    is not reached. *)
Lemma return_book_clean m b self clk :
  clean_call (Library.return_book m b self clk) self clk.
Proof.
  unfold Library.return_book.
  destruct (Library.get_member m self) as [member|] eqn:Hm; clean.
  destruct (Library.get_book b self) as [book|] eqn:Hb; clean.
  destruct (list_contains b (Member.borrowed_books member)) eqn:Hheld;
    clean.
  unfold Book.return_book.
  destruct (dict_contains m (Book.borrowed_by book)) eqn:Hloan.
  - destruct (dict_del_present _ _ Hloan) as [loans ->].
    unfold Member.return_book. rewrite Hheld.
    destruct (list_remove_present _ _ Hheld) as [held ->].
    clean.
  - unfold Library.get_book in Hb.
    rewrite (dict_set_same _ _ Hb), set_books_same. clean.
Qed.

(** C3.  Each of [add_book], [remove_book], [add_member], [remove_member],
    [borrow_book] and [return_book] returns a boolean from every state and
    never raises; when it returns [False], the books, the members, the
    transaction log (and the rest of the aggregate) are what they were
    before the call. *)
Theorem rejected_call_changes_nothing :
  forall (op : Library.Op) (self : Library.t) (clk : Clock),
  exists (b : bool) (self' : Library.t) (clk' : Clock),
    Library.call op self clk = (Returns b, self', clk')
    /\ (b = false -> self' = self /\ clk' = clk).
Proof.
  intros op self clk.
  destruct op; simpl.
  - apply add_book_clean.
  - apply remove_book_clean.
  - apply add_member_clean.
  - apply remove_member_clean.
  - apply borrow_book_clean.
  - apply return_book_clean.
Qed.

(* ================================================================== *)
(** * The borrowing limit                                              *)
(* ================================================================== *)

Lemma within_limit_init m n e p ty clk :
  within_limit (fst (Member.init m n e p ty clk)).
Proof.
  unfold within_limit, Member.init. simpl.
  split; [|reflexivity]. destruct (String.eqb ty "Premium"); lia.
Qed.

Lemma within_limit_borrow b m :
  within_limit m -> within_limit (snd (Member.borrow_book b m)).
Proof.
  unfold Member.borrow_book. destruct (Member.can_borrow m) eqn:Hcan; auto.
  unfold within_limit, Member.can_borrow in *. simpl.
  intros [_ Hmax]. split; [|exact Hmax].
  rewrite length_app. simpl. apply Z.ltb_lt in Hcan. lia.
Qed.

Lemma within_limit_return b m clk :
  within_limit m -> within_limit (snd (fst (Member.return_book b m clk))).
Proof.
  unfold Member.return_book.
  destruct (list_contains b (Member.borrowed_books m)); auto.
  destruct (list_remove b (Member.borrowed_books m)) as [held|e] eqn:Hrm; auto.
  unfold within_limit. simpl. intros [Hlen Hmax]. split; [|exact Hmax].
  apply list_remove_length in Hrm. lia.
Qed.

Lemma members_stored m member s :
  members_within_limit s -> within_limit member ->
  forall k x, In (k, x) (dict_set m member (Library.members s)) -> within_limit x.
Proof.
  intros Hs Hm k x Hin. apply dict_set_In in Hin. destruct Hin as [Hin|Heq].
  - eapply Hs, Hin.
  - simpl in Heq. now subst x.
Qed.

Lemma member_found m member s :
  members_within_limit s -> Library.get_member m s = Some member ->
  within_limit member.
Proof.
  intros Hs Hg. apply dict_get_In in Hg. destruct Hg as [k Hin]. eapply Hs, Hin.
Qed.

Lemma call_keeps_limit op s clk :
  members_within_limit s ->
  members_within_limit (snd (fst (Library.call op s clk))).
Proof.
  intros Hs. destruct op; simpl.
  - unfold Library.add_book.
    destruct (dict_contains book_id (Library.books s)); exact Hs.
  - unfold Library.remove_book.
    destruct (dict_contains book_id (Library.books s)); simpl; [|exact Hs].
    destruct (dict_item book_id (Library.books s)) as [book|e]; [|exact Hs].
    destruct (Book.available_copies book <? Book.total_copies book); [exact Hs|].
    destruct (dict_del book_id (Library.books s)); exact Hs.
  - unfold Library.add_member.
    destruct (dict_contains member_id (Library.members s)); [exact Hs|].
    simpl. intros k x. apply members_stored; [exact Hs|].
    apply (within_limit_init member_id name email phone membership_type clk).
  - unfold Library.remove_member.
    destruct (dict_contains member_id (Library.members s)); simpl; [|exact Hs].
    destruct (dict_item member_id (Library.members s)) as [member|e]; [|exact Hs].
    destruct (Member.borrowed_books member); [|exact Hs].
    destruct (dict_del member_id (Library.members s)) as [ms|e] eqn:Hdel; [|exact Hs].
    simpl. intros k x Hin. eapply Hs, dict_del_In; eauto.
  - unfold Library.borrow_book.
    destruct (Library.get_member member_id s) as [member|] eqn:Hm; [|exact Hs].
    destruct (Library.get_book book_id s) as [book|]; [|exact Hs].
    destruct (Member.can_borrow member) eqn:Hcan; simpl; [|exact Hs].
    destruct (Book.is_available book) eqn:Hav; simpl; [|exact Hs].
    unfold Book.borrow. rewrite Hav. simpl.
    pose proof (within_limit_borrow book_id (member_found _ Hs Hm)) as Hb.
    destruct (Member.borrow_book book_id member) as [ok2 member'].
    destruct ok2; simpl in *; intros k x; now apply members_stored.
  - unfold Library.return_book.
    destruct (Library.get_member member_id s) as [member|] eqn:Hm; [|exact Hs].
    destruct (Library.get_book book_id s) as [book|]; [|exact Hs].
    destruct (list_contains book_id (Member.borrowed_books member));
      simpl; [|exact Hs].
    destruct (Book.return_book member_id book) as [[[|]|e] book']; simpl;
      try exact Hs.
    pose proof (within_limit_return book_id clk (member_found _ Hs Hm)) as Hr.
    destruct (Member.return_book book_id member clk) as [[[[|]|e] member'] clk1];
      simpl in *; intros k x; now apply members_stored.
Qed.

Lemma run_keeps_limit ops : forall s clk,
  members_within_limit s -> members_within_limit (fst (Library.run ops s clk)).
Proof.
  induction ops as [|op ops IH]; intros s clk Hs; simpl; [exact Hs|].
  pose proof (call_keeps_limit op clk Hs) as Hstep.
  destruct (Library.call op s clk) as [[r s'] clk']. now apply IH.
Qed.

Lemma reachable_within_limit s :
  Library.reachable s -> members_within_limit s.
Proof.
  intros (lib_name & ops & clk & <-). apply run_keeps_limit.
  intros k m [].
Qed.

(** C8.  In every state reached from an empty library, every member holds
    at most [max_books] books, and [max_books] is 5 exactly for a Premium
    membership and 3 for any other; a Regular member who already holds
    three books is refused by [borrow_book], which leaves the state as it
    was. *)
Theorem borrowing_limit_respected :
  forall (s : Library.t), Library.reachable s ->
    (forall k m, In (k, m) (Library.members s) ->
       Z.of_nat (List.length (Member.borrowed_books m)) <= Member.max_books m
       /\ (Member.max_books m = 5 <-> Member.membership_type m = "Premium")
       /\ (Member.membership_type m <> "Premium" -> Member.max_books m = 3))
    /\ (forall member_id book_id m clk,
          Library.get_member member_id s = Some m ->
          Member.membership_type m = "Regular" ->
          List.length (Member.borrowed_books m) = 3%nat ->
          Library.borrow_book member_id book_id s clk = (Returns false, s, clk)).
Proof.
  intros s Hr. apply reachable_within_limit in Hr. split.
  - intros k m Hin. destruct (Hr k m Hin) as [Hlen Hmax].
    split; [exact Hlen|].
    destruct (String.eqb (Member.membership_type m) "Premium") eqn:E.
    + apply String.eqb_eq in E. split; [tauto|]. intros Hne. contradiction.
    + apply String.eqb_neq in E. split; [|auto].
      split; [lia|contradiction].
  - intros member_id book_id m clk Hm Hty Hlen.
    destruct (member_found _ Hr Hm) as [_ Hmax].
    rewrite Hty in Hmax. simpl in Hmax.
    unfold Library.borrow_book. rewrite Hm.
    assert (Hcan : Member.can_borrow m = false).
    { unfold Member.can_borrow. rewrite Hlen, Hmax. reflexivity. }
    rewrite Hcan. simpl. now destruct (Library.get_book book_id s).
Qed.

(* ================================================================== *)
(** * Lending the same book twice to one member                        *)
(* ================================================================== *)

Lemma after_reachable ops : Library.reachable (after ops).
Proof. exists "Community Library", ops, wall_clock. reflexivity. Qed.

(** C2.  [borrow_book] has no guard against a member asking again for a
    book already held: with M1 holding B1 and a copy of B1 still on the
    shelf, the second call returns [True] and M1's list then names B1
    twice. *)
Theorem second_borrow_of_held_book_accepted :
  Library.reachable one_loan
  /\ held_by "M1" one_loan = ["B1"]
  /\ (exists s' clk',
        Library.borrow_book "M1" "B1" one_loan wall_clock = (Returns true, s', clk')
        /\ held_by "M1" s' = ["B1"; "B1"]).
Proof.
  split; [apply after_reachable|]. split; [reflexivity|].
  eexists _, _. split; reflexivity.
Qed.

(** C1.  After M1 has borrowed B1 twice in a row the library is in a
    reachable state where B1 has no copy on the shelf and one recorded
    borrower, out of two copies: 0 + 1 is not 2. *)
Theorem copy_count_lost_after_double_borrow :
  Library.reachable same_book_twice
  /\ exists b : Book.t,
       In ("B1", b) (Library.books same_book_twice)
       /\ Book.available_copies b = 0
       /\ List.length (Book.borrowed_by b) = 1%nat
       /\ Book.total_copies b = 2
       /\ ~ copies_accounted b.
Proof.
  split; [apply after_reachable|].
  eexists. split; [left; reflexivity|].
  repeat split. unfold copies_accounted. simpl. discriminate.
Qed.

(** C4.  From the reachable state where M1 holds B1 then B2, borrowing B1
    again succeeds and the return that follows succeeds; the copies of B1
    on the shelf are back to what they were, but M1's list is now B2, B1
    instead of B1, B2. *)
Theorem roundtrip_reorders_borrowed_books :
  Library.reachable two_loans
  /\ held_by "M1" two_loans = ["B1"; "B2"]
  /\ exists s1 clk1 s2 clk2,
       Library.borrow_book "M1" "B1" two_loans wall_clock = (Returns true, s1, clk1)
       /\ Library.return_book "M1" "B1" s1 clk1 = (Returns true, s2, clk2)
       /\ on_shelf "B1" s2 = on_shelf "B1" two_loans
       /\ held_by "M1" s2 = ["B2"; "B1"]
       /\ held_by "M1" s2 <> held_by "M1" two_loans.
Proof.
  split; [apply after_reachable|]. split; [reflexivity|].
  eexists _, _, _, _.
  split; [reflexivity|]. split; [reflexivity|]. split; [reflexivity|].
  split; [reflexivity|]. discriminate.
Qed.

(** ** Where the count holds

    The defect above is the only way to lose a copy: every call that does
    not lend a book to a member already recorded among its borrowers keeps
    all copies accounted for. *)

Section DictSize.
Context {K V : Type} `{Hashable K}.

Lemma dict_set_new_length (k : K) (v : V) (d : dict K V) :
  dict_contains k d = false ->
  List.length (dict_set k v d) = S (List.length d).
Proof.
  unfold dict_contains.
  induction d as [|[k' v'] d IH]; simpl; [reflexivity|].
  destruct (key_eqb k k'); [discriminate|].
  intros Hc. simpl. now rewrite IH.
Qed.

Lemma dict_del_length (k : K) (d d' : dict K V) :
  dict_del k d = Returns d' -> List.length d = S (List.length d').
Proof.
  revert d'. induction d as [|[k' v'] d IH]; simpl; intros d'; [discriminate|].
  destruct (key_eqb k k').
  - now intros [= ->].
  - destruct (dict_del k d) as [d''|e]; [|discriminate].
    intros [= <-]. simpl. f_equal. now apply IH.
Qed.

Lemma dict_contains_set (k : K) (v : V) (d : dict K V) :
  dict_contains k (dict_set k v d) = true.
Proof. unfold dict_contains. now rewrite dict_get_set_same. Qed.

End DictSize.

Lemma copies_accounted_init b ti au i c n :
  copies_accounted (Book.init b ti au i c n).
Proof. unfold copies_accounted. simpl. lia. Qed.

Lemma copies_accounted_borrow m book clk :
  copies_accounted book ->
  dict_contains m (Book.borrowed_by book) = false ->
  copies_accounted (snd (fst (Book.borrow m book clk))).
Proof.
  unfold Book.borrow. destruct (Book.is_available book); auto.
  unfold copies_accounted. simpl. intros Hacc Hnew.
  rewrite (dict_set_new_length _ _ _ Hnew). lia.
Qed.

Lemma copies_accounted_return m book :
  copies_accounted book ->
  copies_accounted (snd (Book.return_book m book)).
Proof.
  unfold Book.return_book.
  destruct (dict_contains m (Book.borrowed_by book)) eqn:Hloan; auto.
  destruct (dict_del_present _ _ Hloan) as [loans Hdel]. rewrite Hdel.
  unfold copies_accounted. simpl. intros Hacc.
  apply dict_del_length in Hdel. lia.
Qed.

Lemma books_stored b book s :
  catalog_accounted s -> copies_accounted book ->
  forall k x, In (k, x) (dict_set b book (Library.books s)) -> copies_accounted x.
Proof.
  intros Hs Hb k x Hin. apply dict_set_In in Hin. destruct Hin as [Hin|Heq].
  - eapply Hs, Hin.
  - simpl in Heq. now subst x.
Qed.

Lemma book_found b book s :
  catalog_accounted s -> Library.get_book b s = Some book ->
  copies_accounted book.
Proof.
  intros Hs Hg. apply dict_get_In in Hg. destruct Hg as [k Hin]. eapply Hs, Hin.
Qed.

Lemma call_keeps_count op s clk :
  catalog_accounted s -> lends_again op s = false ->
  catalog_accounted (snd (fst (Library.call op s clk))).
Proof.
  intros Hs Hop. destruct op; simpl.
  - unfold Library.add_book.
    destruct (dict_contains book_id (Library.books s)); [exact Hs|].
    simpl. intros k x. apply books_stored; [exact Hs|].
    apply copies_accounted_init.
  - unfold Library.remove_book.
    destruct (dict_contains book_id (Library.books s)); simpl; [|exact Hs].
    destruct (dict_item book_id (Library.books s)) as [book|e]; [|exact Hs].
    destruct (Book.available_copies book <? Book.total_copies book); [exact Hs|].
    destruct (dict_del book_id (Library.books s)) as [bs|e] eqn:Hdel; [|exact Hs].
    simpl. intros k x Hin. eapply Hs, dict_del_In; eauto.
  - unfold Library.add_member.
    destruct (dict_contains member_id (Library.members s)); exact Hs.
  - unfold Library.remove_member.
    destruct (dict_contains member_id (Library.members s)); simpl; [|exact Hs].
    destruct (dict_item member_id (Library.members s)) as [member|e]; [|exact Hs].
    destruct (Member.borrowed_books member); [|exact Hs].
    destruct (dict_del member_id (Library.members s)); exact Hs.
  - unfold Library.borrow_book.
    destruct (Library.get_member member_id s) as [member|]; [|exact Hs].
    simpl in Hop.
    destruct (Library.get_book book_id s) as [book|] eqn:Hb; [|exact Hs].
    destruct (Member.can_borrow member); simpl; [|exact Hs].
    destruct (Book.is_available book); simpl; [|exact Hs].
    pose proof (copies_accounted_borrow member_id clk (book_found _ Hs Hb) Hop) as Hb'.
    destruct (Book.borrow member_id book clk) as [[ok1 book'] clk1].
    simpl in Hb'.
    destruct ok1; [|simpl; intros k x; now apply books_stored].
    destruct (Member.borrow_book book_id member) as [ok2 member'].
    destruct ok2; simpl; intros k x; now apply books_stored.
  - unfold Library.return_book.
    destruct (Library.get_member member_id s) as [member|]; [|exact Hs].
    destruct (Library.get_book book_id s) as [book|] eqn:Hb; [|exact Hs].
    destruct (list_contains book_id (Member.borrowed_books member));
      simpl; [|exact Hs].
    pose proof (copies_accounted_return member_id (book_found _ Hs Hb)) as Hb'.
    destruct (Book.return_book member_id book) as [r1 book']. simpl in Hb'.
    destruct r1 as [[|]|e]; try (simpl; intros k x; now apply books_stored).
    destruct (Member.return_book book_id member clk) as [[[[|]|e] member'] clk1];
      simpl; intros k x; now apply books_stored.
Qed.

(** ** Borrow then return, for a book the member did not hold *)

Lemma list_remove_last (b : string) (l : list string) :
  list_contains b l = false -> list_remove b (l ++ [b]) = Returns l.
Proof.
  unfold list_contains.
  induction l as [|y l IH]; simpl.
  - now rewrite String.eqb_refl.
  - destruct (String.eqb b y); simpl; [discriminate|].
    intros Hc. now rewrite IH.
Qed.

Lemma list_contains_last (b : string) (l : list string) :
  list_contains b (l ++ [b]) = true.
Proof.
  unfold list_contains. rewrite existsb_app. simpl.
  rewrite String.eqb_refl. now rewrite orb_true_r.
Qed.

Lemma borrow_then_return m b s clk s1 clk1 :
  Library.borrow_book m b s clk = (Returns true, s1, clk1) ->
  list_contains b (held_by m s) = false ->
  exists s2 clk2,
    Library.return_book m b s1 clk1 = (Returns true, s2, clk2)
    /\ on_shelf b s2 = on_shelf b s
    /\ held_by m s2 = held_by m s.
Proof.
  unfold Library.borrow_book, held_by, on_shelf.
  destruct (Library.get_member m s) as [member|] eqn:Hm; [|discriminate].
  destruct (Library.get_book b s) as [book|] eqn:Hb; [|discriminate].
  destruct (Member.can_borrow member) eqn:Hcan; [|discriminate].
  destruct (Book.is_available book) eqn:Hav; [|discriminate].
  unfold Book.borrow, Member.borrow_book. rewrite Hav, Hcan. simpl.
  intros [= <- <-] Hnew.
  unfold Library.return_book, Library.get_member, Library.get_book. simpl.
  rewrite !dict_get_set_same. simpl.
  rewrite list_contains_last. simpl.
  unfold Book.return_book. simpl. rewrite dict_contains_set.
  destruct (dict_del_present m (dict_set m (reading clk (ticks clk)) (Book.borrowed_by book))
              (dict_contains_set _ _ _)) as [loans ->].
  unfold Member.return_book. simpl.
  rewrite list_contains_last, (list_remove_last _ _ Hnew). simpl.
  eexists _, _. split; [reflexivity|].
  unfold Library.get_member, Library.get_book. simpl.
  rewrite !dict_get_set_same. simpl. split; [lia|reflexivity].
Qed.

Lemma full_hands_member :
  exists m, Library.get_member "M1" full_hands = Some m
            /\ Member.membership_type m = "Regular"
            /\ List.length (Member.borrowed_books m) = 3%nat.
Proof. eexists. repeat split. Qed.

Lemma borrowing_limit_respected_witness :
  Library.reachable full_hands
  /\ Library.borrow_book "M1" "B1" full_hands wall_clock
     = (Returns false, full_hands, wall_clock).
Proof.
  split; [apply after_reachable|].
  refine (proj2 (borrowing_limit_respected (after_reachable _))
                "M1" "B1" _ wall_clock _ _ _); reflexivity.
Defined.

(* ================================================================== *)
(** * What a return writes into the history                            *)
(* ================================================================== *)

(** C9, as worded, does not hold: [Member.return_book] reads the clock
    twice, and on a clock that has moved between the two readings the
    tuple carries two different instants. *)
Lemma history_dates_can_differ : ~ history_dates_coincide.
Proof.
  intros Hsame.
  destruct (Hsame "B1" (reader_with ["B1"]) _ wall_clock _ eq_refl) as [t Ht].
  simpl in Ht. injection Ht as H1 H2. rewrite <- H1 in H2. discriminate.
Qed.

(** C9, amended.  A successful [Member.return_book] removes the first
    occurrence of the book from [borrowed_books] and appends exactly one
    tuple to [borrowing_history]; its two dates are the two successive
    clock readings taken during the return, in that order, whatever the
    time at which the book was borrowed.  They are equal when the clock
    shows the same instant at both readings. *)
Theorem return_records_two_clock_readings :
  forall (book_id : string) (m : Member.t) (clk : Clock),
    list_contains book_id (Member.borrowed_books m) = true ->
    exists held : list string,
      list_remove book_id (Member.borrowed_books m) = Returns held
      /\ Member.return_book book_id m clk
         = (Returns true,
            Member.with_loans held
              (Member.borrowing_history m
               ++ [(book_id, reading clk (ticks clk), reading clk (S (ticks clk)))])
              m,
            mkClock (reading clk) (S (S (ticks clk)))).
Proof.
  intros book_id m clk Hheld.
  destruct (list_remove_present _ _ Hheld) as [held Hrm].
  exists held. split; [exact Hrm|].
  unfold Member.return_book. rewrite Hheld, Hrm. reflexivity.
Qed.

Lemma return_records_two_clock_readings_witness :
  exists held : list string,
    list_remove "B1" (Member.borrowed_books (reader_with ["B2"; "B1"])) = Returns held
    /\ Member.return_book "B1" (reader_with ["B2"; "B1"]) wall_clock
       = (Returns true,
          Member.with_loans held [("B1", opening_time, opening_time + 1)]
            (reader_with ["B2"; "B1"]),
          mkClock (reading wall_clock) 2).
Proof.
  exact (return_records_two_clock_readings "B1" (reader_with ["B2"; "B1"])
           wall_clock eq_refl).
Defined.

(* ================================================================== *)
(** * Searching the catalog                                            *)
(* ================================================================== *)

Lemma collect_is_filter (A : Type) (p : A -> bool) (l : list A) : forall acc,
  fold_left (fun results x => if p x then results ++ [x] else results) l acc
  = acc ++ filter p l.
Proof.
  induction l as [|x l IH]; intros acc; simpl.
  - now rewrite app_nil_r.
  - rewrite IH. destruct (p x); [|reflexivity].
    now rewrite <- app_assoc.
Qed.

(** The loop of [search_books] keeps the books that pass its test, in the
    order of the catalog, which is the order in which they were added. *)
Lemma search_books_in_order query search_type self :
  Library.search_books query search_type self
  = filter (Library.search_hit (lower query) search_type)
           (Library.list_all_books self).
Proof. unfold Library.search_books. now rewrite collect_is_filter. Qed.

Lemma search_hit_unknown_field query search_type book :
  ~ known_field search_type ->
  Library.search_hit query search_type book = false.
Proof.
  unfold known_field, Library.search_hit. intros Hun.
  destruct (String.eqb_spec search_type "title"); [tauto|].
  destruct (String.eqb_spec search_type "author"); [tauto|].
  destruct (String.eqb_spec search_type "category"); [tauto|].
  destruct (String.eqb_spec search_type "isbn"); [tauto|].
  reflexivity.
Qed.

(** C10.  With a field other than title, author, category and isbn,
    [search_books] returns the empty list, whatever the catalog and the
    query: no branch of the loop applies, nothing is raised and no other
    field is searched in its place. *)
Theorem search_unknown_field_finds_nothing :
  forall (query search_type : string) (self : Library.t),
    search_type <> "title" -> search_type <> "author" ->
    search_type <> "category" -> search_type <> "isbn" ->
    Library.search_books query search_type self = [].
Proof.
  intros query search_type self Ht Ha Hc Hi.
  rewrite search_books_in_order.
  induction (Library.list_all_books self) as [|b l IH]; simpl; [reflexivity|].
  rewrite search_hit_unknown_field; [exact IH|].
  unfold known_field. tauto.
Qed.

Lemma search_unknown_field_finds_nothing_witness :
  Library.search_books "Dune" "publisher" (after opening_day) = [].
Proof.
  apply (@search_unknown_field_finds_nothing "Dune" "publisher" (after opening_day));
    discriminate.
Defined.

(** ** What the tests of the loop mean *)







(** C7.  The catalog of the opening day holds a book whose isbn is
    080442957X; that very text occurs in the stored isbn, yet the isbn
    search for it returns nothing, because the query is lowered before
    the comparison and the stored isbn is not. *)
Theorem isbn_search_misses_stored_isbn :
  exists b : Book.t,
    In b (Library.list_all_books (after opening_day))
    /\ Book.isbn b = "080442957X"
    /\ occurs_in "080442957X" (Book.isbn b)
    /\ Library.search_books "080442957X" "isbn" (after opening_day) = []
    /\ Library.search_books "dune" "title" (after opening_day) = [b].
Proof.
  eexists. split; [left; reflexivity|]. split; [reflexivity|].
  split; [|split; reflexivity].
  now exists EmptyString, EmptyString.
Qed.

(* ================================================================== *)
(** * Keys stay distinct                                               *)
(* ================================================================== *)

Section DictKeys.
Context {K V : Type} `{Hashable K}.

Lemma dict_get_In_key (k : K) (v : V) (d : dict K V) :
  dict_get k d = Some v -> In (k, v) d.
Proof.
  induction d as [|[k' v'] d IH]; simpl; [discriminate|].
  destruct (key_eqb k k') eqn:E.
  - apply key_eqb_eq in E. intros [= ->]. left. now subst.
  - auto.
Qed.

Lemma dict_set_In_key (k : K) (v : V) (d : dict K V) (x : K * V) :
  In x (dict_set k v d) -> In x d \/ x = (k, v).
Proof.
  induction d as [|[k' v'] d IH]; simpl.
  - intros [<-|[]]. now right.
  - destruct (key_eqb k k') eqn:E; simpl.
    + apply key_eqb_eq in E. subst k'. intros [<-|Hin]; auto.
    + intros [<-|Hin]; auto. destruct (IH Hin); auto.
Qed.

Lemma dict_In_contains (k : K) (v : V) (d : dict K V) :
  In (k, v) d -> dict_contains k d = true.
Proof.
  unfold dict_contains. induction d as [|[k' v'] d IH]; simpl; [tauto|].
  intros [[= -> ->]|Hin].
  - now rewrite key_eqb_refl.
  - destruct (key_eqb k k'); auto.
Qed.

Lemma dict_contains_set_other (k k' : K) (v : V) (d : dict K V) :
  key_eqb k k' = false ->
  dict_contains k' (dict_set k v d) = dict_contains k' d.
Proof.
  intros E. unfold dict_contains. rewrite dict_get_set_other; [reflexivity|].
  intros ->. now rewrite key_eqb_refl in E.
Qed.

Lemma dict_set_distinct (k : K) (v : V) (d : dict K V) :
  distinct_keys d = true -> distinct_keys (dict_set k v d) = true.
Proof.
  induction d as [|[k' v'] d IH]; simpl; [reflexivity|].
  intros Hd. apply andb_true_iff in Hd. destruct Hd as [Hk Hd].
  destruct (key_eqb k k') eqn:E; simpl.
  - now rewrite Hk, Hd.
  - rewrite dict_contains_set_other by exact E. now rewrite Hk, IH.
Qed.

Lemma dict_del_contains (k k' : K) (d d' : dict K V) :
  dict_del k d = Returns d' ->
  dict_contains k' d = false -> dict_contains k' d' = false.
Proof.
  unfold dict_contains.
  revert d'. induction d as [|[k0 v0] d IH]; simpl; intros d'; [discriminate|].
  destruct (key_eqb k k0).
  - intros [= <-]. destruct (key_eqb k' k0); [discriminate|auto].
  - destruct (dict_del k d) as [d''|e]; [|discriminate].
    intros [= <-]. simpl. destruct (key_eqb k' k0); [discriminate|].
    now apply IH.
Qed.

Lemma dict_del_distinct (k : K) (d d' : dict K V) :
  dict_del k d = Returns d' ->
  distinct_keys d = true -> distinct_keys d' = true.
Proof.
  revert d'. induction d as [|[k0 v0] d IH]; simpl; intros d'; [discriminate|].
  destruct (key_eqb k k0).
  - intros [= <-] Hd. apply andb_true_iff in Hd. tauto.
  - destruct (dict_del k d) as [d''|e] eqn:Hdel; [|discriminate].
    intros [= <-] Hd. apply andb_true_iff in Hd. destruct Hd as [Hk Hd].
    simpl. apply negb_true_iff in Hk.
    rewrite (@dict_del_contains k k0 d d'' Hdel Hk). simpl. now apply IH.
Qed.

Lemma distinct_keys_NoDup (d : dict K V) :
  distinct_keys d = true -> NoDup d.
Proof.
  induction d as [|[k v] d IH]; simpl; intros Hd; [constructor|].
  apply andb_true_iff in Hd. destruct Hd as [Hk Hd].
  constructor; [|now apply IH].
  intros Hin. apply dict_In_contains in Hin. rewrite Hin in Hk. discriminate.
Qed.

Lemma distinct_keys_values (f : V -> K) (d : dict K V) :
  distinct_keys d = true ->
  (forall k v, In (k, v) d -> f v = k) ->
  NoDup (dict_values d).
Proof.
  unfold dict_values.
  induction d as [|[k v] d IH]; simpl; intros Hd Hf; [constructor|].
  apply andb_true_iff in Hd. destruct Hd as [Hk Hd].
  constructor; [|apply IH; auto].
  intros Hin. apply in_map_iff in Hin. destruct Hin as ([k' v'] & Hv & Hin).
  simpl in Hv. subst v'.
  assert (k' = k) by (rewrite <- (Hf k' v), <- (Hf k v); auto).
  subst k'. apply dict_In_contains in Hin. rewrite Hin in Hk. discriminate.
Qed.

End DictKeys.

Lemma keyed_set_book b book bs ms :
  keyed bs ms ->
  Book.book_id book = b -> distinct_keys (Book.borrowed_by book) = true ->
  keyed (dict_set b book bs) ms.
Proof.
  intros (Hb & Hm & Hin) Hid Hloans. split; [|split].
  - now apply dict_set_distinct.
  - exact Hm.
  - intros k x Hx. apply dict_set_In_key in Hx.
    destruct Hx as [Hx|[= -> ->]]; [now apply Hin|auto].
Qed.

Lemma keyed_del_book b bs bs' ms :
  keyed bs ms -> dict_del b bs = Returns bs' -> keyed bs' ms.
Proof.
  intros (Hb & Hm & Hin) Hdel. split; [|split]; auto.
  - eapply dict_del_distinct; eauto.
  - intros k x Hx. eapply Hin, dict_del_In; eauto.
Qed.

Lemma keyed_members bs ms ms' :
  keyed bs ms -> distinct_keys ms' = true -> keyed bs ms'.
Proof. intros (Hb & Hm & Hin) Hms. split; [|split]; auto. Qed.

Lemma keyed_found b book bs ms :
  keyed bs ms -> dict_get b bs = Some book ->
  Book.book_id book = b /\ distinct_keys (Book.borrowed_by book) = true.
Proof.
  intros (_ & _ & Hin) Hg. apply Hin. now apply dict_get_In_key.
Qed.

Lemma call_keeps_keys op s clk :
  well_keyed s -> well_keyed (snd (fst (Library.call op s clk))).
Proof.
  unfold well_keyed. intros Hs.
  assert (Hms : distinct_keys (Library.members s) = true) by apply Hs.
  destruct op; simpl.
  - unfold Library.add_book.
    destruct (dict_contains book_id (Library.books s)); [exact Hs|].
    simpl. apply keyed_set_book; auto.
  - unfold Library.remove_book.
    destruct (dict_contains book_id (Library.books s)); simpl; [|exact Hs].
    destruct (dict_item book_id (Library.books s)) as [book|e]; [|exact Hs].
    destruct (Book.available_copies book <? Book.total_copies book); [exact Hs|].
    destruct (dict_del book_id (Library.books s)) as [bs|e] eqn:Hdel; [|exact Hs].
    simpl. eapply keyed_del_book; eauto.
  - unfold Library.add_member.
    destruct (dict_contains member_id (Library.members s)); [exact Hs|].
    simpl. eapply keyed_members; [exact Hs|]. now apply dict_set_distinct.
  - unfold Library.remove_member.
    destruct (dict_contains member_id (Library.members s)); simpl; [|exact Hs].
    destruct (dict_item member_id (Library.members s)) as [member|e]; [|exact Hs].
    destruct (Member.borrowed_books member); [|exact Hs].
    destruct (dict_del member_id (Library.members s)) as [ms|e] eqn:Hdel; [|exact Hs].
    simpl. eapply keyed_members; [exact Hs|].
    eapply dict_del_distinct; eauto.
  - unfold Library.borrow_book.
    destruct (Library.get_member member_id s) as [member|]; [|exact Hs].
    destruct (Library.get_book book_id s) as [book|] eqn:Hb; [|exact Hs].
    destruct (Member.can_borrow member) eqn:Hcan; simpl; [|exact Hs].
    destruct (Book.is_available book) eqn:Hav; simpl; [|exact Hs].
    destruct (keyed_found _ Hs Hb) as [Hid Hloans].
    unfold Book.borrow, Member.borrow_book. rewrite Hav, Hcan. simpl.
    apply keyed_members with (ms := Library.members s);
      [|now apply dict_set_distinct].
    apply keyed_set_book; auto. simpl. now apply dict_set_distinct.
  - unfold Library.return_book.
    destruct (Library.get_member member_id s) as [member|]; [|exact Hs].
    destruct (Library.get_book book_id s) as [book|] eqn:Hb; [|exact Hs].
    destruct (list_contains book_id (Member.borrowed_books member)) eqn:Hheld;
      simpl; [|exact Hs].
    destruct (keyed_found _ Hs Hb) as [Hid Hloans].
    unfold Book.return_book.
    destruct (dict_contains member_id (Book.borrowed_by book)) eqn:Hloan.
    + destruct (dict_del_present _ _ Hloan) as [loans Hdel]. rewrite Hdel.
      unfold Member.return_book. rewrite Hheld.
      destruct (list_remove_present _ _ Hheld) as [held ->].
      simpl. apply keyed_members with (ms := Library.members s);
      [|now apply dict_set_distinct].
      apply keyed_set_book; auto. simpl. eapply dict_del_distinct; eauto.
    + simpl. apply keyed_set_book; auto.
Qed.

Lemma run_keeps_keys ops : forall s clk,
  well_keyed s -> well_keyed (fst (Library.run ops s clk)).
Proof.
  induction ops as [|op ops IH]; intros s clk Hs; simpl; [exact Hs|].
  pose proof (@call_keeps_keys op s clk Hs) as Hstep.
  destruct (Library.call op s clk) as [[r s'] clk']. now apply IH.
Qed.

Lemma reachable_well_keyed s : Library.reachable s -> well_keyed s.
Proof.
  intros (lib_name & ops & clk & <-). apply run_keeps_keys.
  split; [|split]; simpl; auto. intros k b [].
Qed.

(* ================================================================== *)
(** * The overdue report                                               *)
(* ================================================================== *)

Lemma report_app s rd (l1 l2 : list Loan) : forall k,
  report s rd k (l1 ++ l2)
  = report s rd k l1 ++ report s rd (k + List.length l1) l2.
Proof.
  induction l1 as [|[[b m] bd] l1 IH]; intros k; simpl.
  - now rewrite Nat.add_0_r.
  - rewrite IH. now rewrite Nat.add_succ_r.
Qed.

(** The test of the loop against the cutoff is the test on the age of the
    loan. *)
Lemma cutoff_test (t : datetime) (days : Z) (borrowed_at : datetime) :
  (borrowed_at <? t - days * DAY) = overdue_at t days borrowed_at.
Proof.
  unfold overdue_at.
  destruct (Z.ltb_spec borrowed_at (t - days * DAY));
    destruct (Z.ltb_spec (days * DAY) (t - borrowed_at)); auto; lia.
Qed.

Lemma inner_loop s t days b rd (items : list (string * datetime)) : forall acc k,
  fold_left (Library.overdue_visit s (t - days * DAY) b) items (acc, mkClock rd k)
  = (acc ++ report s rd k
              (map (fun item : string * datetime => (b, fst item, snd item))
                   (filter (fun item : string * datetime => overdue_at t days (snd item))
                           items)),
     mkClock rd
       (k + List.length
              (filter (fun item : string * datetime => overdue_at t days (snd item))
                      items))).
Proof.
  induction items as [|[m bd] items IH]; intros acc k; simpl.
  - now rewrite app_nil_r, Nat.add_0_r.
  - rewrite cutoff_test. destruct (overdue_at t days bd); simpl.
    + rewrite IH, <- app_assoc. simpl. now rewrite Nat.add_succ_r.
    + apply IH.
Qed.

Lemma outer_loop s t days rd (bs : list Book.t) : forall acc k,
  fold_left
    (fun acc0 b =>
       fold_left (Library.overdue_visit s (t - days * DAY) b)
                 (dict_items (Book.borrowed_by b)) acc0)
    bs (acc, mkClock rd k)
  = (acc ++ report s rd k
              (flat_map
                 (fun b =>
                    map (fun item : string * datetime => (b, fst item, snd item))
                        (filter (fun item : string * datetime => overdue_at t days (snd item))
                                (dict_items (Book.borrowed_by b))))
                 bs),
     mkClock rd
       (k + List.length
              (flat_map
                 (fun b =>
                    map (fun item : string * datetime => (b, fst item, snd item))
                        (filter (fun item : string * datetime => overdue_at t days (snd item))
                                (dict_items (Book.borrowed_by b))))
                 bs))).
Proof.
  induction bs as [|b bs IH]; intros acc k; simpl.
  - now rewrite app_nil_r, Nat.add_0_r.
  - rewrite inner_loop, IH, report_app, <- app_assoc.
    rewrite length_app, !length_map. now rewrite Nat.add_assoc.
Qed.

Lemma overdue_loans_In t days s b m bd :
  In (b, m, bd) (overdue_loans t days s)
  <-> In b (Library.list_all_books s)
      /\ In (m, bd) (dict_items (Book.borrowed_by b))
      /\ t - bd > days * DAY.
Proof.
  unfold overdue_loans. rewrite in_flat_map. split.
  - intros (b' & Hb & Hin). apply in_map_iff in Hin.
    destruct Hin as ([m' bd'] & [= <- <- <-] & Hf).
    apply filter_In in Hf. destruct Hf as [Hitem Hod].
    unfold overdue_at in Hod. simpl in Hod. apply Z.ltb_lt in Hod.
    repeat split; auto. lia.
  - intros (Hb & Hitem & Hod). exists b. split; [exact Hb|].
    apply in_map_iff. exists (m, bd). split; [reflexivity|].
    apply filter_In. split; [exact Hitem|].
    unfold overdue_at. simpl. apply Z.ltb_lt. lia.
Qed.

(** Under distinct keys no loan is listed twice. *)
Lemma overdue_loans_NoDup t days s :
  well_keyed s -> NoDup (overdue_loans t days s).
Proof.
  intros (Hb & _ & Hin). unfold overdue_loans, Library.list_all_books.
  assert (Hbooks : NoDup (dict_values (Library.books s))).
  { apply distinct_keys_values with (f := Book.book_id); [exact Hb|].
    intros k v Hv. now apply Hin. }
  assert (Hloans : forall b, In b (dict_values (Library.books s)) ->
                             NoDup (dict_items (Book.borrowed_by b))).
  { intros b Hv. apply in_map_iff in Hv. destruct Hv as ([k b'] & <- & Hv).
    apply distinct_keys_NoDup. now apply (Hin k b'). }
  induction (dict_values (Library.books s)) as [|b bs IH]; simpl; [constructor|].
  apply NoDup_cons_iff in Hbooks. destruct Hbooks as [Hfresh Hbooks].
  apply NoDup_app.
  - apply NoDup_map_NoDup_ForallPairs.
    + intros [m1 d1] [m2 d2] _ _ [= -> ->]. reflexivity.
    + apply NoDup_filter, Hloans. now left.
  - apply IH; [exact Hbooks|]. intros b' Hb'. apply Hloans. now right.
  - intros [[b1 m] bd] Hhere Hthere.
    apply in_map_iff in Hhere. destruct Hhere as (item & [= <- _ _] & _).
    apply in_flat_map in Hthere. destruct Hthere as (b2 & Hb2 & Hitem).
    apply in_map_iff in Hitem. destruct Hitem as (item2 & [= -> _ _] & _).
    contradiction.
Qed.

(** C6.  When the cutoff [now - days] is a representable datetime,
    [get_overdue_books days] returns, in catalog and borrower order, one
    entry for each loan with [now - borrow_date > days] and nothing else,
    [now] being the instant read when the report starts; the entry names
    the book, the member found under the borrower's id and the borrow
    date, and its [days_overdue] is the whole number of days between the
    borrow date and the instant read when the entry is written.  In a
    state reached from the empty library no loan is listed twice. *)
Theorem overdue_report_lists_each_late_loan_once :
  forall (days : Z) (s : Library.t) (clk : Clock),
    Z.abs days <= TIMEDELTA_MAX_DAYS ->
    datetime_in_range (reading clk (ticks clk) - days * DAY) = true ->
    let t0 := reading clk (ticks clk) in
    Library.get_overdue_books days s clk
    = (Returns (report s (reading clk) (S (ticks clk)) (overdue_loans t0 days s)),
       mkClock (reading clk)
               (S (ticks clk) + List.length (overdue_loans t0 days s)))
    /\ (forall b m bd,
          In (b, m, bd) (overdue_loans t0 days s)
          <-> In b (Library.list_all_books s)
              /\ In (m, bd) (dict_items (Book.borrowed_by b))
              /\ t0 - bd > days * DAY)
    /\ (Library.reachable s -> NoDup (overdue_loans t0 days s)).
Proof.
  intros days s clk Hdays Hcut t0.
  split; [|split; [intros; apply overdue_loans_In|]];
    [|intros Hr; now apply overdue_loans_NoDup, reachable_well_keyed].
  unfold Library.get_overdue_books, now, timedelta_of_days, datetime_minus.
  apply Z.leb_le in Hdays. rewrite Hdays. fold t0 in Hcut |- *. rewrite Hcut.
  unfold Library.list_all_books, overdue_loans.
  now rewrite outer_loop.
Qed.

(** Outside the precondition the report does not come back: a threshold
    that takes the cutoff before year 1 makes the subtraction raise. *)
Example overdue_report_cutoff_out_of_range :
  fst (Library.get_overdue_books 1000000 one_loan wall_clock)
  = Raises OverflowError.
Proof. reflexivity. Qed.

Lemma lent_at_is_borrow_date :
  exists b, Library.get_book "B1" one_loan = Some b
            /\ Book.borrowed_by b = [("M1", lent_at)].
Proof. eexists. split; reflexivity. Qed.

(** The example of the claim: asked for the loans older than 14 days, the
    report taken 15 days after the loan holds it with [days_overdue] equal
    to 15, and the report taken 10 days after the loan is empty. *)
Lemma overdue_report_lists_each_late_loan_once_witness :
  (exists b m,
     Library.get_book "B1" one_loan = Some b
     /\ Library.get_member "M1" one_loan = Some m
     /\ fst (Library.get_overdue_books 14 one_loan (ticking (lent_at + 15 * DAY) 1))
        = Returns [Library.mkOverdue b (Some m) lent_at 15])
  /\ fst (Library.get_overdue_books 14 one_loan (ticking (lent_at + 10 * DAY) 1))
     = Returns [].
Proof.
  split.
  - eexists _, _. split; [reflexivity|]. split; [reflexivity|].
    rewrite (proj1 (@overdue_report_lists_each_late_loan_once
                      14 one_loan (ticking (lent_at + 15 * DAY) 1)
                      ltac:(vm_compute; discriminate) eq_refl)).
    reflexivity.
  - rewrite (proj1 (@overdue_report_lists_each_late_loan_once
                      14 one_loan (ticking (lent_at + 10 * DAY) 1)
                      ltac:(vm_compute; discriminate) eq_refl)).
    reflexivity.
Defined.

(* ================================================================== *)
(** * Attendance: one active record per visitor                        *)
(* ================================================================== *)

Section Attendance.
Import AttendanceTracker.

Lemma count_active_rev v rs : count_active v (rev rs) = count_active v rs.
Proof. unfold count_active. now rewrite filter_rev, length_rev. Qed.

Lemma count_active_app v rs1 rs2 :
  count_active v (rs1 ++ rs2) = (count_active v rs1 + count_active v rs2)%nat.
Proof. unfold count_active. now rewrite filter_app, length_app. Qed.

Lemma present_in_count v rs :
  present_in v rs = true <-> (1 <= count_active v rs)%nat.
Proof.
  unfold count_active. induction rs as [|r rs IH]; simpl.
  - split; [discriminate | lia].
  - destruct (active_for v r); simpl; [|exact IH].
    split; [lia | reflexivity].
Qed.

Lemma is_currently_present_count v trk :
  is_currently_present v trk = true
  <-> (1 <= List.length (active_records v trk))%nat.
Proof.
  unfold is_currently_present, active_records.
  rewrite present_in_count, count_active_rev. reflexivity.
Qed.

(** The record written by a check-in is active, under the id given. *)
Lemma count_active_new v v' n vt p clk :
  count_active v
    [AttendanceRecord.set_purpose p (fst (AttendanceRecord.init v' n vt clk))]
  = if String.eqb v' v then 1%nat else 0%nat.
Proof.
  unfold count_active, active_for. simpl.
  now destruct (String.eqb v' v).
Qed.

(** A check-in that is not refused stores one record and nothing else
    about the records depends on how the counters fare. *)
Lemma check_in_records v n vt p trk clk :
  is_currently_present v trk = false ->
  attendance_records (snd (fst (check_in v n vt p trk clk)))
  = attendance_records trk
    ++ [AttendanceRecord.set_purpose p (fst (AttendanceRecord.init v n vt clk))].
Proof.
  intros Habs. unfold check_in. rewrite Habs.
  unfold AttendanceRecord.init, today, now. simpl.
  destruct (bump _ "total_visitors" _) as [stats1|e]; [|reflexivity].
  destruct (bump _ _ stats1); reflexivity.
Qed.

Lemma check_in_refused v n vt p trk clk :
  is_currently_present v trk = true ->
  check_in v n vt p trk clk = (Returns false, trk, clk).
Proof. intros Hpres. unfold check_in. now rewrite Hpres. Qed.

(** The scan of [check_out] closes one active record of the visitor and
    leaves the others as they are. *)
Lemma check_out_scan_count v' rs clk rs' clk' :
  check_out_scan v' rs clk = Some (rs', clk') ->
  forall v,
    count_active v rs
    = (count_active v rs' + if String.eqb v' v then 1 else 0)%nat.
Proof.
  revert rs'. induction rs as [|r rs IH]; intros rs'; simpl; [discriminate|].
  destruct (active_for v' r) eqn:Hact.
  - intros [= <- <-] v. unfold count_active. simpl.
    unfold active_for in *. simpl.
    apply andb_true_iff in Hact. destruct Hact as [Hid Hon].
    apply String.eqb_eq in Hid. rewrite Hid, Hon.
    rewrite andb_true_r, andb_false_r.
    destruct (String.eqb v' v); simpl; lia.
  - destruct (check_out_scan v' rs clk) as [[rs'' clk'']|] eqn:Hscan; [|discriminate].
    intros [= <- <-] v. specialize (IH _ eq_refl v).
    unfold count_active in *. simpl.
    destruct (active_for v r); simpl; lia.
Qed.

Lemma check_out_count v' trk clk v :
  List.length (active_records v (snd (fst (check_out v' trk clk))))
  = (List.length (active_records v trk)
     - if fst (fst (check_out v' trk clk)) && String.eqb v' v then 1 else 0)%nat.
Proof.
  unfold check_out, active_records.
  destruct (check_out_scan v' (rev (attendance_records trk)) clk)
    as [[rs clk']|] eqn:Hscan; simpl; [|lia].
  pose proof (check_out_scan_count _ _ _ Hscan v) as Hc.
  rewrite count_active_rev in Hc.
  fold (count_active v (rev rs)). rewrite count_active_rev.
  fold (count_active v (attendance_records trk)). lia.
Qed.

Lemma check_in_count v' n vt p trk clk v :
  List.length (active_records v (snd (fst (check_in v' n vt p trk clk))))
  = (List.length (active_records v trk)
     + if negb (is_currently_present v' trk) && String.eqb v' v then 1 else 0)%nat.
Proof.
  destruct (is_currently_present v' trk) eqn:Hpres; simpl.
  - rewrite check_in_refused by exact Hpres. simpl. lia.
  - unfold active_records. rewrite check_in_records by exact Hpres.
    fold (count_active v
            (attendance_records trk
             ++ [AttendanceRecord.set_purpose p
                   (fst (AttendanceRecord.init v' n vt clk))])).
    rewrite count_active_app, count_active_new. reflexivity.
Qed.

Lemma absent_count v trk :
  is_currently_present v trk = false ->
  List.length (active_records v trk) = 0%nat.
Proof.
  intros Habs.
  destruct (List.length (active_records v trk)) eqn:Hn; [reflexivity|].
  assert (Hp : is_currently_present v trk = true)
    by (apply is_currently_present_count; lia).
  congruence.
Qed.

Lemma call_keeps_single op trk clk :
  single_presence trk -> single_presence (snd (fst (call op trk clk))).
Proof.
  intros Hs v. specialize (Hs v). destruct op as [v' n vt p|v']; simpl.
  - rewrite check_in_count.
    destruct (is_currently_present v' trk) eqn:Hpres; simpl; [lia|].
    destruct (String.eqb_spec v' v) as [->|_]; [|lia].
    rewrite (absent_count _ _ Hpres). lia.
  - pose proof (check_out_count v' trk clk v) as Hc.
    destruct (check_out v' trk clk) as [[b trk'] clk']. simpl in *. lia.
Qed.

Lemma call_keeps_present v op trk clk :
  keeps_in v op = true ->
  (1 <= List.length (active_records v trk))%nat ->
  (1 <= List.length (active_records v (snd (fst (call op trk clk)))))%nat.
Proof.
  intros Hop Hv. destruct op as [v' n vt p|v']; simpl in *.
  - rewrite check_in_count. lia.
  - pose proof (check_out_count v' trk clk v) as Hc.
    apply negb_true_iff in Hop. rewrite Hop, andb_false_r in Hc.
    destruct (check_out v' trk clk) as [[b trk'] clk']. simpl in *. lia.
Qed.

Lemma run_keeps_single ops : forall trk clk,
  single_presence trk -> single_presence (fst (run ops trk clk)).
Proof.
  induction ops as [|op ops IH]; intros trk clk Hs; simpl; [exact Hs|].
  pose proof (call_keeps_single op clk Hs) as Hstep.
  destruct (call op trk clk) as [[r trk'] clk']. now apply IH.
Qed.

Lemma run_keeps_present v ops : forall trk clk,
  forallb (keeps_in v) ops = true ->
  (1 <= List.length (active_records v trk))%nat ->
  (1 <= List.length (active_records v (fst (run ops trk clk))))%nat.
Proof.
  induction ops as [|op ops IH]; intros trk clk Hops Hv; simpl; [exact Hv|].
  simpl in Hops. apply andb_true_iff in Hops. destruct Hops as [Hop Hops].
  pose proof (@call_keeps_present v op trk clk Hop Hv) as Hstep.
  destruct (call op trk clk) as [[r trk'] clk']. now apply IH.
Qed.

Lemma reachable_single trk : reachable trk -> single_presence trk.
Proof.
  intros (ops & clk & <-). apply run_keeps_single. intros v. simpl. lia.
Qed.

Lemma current_records_active v trk :
  current_records_of v trk = active_records v trk.
Proof.
  unfold current_records_of, active_records, get_current_visitors, active_for.
  induction (attendance_records trk) as [|r rs IH]; simpl; [reflexivity|].
  destruct (AttendanceRecord.is_active r); simpl.
  - rewrite IH, andb_true_r. reflexivity.
  - rewrite IH, andb_false_r. reflexivity.
Qed.

End Attendance.

(** C5.  In every state of the tracker reached from the empty one by
    check-ins and check-outs, no visitor has more than one active record.
    Moreover, once a visitor has been checked in, and as long as no
    check-out of that visitor is made, a further check-in of the visitor
    returns [False] and changes nothing -- no record is created -- and
    [get_current_visitors] holds exactly one record of the visitor. *)
Theorem one_active_record_per_visitor :
  forall trk : AttendanceTracker.t, AttendanceTracker.reachable trk ->
    (forall v, (List.length (active_records v trk) <= 1)%nat)
    /\ (forall v name vt purpose clk ops clk2,
          forallb (keeps_in v) ops = true ->
          let trk1 := snd (fst (AttendanceTracker.check_in v name vt purpose trk clk)) in
          let trk2 := fst (AttendanceTracker.run ops trk1 clk2) in
          (forall name' vt' purpose' clk3,
             AttendanceTracker.check_in v name' vt' purpose' trk2 clk3
             = (Returns false, trk2, clk3))
          /\ List.length (current_records_of v trk2) = 1%nat).
Proof.
  intros trk Hr. apply reachable_single in Hr. split; [exact Hr|].
  intros v name vt purpose clk ops clk2 Hops trk1 trk2.
  assert (Hs1 : single_presence trk1).
  { exact (call_keeps_single (AttendanceTracker.CheckIn v name vt purpose) clk Hr). }
  assert (Hp1 : (1 <= List.length (active_records v trk1))%nat).
  { unfold trk1. rewrite check_in_count.
    destruct (AttendanceTracker.is_currently_present v trk) eqn:Hpres; simpl.
    - apply is_currently_present_count in Hpres. lia.
    - rewrite String.eqb_refl. lia. }
  assert (Hs2 : single_presence trk2) by (apply run_keeps_single; exact Hs1).
  assert (Hp2 : (1 <= List.length (active_records v trk2))%nat)
    by (apply run_keeps_present; assumption).
  split.
  - intros name' vt' purpose' clk3. apply check_in_refused.
    now apply is_currently_present_count.
  - rewrite current_records_active. specialize (Hs2 v). lia.
Qed.

Lemma late_morning_reachable : AttendanceTracker.reachable late_morning.
Proof. exists busy_morning, wall_clock. reflexivity. Qed.

Lemma one_active_record_per_visitor_witness :
  let trk1 :=
    snd (fst (AttendanceTracker.check_in "V3" "Vic" VISITOR "" late_morning wall_clock)) in
  let trk2 := fst (AttendanceTracker.run noon trk1 wall_clock) in
  (forall name' vt' purpose' clk3,
     AttendanceTracker.check_in "V3" name' vt' purpose' trk2 clk3
     = (Returns false, trk2, clk3))
  /\ List.length (current_records_of "V3" trk2) = 1%nat.
Proof.
  exact (proj2 (one_active_record_per_visitor late_morning_reachable)
               "V3" "Vic" VISITOR "" wall_clock noon wall_clock eq_refl).
Defined.

(** The staff counter is looked up under a key that the day's counters do
    not have, so the check-in of a staff member raises once the record is
    stored; the record is active all the same and a second check-in is
    refused like any other. *)
Example staff_check_in_raises :
  exists trk clk,
    AttendanceTracker.check_in "S1" "Sam" STAFF "" AttendanceTracker.init wall_clock
    = (Raises KeyError, trk, clk)
    /\ List.length (active_records "S1" trk) = 1%nat
    /\ fst (fst (AttendanceTracker.check_in "S1" "Sam" STAFF "" trk clk))
       = Returns false.
Proof. eexists _, _. repeat split. Qed.

(* ================================================================== *)
(** * Further properties of the catalog and the directory              *)
(* ================================================================== *)

Section DictMore.
Context {K V : Type} `{Hashable K}.

Lemma dict_contains_In (k : K) (d : dict K V) :
  dict_contains k d = true -> exists v, In (k, v) d.
Proof.
  unfold dict_contains. destruct (dict_get k d) as [v|] eqn:Hg; [|discriminate].
  intros _. exists v. now apply dict_get_In_key.
Qed.

Lemma distinct_keys_functional (k : K) (v1 v2 : V) (d : dict K V) :
  distinct_keys d = true -> In (k, v1) d -> In (k, v2) d -> v1 = v2.
Proof.
  induction d as [|[k' v'] d IH]; simpl; [tauto|].
  intros Hd. apply andb_true_iff in Hd. destruct Hd as [Hk Hd].
  apply negb_true_iff in Hk.
  intros [E1|H1] [E2|H2].
  - congruence.
  - injection E1 as -> ->. apply dict_In_contains in H2. congruence.
  - injection E2 as -> ->. apply dict_In_contains in H1. congruence.
  - now apply IH.
Qed.

Lemma distinct_keys_get (k : K) (v : V) (d : dict K V) :
  distinct_keys d = true -> In (k, v) d -> dict_get k d = Some v.
Proof.
  intros Hd Hin. destruct (dict_get k d) as [v'|] eqn:Hg.
  - apply dict_get_In_key in Hg. f_equal.
    eapply distinct_keys_functional; eauto.
  - apply dict_In_contains in Hin. unfold dict_contains in Hin.
    now rewrite Hg in Hin.
Qed.

Lemma dict_get_del_other (k k' : K) (d d' : dict K V) :
  dict_del k d = Returns d' -> k' <> k -> dict_get k' d' = dict_get k' d.
Proof.
  intros Hdel Hne. revert d' Hdel.
  induction d as [|[k0 v0] d IH]; simpl; intros d'; [discriminate|].
  destruct (key_eqb k k0) eqn:E.
  - apply key_eqb_eq in E. subst k0. intros [= <-].
    now rewrite key_eqb_neq.
  - destruct (dict_del k d) as [d''|e]; [|discriminate].
    intros [= <-]. simpl. destruct (key_eqb k' k0); [reflexivity|].
    now apply IH.
Qed.

Lemma dict_del_gone (k : K) (d d' : dict K V) :
  distinct_keys d = true -> dict_del k d = Returns d' ->
  dict_contains k d' = false.
Proof.
  revert d'. induction d as [|[k0 v0] d IH]; simpl; intros d'; [discriminate|].
  intros Hd. apply andb_true_iff in Hd. destruct Hd as [Hk Hd].
  apply negb_true_iff in Hk.
  destruct (key_eqb k k0) eqn:E.
  - apply key_eqb_eq in E. subst k0. now intros [= <-].
  - destruct (dict_del k d) as [d''|e] eqn:Hdel; [|discriminate].
    intros [= <-]. unfold dict_contains. simpl. rewrite E.
    now apply IH.
Qed.

Lemma dict_del_set_new (k : K) (v : V) (d : dict K V) :
  dict_contains k d = false -> dict_del k (dict_set k v d) = Returns d.
Proof.
  unfold dict_contains.
  induction d as [|[k0 v0] d IH]; simpl.
  - now rewrite key_eqb_refl.
  - destruct (key_eqb k k0) eqn:E; [discriminate|].
    intros Hc. simpl. rewrite E. now rewrite IH.
Qed.

Lemma dict_set_new_app (k : K) (v : V) (d : dict K V) :
  dict_contains k d = false -> dict_set k v d = d ++ [(k, v)].
Proof.
  unfold dict_contains.
  induction d as [|[k0 v0] d IH]; simpl; [reflexivity|].
  destruct (key_eqb k k0); [discriminate|].
  intros Hc. now rewrite IH.
Qed.

End DictMore.

(** Every call is one of the transitions. *)
Lemma call_change op s clk :
  change s (Library.books (snd (fst (Library.call op s clk))))
           (Library.members (snd (fst (Library.call op s clk)))).
Proof.
  destruct op; simpl.
  - unfold Library.add_book.
    destruct (dict_contains book_id (Library.books s)) eqn:Hin;
      [apply change_nothing|].
    simpl. now apply change_add_book.
  - unfold Library.remove_book.
    destruct (dict_contains book_id (Library.books s)) eqn:Hin; simpl;
      [|apply change_nothing].
    unfold dict_item.
    destruct (dict_get book_id (Library.books s)) as [book|] eqn:Hg;
      [|apply change_nothing].
    destruct (Z.ltb_spec (Book.available_copies book) (Book.total_copies book));
      [apply change_nothing|].
    destruct (dict_del book_id (Library.books s)) as [bs|e] eqn:Hdel;
      [|apply change_nothing].
    simpl. eapply change_remove_book; eauto.
  - unfold Library.add_member.
    destruct (dict_contains member_id (Library.members s)) eqn:Hin;
      [apply change_nothing|].
    simpl. now apply change_add_member.
  - unfold Library.remove_member.
    destruct (dict_contains member_id (Library.members s)) eqn:Hin; simpl;
      [|apply change_nothing].
    unfold dict_item.
    destruct (dict_get member_id (Library.members s)) as [mem|] eqn:Hg;
      [|apply change_nothing].
    destruct (Member.borrowed_books mem) eqn:Hheld; [|apply change_nothing].
    destruct (dict_del member_id (Library.members s)) as [ms|e] eqn:Hdel;
      [|apply change_nothing].
    simpl. eapply change_remove_member; eauto.
  - unfold Library.borrow_book.
    destruct (Library.get_member member_id s) as [mem|] eqn:Hm;
      [|apply change_nothing].
    destruct (Library.get_book book_id s) as [book|] eqn:Hb;
      [|apply change_nothing].
    destruct (Member.can_borrow mem) eqn:Hcan; simpl; [|apply change_nothing].
    destruct (Book.is_available book) eqn:Hav; simpl; [|apply change_nothing].
    unfold Book.borrow, Member.borrow_book. rewrite Hav, Hcan. simpl.
    now apply change_borrow.
  - unfold Library.return_book.
    destruct (Library.get_member member_id s) as [mem|] eqn:Hm;
      [|apply change_nothing].
    destruct (Library.get_book book_id s) as [book|] eqn:Hb;
      [|apply change_nothing].
    destruct (list_contains book_id (Member.borrowed_books mem)) eqn:Hheld;
      simpl; [|apply change_nothing].
    unfold Book.return_book.
    destruct (dict_contains member_id (Book.borrowed_by book)) eqn:Hloan.
    + destruct (dict_del_present _ _ Hloan) as [loans Hdel]. rewrite Hdel.
      unfold Member.return_book. rewrite Hheld.
      destruct (list_remove_present _ _ Hheld) as [held Hrm]. rewrite Hrm.
      simpl. eapply change_return; eauto.
    + simpl. unfold Library.get_book in Hb.
      rewrite (dict_set_same _ _ Hb). apply change_nothing.
Qed.

Lemma dict_set_length_le (K V : Type) `{Hashable K} (k : K) (v : V) (d : dict K V) :
  (List.length (dict_set k v d) <= S (List.length d))%nat.
Proof.
  induction d as [|[k' v'] d IH]; simpl; [lia|].
  destruct (key_eqb k k'); simpl; lia.
Qed.

Lemma list_contains_app_l (k : string) (l l' : list string) :
  list_contains k l = true -> list_contains k (l ++ l') = true.
Proof. unfold list_contains. rewrite existsb_app. now intros ->. Qed.

Lemma list_remove_other (k b : string) (l l' : list string) :
  list_remove b l = Returns l' -> k <> b ->
  list_contains k l' = list_contains k l.
Proof.
  unfold list_contains. intros Hrm Hne. revert l' Hrm.
  induction l as [|y l IH]; simpl; intros l'; [discriminate|].
  destruct (String.eqb_spec b y) as [<-|Hby].
  - intros [= <-]. apply String.eqb_neq in Hne. now rewrite Hne.
  - destruct (list_remove b l) as [l''|e]; [|discriminate].
    intros [= <-]. simpl. now rewrite (IH l'').
Qed.

(** ** What the calls keep of the copy count *)

Lemma change_keeps_bounded s bs ms :
  change s bs ms -> catalog_bounded s ->
  forall k b, In (k, b) bs -> stock_bounded b.
Proof.
  intros Hch Hs.
  destruct Hch as [ | b ti au i c n Hnew | b book bs Hb Hfull Hdel
                  | m n e p ty clk Hnew | m mem ms Hm Hheld Hdel
                  | m b mem book t Hm Hb Hcan Hav
                  | m b mem book loans held t1 t2 Hm Hb Hdel Hrm ];
    intros k x Hx; try (now apply (Hs k x)).
  - apply dict_set_In_key in Hx. destruct Hx as [Hx|[= -> ->]];
      [now apply (Hs k x)|].
    unfold stock_bounded. simpl. lia.
  - eapply Hs, dict_del_In; eauto.
  - apply dict_set_In_key in Hx. destruct Hx as [Hx|[= -> ->]];
      [now apply (Hs k x)|].
    apply dict_get_In_key in Hb. destruct (Hs _ _ Hb) as [Hsum Hpos].
    unfold Book.is_available in Hav. apply Z.ltb_lt in Hav.
    unfold stock_bounded. simpl.
    pose proof (dict_set_length_le m t (Book.borrowed_by book)). lia.
  - apply dict_set_In_key in Hx. destruct Hx as [Hx|[= -> ->]];
      [now apply (Hs k x)|].
    apply dict_get_In_key in Hb. destruct (Hs _ _ Hb) as [Hsum Hpos].
    apply dict_del_length in Hdel.
    unfold stock_bounded. simpl. lia.
Qed.

Lemma call_keeps_bounded op s clk :
  catalog_bounded s -> catalog_bounded (snd (fst (Library.call op s clk))).
Proof. intros Hs. exact (change_keeps_bounded (call_change op s clk) Hs). Qed.

Lemma run_keeps_bounded ops : forall s clk,
  catalog_bounded s -> catalog_bounded (fst (Library.run ops s clk)).
Proof.
  induction ops as [|op ops IH]; intros s clk Hs; simpl; [exact Hs|].
  pose proof (@call_keeps_bounded op s clk Hs) as Hstep.
  destruct (Library.call op s clk) as [[r s'] clk']. now apply IH.
Qed.

Lemma reachable_bounded s k b :
  Library.reachable s -> In (k, b) (Library.books s) -> stock_bounded b.
Proof.
  intros (lib_name & ops & clk & <-) Hin.
  assert (Hb : catalog_bounded (fst (Library.run ops (Library.init lib_name) clk))).
  { apply run_keeps_bounded. intros k' b' []. }
  exact (Hb k b Hin).
Qed.

(** X1.  In every state reached from the empty library, for every book:
    the copies on the shelf plus the recorded borrowers never exceed the
    copies owned, so the shelf never holds more than the library owns,
    and the shelf count of a book owned in non-negative number is never
    negative. *)
Theorem stock_never_exceeds_holdings :
  forall s : Library.t, Library.reachable s ->
    forall k b, In (k, b) (Library.books s) ->
      Book.available_copies b + Z.of_nat (List.length (Book.borrowed_by b))
      <= Book.total_copies b
      /\ Book.available_copies b <= Book.total_copies b
      /\ (0 <= Book.total_copies b -> 0 <= Book.available_copies b).
Proof.
  intros s (lib_name & ops & clk & <-) k b Hin.
  assert (Hb : catalog_bounded (fst (Library.run ops (Library.init lib_name) clk))).
  { apply run_keeps_bounded. intros k' b' []. }
  destruct (Hb k b Hin) as [Hsum Hpos]. repeat split; auto. lia.
Qed.

Lemma stock_never_exceeds_holdings_witness :
  exists b,
    In ("B1", b) (Library.books same_book_twice)
    /\ Book.available_copies b + Z.of_nat (List.length (Book.borrowed_by b))
       <= Book.total_copies b
    /\ Book.available_copies b <= Book.total_copies b
    /\ (0 <= Book.total_copies b -> 0 <= Book.available_copies b).
Proof.
  eexists. split; [left; reflexivity|].
  apply (@stock_never_exceeds_holdings same_book_twice (after_reachable _) "B1").
  left. reflexivity.
Defined.

(** ** Borrowers are members *)

Lemma change_keeps_known s bs ms :
  change s bs ms -> well_keyed s -> borrowers_known s ->
  forall k b m t,
    In (k, b) bs -> In (m, t) (Book.borrowed_by b) ->
    exists mem, dict_get m ms = Some mem
                /\ list_contains k (Member.borrowed_books mem) = true.
Proof.
  intros Hch Hkeys Hs.
  destruct Hch as [ | b0 ti au i c n Hnew | b0 book bs Hb Hfull Hdel
                  | m0 n e p ty clk Hnew | m0 mem0 ms Hm Hheld Hdel
                  | m0 b0 mem0 book t0 Hm Hb Hcan Hav
                  | m0 b0 mem0 book loans held t1 t2 Hm Hb Hdel Hrm ];
    intros k x m t Hx Hloan.
  - exact (Hs k x m t Hx Hloan).
  - apply dict_set_In_key in Hx. destruct Hx as [Hx|[= -> ->]];
      [exact (Hs k x m t Hx Hloan) | destruct Hloan].
  - eapply Hs; [eapply dict_del_In; eauto | eauto].
  - destruct (Hs k x m t Hx Hloan) as (mem & Hg & Hk).
    exists mem. split; [|exact Hk].
    rewrite dict_get_set_other; [exact Hg|].
    intros <-. unfold dict_contains, Library.get_member in *.
    now rewrite Hg in Hnew.
  - destruct (Hs k x m t Hx Hloan) as (mem & Hg & Hk).
    exists mem. split; [|exact Hk].
    rewrite (dict_get_del_other _ Hdel); [exact Hg|].
    intros ->. rewrite Hm in Hg. injection Hg as ->.
    rewrite Hheld in Hk. discriminate.
  - (* borrow *)
    assert (Hold : forall m' t', In (m', t') (Book.borrowed_by x) ->
                     In (k, x) (Library.books s) ->
                     exists mem,
                       dict_get m'
                         (dict_set m0
                            (Member.with_loans (Member.borrowed_books mem0 ++ [b0])
                               (Member.borrowing_history mem0) mem0)
                            (Library.members s)) = Some mem
                       /\ list_contains k (Member.borrowed_books mem) = true).
    { intros m' t' Hl Hin. destruct (Hs k x m' t' Hin Hl) as (mem & Hg & Hk).
      destruct (String.eqb_spec m0 m') as [<-|Hne].
      - rewrite dict_get_set_same. eexists. split; [reflexivity|]. simpl.
        rewrite Hm in Hg. injection Hg as ->. now apply list_contains_app_l.
      - rewrite dict_get_set_other by exact Hne. eauto. }
    apply dict_set_In_key in Hx. destruct Hx as [Hx|[= -> ->]]; [eauto|].
    simpl in Hloan. apply dict_set_In_key in Hloan.
    destruct Hloan as [Hloan|[= -> ->]].
    + apply dict_get_In_key in Hb.
      destruct (Hs b0 book m t Hb Hloan) as (mem & Hg & Hk).
      destruct (String.eqb_spec m0 m) as [<-|Hne].
      * rewrite dict_get_set_same. eexists. split; [reflexivity|]. simpl.
        rewrite Hm in Hg. injection Hg as ->. now apply list_contains_app_l.
      * rewrite dict_get_set_other by exact Hne. eauto.
    + rewrite dict_get_set_same. eexists. split; [reflexivity|]. simpl.
      apply list_contains_last.
  - (* return *)
    pose proof (dict_get_In_key _ _ Hb) as Hbin.
    destruct Hkeys as (Hdb & Hdm & Hbooks).
    destruct (Hbooks _ _ Hbin) as [_ Hdl].
    set (book' := Book.with_loans (Book.available_copies book + 1) loans book) in *.
    assert (Hnewd : distinct_keys (dict_set b0 book' (Library.books s)) = true)
      by now apply dict_set_distinct.
    assert (Hnewin : In (b0, book') (dict_set b0 book' (Library.books s)))
      by (apply dict_get_In_key, dict_get_set_same).
    destruct (String.eqb_spec k b0) as [->|Hkb].
    + assert (x = book')
        by exact (@distinct_keys_functional string Book.t _ b0 x book' _ Hnewd Hx Hnewin).
      subst x.
      simpl in Hloan.
      assert (Hmm : m <> m0).
      { intros ->. apply dict_In_contains in Hloan.
        pose proof (@dict_del_gone string datetime _ m0 _ _ Hdl Hdel) as Hgone.
        congruence. }
      pose proof (@dict_del_In string datetime _ m0 _ _ (m, t) Hdel Hloan) as Hloan0.
      destruct (Hs b0 book m t Hbin Hloan0) as (mem & Hg & Hk).
      exists mem. split; [|exact Hk].
      rewrite dict_get_set_other by congruence. exact Hg.
    + apply dict_set_In_key in Hx.
      destruct Hx as [Hx|[= E _]]; [|congruence].
      destruct (Hs k x m t Hx Hloan) as (mem & Hg & Hk).
      destruct (String.eqb_spec m0 m) as [<-|Hne].
      * rewrite dict_get_set_same. eexists. split; [reflexivity|]. simpl.
        rewrite Hm in Hg. injection Hg as ->.
        now rewrite (@list_remove_other k b0 _ _ Hrm Hkb).
      * rewrite dict_get_set_other by exact Hne. eauto.
Qed.

Lemma call_keeps_known op s clk :
  well_keyed s -> borrowers_known s ->
  borrowers_known (snd (fst (Library.call op s clk))).
Proof.
  intros Hk Hs. exact (change_keeps_known (call_change op s clk) Hk Hs).
Qed.

Lemma run_keeps_known ops : forall s clk,
  well_keyed s -> borrowers_known s ->
  borrowers_known (fst (Library.run ops s clk)).
Proof.
  induction ops as [|op ops IH]; intros s clk Hk Hs; simpl; [exact Hs|].
  pose proof (@call_keeps_known op s clk Hk Hs) as Hstep.
  pose proof (@call_keeps_keys op s clk Hk) as Hkeys.
  destruct (Library.call op s clk) as [[r s'] clk']. now apply IH.
Qed.

Lemma reachable_known s : Library.reachable s -> borrowers_known s.
Proof.
  intros (lib_name & ops & clk & <-). apply run_keeps_known.
  - split; [|split]; simpl; auto. intros k b [].
  - intros k b m t [].
Qed.

(** X2.  In every state reached from the empty library, every borrower
    recorded on a book of the catalog is a member of the library, and
    that member's [borrowed_books] names the book: no book is ever marked
    as lent to someone the library does not know or who does not hold
    it. *)
Theorem recorded_borrowers_hold_the_book :
  forall s : Library.t, Library.reachable s ->
    forall book_id b member_id borrowed_at,
      Library.get_book book_id s = Some b ->
      In (member_id, borrowed_at) (Book.get_borrower_info b) ->
      exists m, Library.get_member member_id s = Some m
                /\ list_contains book_id (Member.get_borrowed_books m) = true.
Proof.
  intros s Hr book_id b member_id borrowed_at Hb Hloan.
  apply dict_get_In_key in Hb.
  exact (reachable_known Hr book_id b member_id borrowed_at Hb Hloan).
Qed.

Lemma recorded_borrowers_hold_the_book_witness :
  exists b m,
    Library.get_book "B1" two_loans = Some b
    /\ In ("M1", lent_at) (Book.get_borrower_info b)
    /\ Library.get_member "M1" two_loans = Some m
    /\ list_contains "B1" (Member.get_borrowed_books m) = true.
Proof.
  eexists _.
  destruct (@recorded_borrowers_hold_the_book two_loans (after_reachable _)
              "B1" _ "M1" lent_at eq_refl (or_introl eq_refl))
    as (m & Hm & Hheld).
  exists m. split; [reflexivity|]. split; [left; reflexivity|].
  split; assumption.
Defined.

(** ** What cannot be removed *)

(** X3.  In a state reached from the empty library, a book that has a
    recorded borrower cannot be removed: [remove_book] returns [False]
    and the library is as it was. *)
Theorem lent_book_cannot_be_removed :
  forall (s : Library.t) (book_id : string) (b : Book.t) (clk : Clock),
    Library.reachable s ->
    Library.get_book book_id s = Some b ->
    Book.borrowed_by b <> [] ->
    Library.remove_book book_id s clk = (Returns false, s, clk).
Proof.
  intros s book_id b clk Hr Hb Hlent.
  pose proof (dict_get_In_key _ _ Hb) as Hin.
  destruct (@reachable_bounded s book_id b Hr Hin) as [Hsum _].
  unfold Library.remove_book, dict_contains, dict_item.
  unfold Library.get_book in Hb. rewrite Hb. simpl.
  assert (Hlt : (Book.available_copies b <? Book.total_copies b) = true).
  { apply Z.ltb_lt. destruct (Book.borrowed_by b); [contradiction|].
    simpl in Hsum. lia. }
  now rewrite Hlt.
Qed.

Lemma lent_book_cannot_be_removed_witness :
  exists b, Library.get_book "B1" one_loan = Some b
            /\ Library.remove_book "B1" one_loan wall_clock
               = (Returns false, one_loan, wall_clock).
Proof.
  eexists. split; [reflexivity|].
  apply (@lent_book_cannot_be_removed one_loan "B1" _ wall_clock
           (after_reachable _) eq_refl).
  discriminate.
Defined.

(** X4.  In a state reached from the empty library, a member who is
    recorded as borrower of some book cannot be removed: [remove_member]
    returns [False] and the library is as it was. *)
Theorem borrower_cannot_be_removed :
  forall (s : Library.t) (book_id member_id : string) (b : Book.t)
         (borrowed_at : datetime) (clk : Clock),
    Library.reachable s ->
    Library.get_book book_id s = Some b ->
    In (member_id, borrowed_at) (Book.borrowed_by b) ->
    Library.remove_member member_id s clk = (Returns false, s, clk).
Proof.
  intros s book_id member_id b borrowed_at clk Hr Hb Hloan.
  apply dict_get_In_key in Hb.
  destruct (@reachable_known s Hr _ _ _ _ Hb Hloan) as (mem & Hm & Hheld).
  unfold Library.remove_member, dict_contains, dict_item.
  unfold Library.get_member in Hm. rewrite Hm. simpl.
  destruct (Member.borrowed_books mem); [discriminate|reflexivity].
Qed.

Lemma borrower_cannot_be_removed_witness :
  Library.remove_member "M1" one_loan wall_clock
  = (Returns false, one_loan, wall_clock).
Proof.
  apply (@borrower_cannot_be_removed one_loan "B1" "M1" _ lent_at wall_clock
           (after_reachable _) eq_refl).
  left. reflexivity.
Defined.

(** ** More on the overdue report *)

Lemma report_In s rd (loans : list Loan) : forall k e,
  In e (report s rd k loans) ->
  exists b m bd i,
    In (b, m, bd) loans
    /\ e = Library.mkOverdue b (Library.get_member m s) bd
             (days_between (rd (k + i)%nat) bd).
Proof.
  induction loans as [|[[b m] bd] loans IH]; intros k e; simpl; [tauto|].
  intros [<-|Hin].
  - exists b, m, bd, 0%nat. rewrite Nat.add_0_r. auto.
  - destruct (IH _ _ Hin) as (b' & m' & bd' & i & Hl & ->).
    exists b', m', bd', (S i). rewrite Nat.add_succ_r. auto.
Qed.

(** When [get_overdue_books] returns, it returns the report of the
    overdue loans. *)
Lemma get_overdue_books_returns days s clk entries clk' :
  Library.get_overdue_books days s clk = (Returns entries, clk') ->
  entries = report s (reading clk) (S (ticks clk))
              (overdue_loans (reading clk (ticks clk)) days s).
Proof.
  unfold Library.get_overdue_books, now, timedelta_of_days, datetime_minus.
  destruct (Z.abs days <=? TIMEDELTA_MAX_DAYS); [|discriminate].
  destruct (datetime_in_range (reading clk (ticks clk) - days * DAY));
    [|discriminate].
  unfold Library.list_all_books, overdue_loans.
  rewrite outer_loop. now intros [= <- _].
Qed.

(** X5.  In a state reached from the empty library, every entry of the
    overdue report carries a member -- never [None] -- and that member
    holds the book of the entry. *)
Theorem overdue_entries_name_a_member :
  forall (s : Library.t) (days : Z) (clk clk' : Clock)
         (entries : list Library.OverdueEntry),
    Library.reachable s ->
    Library.get_overdue_books days s clk = (Returns entries, clk') ->
    forall e, In e entries ->
      exists m, Library.member e = Some m
                /\ list_contains (Book.book_id (Library.book e))
                                 (Member.borrowed_books m) = true.
Proof.
  intros s days clk clk' entries Hr Hret e He.
  apply get_overdue_books_returns in Hret. subst entries.
  apply report_In in He. destruct He as (b & m & bd & i & Hloan & ->).
  apply overdue_loans_In in Hloan. destruct Hloan as (Hb & Hitem & _).
  unfold Library.list_all_books, dict_values in Hb.
  apply in_map_iff in Hb. destruct Hb as ([k b'] & Hk & Hin).
  simpl in Hk. subst b'.
  destruct (reachable_well_keyed Hr) as (_ & _ & Hkeys).
  destruct (Hkeys _ _ Hin) as [Hid _].
  destruct (@reachable_known s Hr k b m bd Hin Hitem) as (mem & Hm & Hheld).
  exists mem. simpl. rewrite Hid. auto.
Qed.

Lemma overdue_entries_name_a_member_witness :
  exists e m,
    fst (Library.get_overdue_books 14 one_loan (ticking (lent_at + 15 * DAY) 1))
    = Returns [e]
    /\ Library.member e = Some m
    /\ list_contains (Book.book_id (Library.book e)) (Member.borrowed_books m)
       = true.
Proof.
  eexists _, _. split; [reflexivity|].
  destruct (@overdue_entries_name_a_member one_loan 14
              (ticking (lent_at + 15 * DAY) 1) _ _
              (after_reachable _) eq_refl _ (or_introl eq_refl))
    as (m & Hm & Hheld).
  injection Hm as <-. split; [reflexivity | exact Hheld].
Defined.

(** X6.  On a clock that never shows an earlier instant than the one read
    when the report starts, every entry of [get_overdue_books days] has
    [days_overdue] at least [days]. *)
Theorem overdue_entries_are_late_enough :
  forall (s : Library.t) (days : Z) (clk clk' : Clock)
         (entries : list Library.OverdueEntry),
    (forall n, reading clk (ticks clk) <= reading clk (ticks clk + n)%nat) ->
    Library.get_overdue_books days s clk = (Returns entries, clk') ->
    forall e, In e entries -> days <= Library.days_overdue e.
Proof.
  intros s days clk clk' entries Hmono Hret e He.
  apply get_overdue_books_returns in Hret. subst entries.
  apply report_In in He. destruct He as (b & m & bd & i & Hloan & ->).
  apply overdue_loans_In in Hloan. destruct Hloan as (_ & _ & Hlate).
  simpl. unfold days_between.
  specialize (Hmono (S i)). rewrite <- Nat.add_succ_comm in Hmono.
  apply Z.div_le_lower_bound; [reflexivity|].
  cbn [Nat.add] in Hmono. unfold DAY in *. lia.
Qed.

Lemma overdue_entries_are_late_enough_witness :
  exists e,
    fst (Library.get_overdue_books 14 one_loan (ticking (lent_at + 15 * DAY) 1))
    = Returns [e]
    /\ 14 <= Library.days_overdue e.
Proof.
  eexists. split; [reflexivity|].
  refine (@overdue_entries_are_late_enough one_loan 14
            (ticking (lent_at + 15 * DAY) 1) _ _ _ eq_refl _ (or_introl eq_refl)).
  intros n. cbn [ticking reading ticks]. lia.
Defined.

(** From here on every argument of a lemma is written out. *)
Unset Implicit Arguments.

(* ================================================================== *)
(** * Borrowing and returning, call by call                            *)
(* ================================================================== *)

(** X7.  [borrow_book] returns [True] exactly when the member and the book
    exist, the member is below the limit and a copy is on the shelf.  It
    then takes one copy off the shelf, records the member as borrower at
    the instant read, appends the book to the member's list, and leaves
    every other book and member as they were. *)
Theorem borrow_book_succeeds_iff :
  forall (member_id book_id : string) (s : Library.t) (clk : Clock),
    (fst (fst (Library.borrow_book member_id book_id s clk)) = Returns true
     <-> exists m b,
           Library.get_member member_id s = Some m
           /\ Library.get_book book_id s = Some b
           /\ Z.of_nat (List.length (Member.borrowed_books m)) < Member.max_books m
           /\ 0 < Book.available_copies b)
    /\ (forall s' clk',
          Library.borrow_book member_id book_id s clk = (Returns true, s', clk') ->
          exists m b,
            Library.get_member member_id s = Some m
            /\ Library.get_book book_id s = Some b
            /\ Library.get_book book_id s'
               = Some (Book.with_loans (Book.available_copies b - 1)
                         (dict_set member_id (reading clk (ticks clk))
                                   (Book.borrowed_by b)) b)
            /\ Library.get_member member_id s'
               = Some (Member.with_loans (Member.borrowed_books m ++ [book_id])
                         (Member.borrowing_history m) m)
            /\ (forall b', b' <> book_id ->
                  Library.get_book b' s' = Library.get_book b' s)
            /\ (forall m', m' <> member_id ->
                  Library.get_member m' s' = Library.get_member m' s)).
Proof.
  intros member_id book_id s clk. unfold Library.borrow_book.
  destruct (Library.get_member member_id s) as [m|] eqn:Hm.
  2:{ split; [split; [discriminate | intros (m & b & H & _); discriminate]
             | discriminate]. }
  destruct (Library.get_book book_id s) as [b|] eqn:Hb.
  2:{ split; [split; [discriminate | intros (m' & b & _ & H & _); discriminate]
             | discriminate]. }
  unfold Member.can_borrow, Book.is_available, Book.borrow, Member.borrow_book,
    Member.can_borrow, Book.is_available.
  destruct (Z.ltb_spec (Z.of_nat (List.length (Member.borrowed_books m)))
                       (Member.max_books m)) as [Hcan|Hcan]; simpl.
  2:{ split; [split; [discriminate|] | discriminate].
      intros (m' & b' & [= <-] & _ & Hlt & _). lia. }
  destruct (Z.ltb_spec 0 (Book.available_copies b)) as [Hav|Hav]; simpl.
  2:{ split; [split; [discriminate|] | discriminate].
      intros (m' & b' & _ & [= <-] & _ & Hlt). lia. }
  split.
  - split; [|reflexivity]. intros _. exists m, b. auto.
  - intros s' clk' [= <- <-]. exists m, b.
    unfold Library.get_book, Library.get_member. simpl.
    rewrite !dict_get_set_same.
    repeat split; auto; intros x Hx; apply dict_get_set_other; congruence.
Qed.

(** X8.  [return_book] returns [True] exactly when the member and the book
    exist, the member's list names the book and the book records the
    member as borrower.  It then puts one copy back on the shelf, drops
    the member from the borrowers, removes the first occurrence of the
    book from the member's list, adds one tuple to the member's history,
    and leaves every other book and member as they were. *)
Theorem return_book_succeeds_iff :
  forall (member_id book_id : string) (s : Library.t) (clk : Clock),
    (fst (fst (Library.return_book member_id book_id s clk)) = Returns true
     <-> exists m b,
           Library.get_member member_id s = Some m
           /\ Library.get_book book_id s = Some b
           /\ list_contains book_id (Member.borrowed_books m) = true
           /\ dict_contains member_id (Book.borrowed_by b) = true)
    /\ (forall s' clk',
          Library.return_book member_id book_id s clk = (Returns true, s', clk') ->
          exists m b loans held t1 t2,
            Library.get_member member_id s = Some m
            /\ Library.get_book book_id s = Some b
            /\ dict_del member_id (Book.borrowed_by b) = Returns loans
            /\ list_remove book_id (Member.borrowed_books m) = Returns held
            /\ Library.get_book book_id s'
               = Some (Book.with_loans (Book.available_copies b + 1) loans b)
            /\ Library.get_member member_id s'
               = Some (Member.with_loans held
                         (Member.borrowing_history m ++ [(book_id, t1, t2)]) m)
            /\ (forall b', b' <> book_id ->
                  Library.get_book b' s' = Library.get_book b' s)
            /\ (forall m', m' <> member_id ->
                  Library.get_member m' s' = Library.get_member m' s)).
Proof.
  intros member_id book_id s clk. unfold Library.return_book.
  destruct (Library.get_member member_id s) as [m|] eqn:Hm.
  2:{ split; [split; [discriminate | intros (m & b & H & _); discriminate]
             | discriminate]. }
  destruct (Library.get_book book_id s) as [b|] eqn:Hb.
  2:{ split; [split; [discriminate | intros (m' & b & _ & H & _); discriminate]
             | discriminate]. }
  destruct (list_contains book_id (Member.borrowed_books m)) eqn:Hheld; simpl.
  2:{ split; [split; [discriminate|] | discriminate].
      intros (m' & b' & [= <-] & _ & Hc & _). congruence. }
  unfold Book.return_book.
  destruct (dict_contains member_id (Book.borrowed_by b)) eqn:Hloan.
  2:{ simpl. split; [split; [discriminate|] | discriminate].
      intros (m' & b' & _ & [= <-] & _ & Hc). congruence. }
  destruct (dict_del_present _ _ Hloan) as [loans Hdel]. rewrite Hdel.
  unfold Member.return_book. rewrite Hheld.
  destruct (list_remove_present _ _ Hheld) as [held Hrm]. rewrite Hrm.
  simpl. split.
  - split; [|reflexivity]. intros _. exists m, b. auto.
  - intros s' clk' [= <- <-].
    exists m, b, loans, held, (reading clk (ticks clk)), (reading clk (S (ticks clk))).
    unfold Library.get_book, Library.get_member. simpl.
    rewrite !dict_get_set_same.
    repeat split; auto; intros x Hx; apply dict_get_set_other; congruence.
Qed.

(* ================================================================== *)
(** * Adding and removing                                              *)
(* ================================================================== *)

(** X9.  [add_book] refuses an id already in the catalog and otherwise
    succeeds; the new book is then found under its id with all its copies
    on the shelf and no borrower, it comes last in the catalog, the other
    books are untouched, and removing it at once succeeds and gives back
    the catalog as it was before. *)
Theorem add_book_then_lookup_and_remove :
  forall (book_id title author isbn category : string) (copies : Z)
         (s : Library.t) (clk : Clock),
    (dict_contains book_id (Library.books s) = true ->
     Library.add_book book_id title author isbn category copies s clk
     = (Returns false, s, clk))
    /\ (dict_contains book_id (Library.books s) = false ->
        exists s' clk',
          Library.add_book book_id title author isbn category copies s clk
          = (Returns true, s', clk')
          /\ Library.get_book book_id s'
             = Some (Book.mk book_id title author isbn category copies copies [])
          /\ Library.list_all_books s'
             = Library.list_all_books s
               ++ [Book.mk book_id title author isbn category copies copies []]
          /\ (forall b', b' <> book_id ->
                Library.get_book b' s' = Library.get_book b' s)
          /\ exists s'' clk'',
               Library.remove_book book_id s' clk' = (Returns true, s'', clk'')
               /\ Library.books s'' = Library.books s
               /\ Library.members s'' = Library.members s).
Proof.
  intros book_id title author isbn category copies s clk.
  unfold Library.add_book. split; intros Hin; rewrite Hin; [reflexivity|].
  simpl. eexists _, _. split; [reflexivity|].
  unfold Library.get_book, Library.list_all_books, dict_values. simpl.
  rewrite dict_get_set_same. split; [reflexivity|].
  split; [rewrite dict_set_new_app by exact Hin; now rewrite map_app|].
  split; [intros b' Hb'; apply dict_get_set_other; congruence|].
  unfold Library.remove_book, dict_item. simpl.
  rewrite dict_contains_set, dict_get_set_same. simpl.
  rewrite Z.ltb_irrefl. rewrite dict_del_set_new by exact Hin. simpl.
  eexists _, _. split; [reflexivity|]. split; reflexivity.
Qed.

(** X10.  [add_member] refuses an id already in the directory and
    otherwise succeeds; the new member is then found under its id with an
    empty list, an empty history and the limit of its membership type,
    the other members are untouched, and removing the member at once
    succeeds and gives back the directory as it was before. *)
Theorem add_member_then_lookup_and_remove :
  forall (member_id name email phone membership_type : string)
         (s : Library.t) (clk : Clock),
    (dict_contains member_id (Library.members s) = true ->
     Library.add_member member_id name email phone membership_type s clk
     = (Returns false, s, clk))
    /\ (dict_contains member_id (Library.members s) = false ->
        exists s' clk',
          Library.add_member member_id name email phone membership_type s clk
          = (Returns true, s', clk')
          /\ Library.get_member member_id s'
             = Some (Member.mk member_id name email phone membership_type
                       (reading clk (ticks clk)) [] []
                       (if String.eqb membership_type "Premium" then 5 else 3))
          /\ (forall m', m' <> member_id ->
                Library.get_member m' s' = Library.get_member m' s)
          /\ exists s'' clk'',
               Library.remove_member member_id s' clk' = (Returns true, s'', clk'')
               /\ Library.members s'' = Library.members s
               /\ Library.books s'' = Library.books s).
Proof.
  intros member_id name email phone membership_type s clk.
  unfold Library.add_member. split; intros Hin; rewrite Hin; [reflexivity|].
  simpl. eexists _, _. split; [reflexivity|].
  unfold Library.get_member. simpl.
  rewrite dict_get_set_same. split; [reflexivity|].
  split; [intros m' Hm'; apply dict_get_set_other; congruence|].
  unfold Library.remove_member, dict_item. simpl.
  rewrite dict_contains_set, dict_get_set_same. simpl.
  rewrite dict_del_set_new by exact Hin. simpl.
  eexists _, _. split; [reflexivity|]. split; reflexivity.
Qed.

(* ================================================================== *)
(** * The transaction log                                              *)
(* ================================================================== *)

Lemma skipn_own_length (A : Type) (l l' : list A) :
  skipn (List.length l) (l ++ l') = l'.
Proof. induction l as [|x l IH]; simpl; auto. Qed.

Lemma call_logs op s clk :
  exists b s' clk' entries,
    Library.call op s clk = (Returns b, s', clk')
    /\ Library.transactions s' = Library.transactions s ++ entries
    /\ (b = false -> entries = [])
    /\ (b = true ->
        exists t d, entries = [Library.mkTransaction t (action_of op) d]).
Proof.
  assert (Hsame : exists b s' clk' entries,
            (Returns false, s, clk) = (Returns b, s', clk')
            /\ Library.transactions s' = Library.transactions s ++ entries
            /\ (b = false -> entries = [])
            /\ (b = true ->
                exists t d, entries = [Library.mkTransaction t (action_of op) d])).
  { exists false, s, clk, []. rewrite app_nil_r.
    repeat split; auto. discriminate. }
  assert (Hyes : forall (st : Library.t) (c : Clock) t d,
            Library.transactions st
            = Library.transactions s ++ [Library.mkTransaction t (action_of op) d] ->
            exists b s' clk' entries,
              (Returns true, st, c) = (Returns b, s', clk')
              /\ Library.transactions s' = Library.transactions s ++ entries
              /\ (b = false -> entries = [])
              /\ (b = true ->
                  exists t d, entries = [Library.mkTransaction t (action_of op) d])).
  { intros st c t d Hst. exists true, st, c, [Library.mkTransaction t (action_of op) d].
    repeat split; eauto. discriminate. }
  destruct op; simpl.
  - unfold Library.add_book.
    destruct (dict_contains book_id (Library.books s)); [exact Hsame|].
    simpl. eapply Hyes. reflexivity.
  - unfold Library.remove_book.
    destruct (dict_contains book_id (Library.books s)) eqn:Hin; simpl;
      [|exact Hsame].
    destruct (dict_item_present _ _ Hin) as [book ->].
    destruct (Book.available_copies book <? Book.total_copies book);
      [exact Hsame|].
    destruct (dict_del_present _ _ Hin) as [bs ->].
    simpl. eapply Hyes. reflexivity.
  - unfold Library.add_member.
    destruct (dict_contains member_id (Library.members s)); [exact Hsame|].
    simpl. eapply Hyes. reflexivity.
  - unfold Library.remove_member.
    destruct (dict_contains member_id (Library.members s)) eqn:Hin; simpl;
      [|exact Hsame].
    destruct (dict_item_present _ _ Hin) as [mem ->].
    destruct (Member.borrowed_books mem); [|exact Hsame].
    destruct (dict_del_present _ _ Hin) as [ms ->].
    simpl. eapply Hyes. reflexivity.
  - unfold Library.borrow_book.
    destruct (Library.get_member member_id s) as [mem|]; [|exact Hsame].
    destruct (Library.get_book book_id s) as [book|]; [|exact Hsame].
    destruct (Member.can_borrow mem) eqn:Hcan; simpl; [|exact Hsame].
    destruct (Book.is_available book) eqn:Hav; simpl; [|exact Hsame].
    unfold Book.borrow, Member.borrow_book. rewrite Hav, Hcan. simpl.
    eapply Hyes. reflexivity.
  - unfold Library.return_book.
    destruct (Library.get_member member_id s) as [mem|]; [|exact Hsame].
    destruct (Library.get_book book_id s) as [book|] eqn:Hb; [|exact Hsame].
    destruct (list_contains book_id (Member.borrowed_books mem)) eqn:Hheld;
      simpl; [|exact Hsame].
    unfold Book.return_book.
    destruct (dict_contains member_id (Book.borrowed_by book)) eqn:Hloan.
    + destruct (dict_del_present _ _ Hloan) as [loans ->].
      unfold Member.return_book. rewrite Hheld.
      destruct (list_remove_present _ _ Hheld) as [held ->].
      simpl. eapply Hyes. reflexivity.
    + simpl. unfold Library.get_book in Hb.
      rewrite (dict_set_same _ _ Hb), set_books_same. exact Hsame.
Qed.

(** X11.  The log is append-only and has one entry per successful call:
    a call that returns [True] adds exactly one entry, tagged with the
    action of the call, after the entries already there; a call that
    returns [False] adds none; and after any sequence of calls the
    earlier log is a prefix of the later one, which has grown by at most
    one entry per call. *)
Theorem log_is_append_only :
  (forall (op : Library.Op) (s : Library.t) (clk : Clock),
     exists b s' clk' entries,
       Library.call op s clk = (Returns b, s', clk')
       /\ Library.transactions s' = Library.transactions s ++ entries
       /\ (b = false -> entries = [])
       /\ (b = true ->
           exists t d, entries = [Library.mkTransaction t (action_of op) d]))
  /\ (forall (ops : list Library.Op) (s : Library.t) (clk : Clock),
        Library.transactions (fst (Library.run ops s clk))
        = Library.transactions s ++ logged_since s (fst (Library.run ops s clk))
        /\ (List.length (logged_since s (fst (Library.run ops s clk)))
            <= List.length ops)%nat).
Proof.
  split; [exact call_logs|].
  assert (Hrun : forall ops s clk,
            exists added,
              Library.transactions (fst (Library.run ops s clk))
              = Library.transactions s ++ added
              /\ (List.length added <= List.length ops)%nat).
  { induction ops as [|op ops IH]; intros s clk; simpl.
    - exists []. now rewrite app_nil_r.
    - destruct (call_logs op s clk) as (b & s' & clk' & entries & -> & Hlog & Hf & Ht).
      destruct (IH s' clk') as (added & Hadd & Hlen).
      exists (entries ++ added). rewrite Hadd, Hlog, app_assoc.
      split; [reflexivity|]. rewrite length_app.
      destruct b.
      + destruct (Ht eq_refl) as (t & d & ->). simpl. lia.
      + rewrite (Hf eq_refl). simpl. lia. }
  intros ops s clk. destruct (Hrun ops s clk) as (added & Hadd & Hlen).
  unfold logged_since. rewrite Hadd, skipn_own_length. auto.
Qed.

(** X12.  [get_transaction_history limit] returns the last [limit]
    entries of the log, oldest first, or the whole log when it is
    shorter; with a limit of zero it returns the whole log; with a
    negative limit it drops the oldest [-limit] entries instead. *)
Theorem history_returns_latest_entries :
  forall (limit : Z) (s : Library.t),
    (0 < limit ->
     Library.get_transaction_history limit s
     = skipn (List.length (Library.transactions s) - Z.to_nat limit)
             (Library.transactions s)
     /\ List.length (Library.get_transaction_history limit s)
        = Nat.min (Z.to_nat limit) (List.length (Library.transactions s)))
    /\ (limit = 0 ->
        Library.get_transaction_history limit s = Library.transactions s)
    /\ (limit < 0 ->
        Library.get_transaction_history limit s
        = skipn (Z.to_nat (- limit)) (Library.transactions s)).
Proof.
  intros limit s. unfold Library.get_transaction_history, Library.slice_from.
  set (log := Library.transactions s). split; [|split].
  - intros Hpos.
    destruct (Z.eqb_spec limit 0) as [|_]; [lia|].
    destruct (Z.ltb_spec (- limit) 0) as [_|]; [|lia].
    replace (Z.to_nat (Z.max (Z.of_nat (List.length log) + - limit) 0))
      with (List.length log - Z.to_nat limit)%nat by lia.
    split; [reflexivity|]. rewrite length_skipn. lia.
  - intros ->. reflexivity.
  - intros Hneg.
    destruct (Z.eqb_spec limit 0) as [|_]; [lia|].
    destruct (Z.ltb_spec (- limit) 0) as [|_]; [lia|].
    destruct (Z.le_ge_cases (- limit) (Z.of_nat (List.length log))) as [Hle|Hge].
    + now rewrite Z.min_l.
    + rewrite Z.min_r by exact Hge. rewrite Nat2Z.id.
      rewrite skipn_all. symmetry. apply skipn_all2. lia.
Qed.

(* ================================================================== *)
(** * Statistics                                                       *)
(* ================================================================== *)

Lemma fold_add_shift (l : list Z) : forall a,
  fold_left Z.add l a = a + fold_left Z.add l 0.
Proof.
  induction l as [|x l IH]; intros a; simpl; [lia|].
  rewrite (IH (a + x)), (IH x). lia.
Qed.

Lemma sum_cons (x : Z) (l : list Z) : Library.sum (x :: l) = x + Library.sum l.
Proof. unfold Library.sum. simpl. apply fold_add_shift. Qed.

Lemma loans_within_difference (bs : list Book.t) :
  (forall b, In b bs -> stock_bounded b) ->
  Library.sum (map (fun b => Z.of_nat (List.length (Book.borrowed_by b))) bs)
  <= Library.sum (map Book.total_copies bs)
     - Library.sum (map Book.available_copies bs).
Proof.
  induction bs as [|b bs IH]; intros Hb; simpl; [reflexivity|].
  rewrite !sum_cons. destruct (Hb b (or_introl eq_refl)) as [Hsum _].
  assert (Hrest := IH (fun x Hx => Hb x (or_intror Hx))). lia.
Qed.

Lemma loans_equal_difference (bs : list Book.t) :
  (forall b, In b bs -> copies_accounted b) ->
  Library.sum (map (fun b => Z.of_nat (List.length (Book.borrowed_by b))) bs)
  = Library.sum (map Book.total_copies bs)
    - Library.sum (map Book.available_copies bs).
Proof.
  induction bs as [|b bs IH]; intros Hb; simpl; [reflexivity|].
  rewrite !sum_cons. pose proof (Hb b (or_introl eq_refl)) as Hsum.
  unfold copies_accounted in Hsum.
  assert (Hrest := IH (fun x Hx => Hb x (or_intror Hx))). lia.
Qed.

Lemma value_has_key (V : Type) (v : V) (d : dict string V) :
  In v (dict_values d) -> exists k, In (k, v) d.
Proof.
  unfold dict_values. intros Hin. apply in_map_iff in Hin.
  destruct Hin as ([k v'] & Hv & Hin). simpl in Hv. subst v'. eauto.
Qed.

(** X13.  In a state reached from the empty library, the statistics never
    report fewer borrowed copies than there are recorded loans -- exactly
    as many when every book accounts for all its copies -- and the active
    members are counted among the members. *)
Theorem library_stats_cover_recorded_loans :
  forall s : Library.t, Library.reachable s ->
    recorded_loans s <= Library.borrowed_copies (Library.get_library_stats s)
    /\ (catalog_accounted s ->
        Library.borrowed_copies (Library.get_library_stats s) = recorded_loans s)
    /\ 0 <= Library.active_members (Library.get_library_stats s)
       <= Library.total_members (Library.get_library_stats s).
Proof.
  intros s Hr. unfold recorded_loans, Library.list_all_books. simpl.
  split; [|split].
  - apply loans_within_difference. intros b Hb.
    apply value_has_key in Hb. destruct Hb as [k Hin].
    exact (@reachable_bounded s k b Hr Hin).
  - intros Hacc. symmetry. apply loans_equal_difference. intros b Hb.
    apply value_has_key in Hb. destruct Hb as [k Hin]. exact (Hacc k b Hin).
  - split; [lia|]. apply Nat2Z.inj_le.
    etransitivity; [apply filter_length_le|].
    unfold dict_values. now rewrite length_map.
Qed.

Lemma library_stats_cover_recorded_loans_witness :
  recorded_loans same_book_twice = 1
  /\ Library.borrowed_copies (Library.get_library_stats same_book_twice) = 2
  /\ recorded_loans same_book_twice
     <= Library.borrowed_copies (Library.get_library_stats same_book_twice).
Proof.
  split; [reflexivity|]. split; [reflexivity|].
  exact (proj1 (@library_stats_cover_recorded_loans same_book_twice
                  (after_reachable _))).
Defined.

(* ================================================================== *)
(** * What a search finds                                              *)
(* ================================================================== *)


(* ================================================================== *)
(** * Attendance: check-out, figures, peak hours                       *)
(* ================================================================== *)

Lemma scan_none_iff v rs clk :
  AttendanceTracker.check_out_scan v rs clk = None
  <-> AttendanceTracker.present_in v rs = false.
Proof.
  induction rs as [|r rs IH]; simpl; [tauto|].
  destruct (AttendanceTracker.active_for v r).
  - unfold AttendanceRecord.check_out, now. split; discriminate.
  - destruct (AttendanceTracker.check_out_scan v rs clk) as [[rs' clk']|].
    + split; [discriminate|]. intros Hp. apply IH in Hp. discriminate.
    + tauto.
Qed.

Lemma active_among_history v (rs : list AttendanceRecord.t) :
  (List.length (filter (AttendanceTracker.active_for v) rs)
   <= List.length
        (filter (fun r => String.eqb (AttendanceRecord.visitor_id r) v) rs))%nat.
Proof.
  induction rs as [|r rs IH]; simpl; [lia|].
  destruct (AttendanceTracker.active_for v r) eqn:Hact;
    destruct (String.eqb (AttendanceRecord.visitor_id r) v) eqn:Hid;
    simpl; try lia.
  unfold AttendanceTracker.active_for in Hact. rewrite Hid in Hact.
  discriminate.
Qed.

(** X15.  [check_out] returns [True] exactly when the visitor is present;
    for a visitor who is not -- never checked in, or checked out already
    -- it returns [False], creates no record and changes nothing. *)
Theorem check_out_needs_presence :
  forall (v : string) (trk : AttendanceTracker.t) (clk : Clock),
    fst (fst (AttendanceTracker.check_out v trk clk))
    = AttendanceTracker.is_currently_present v trk
    /\ (AttendanceTracker.is_currently_present v trk = false ->
        AttendanceTracker.check_out v trk clk = (false, trk, clk))
    /\ (AttendanceTracker.get_visitor_history v trk = [] ->
        AttendanceTracker.check_out v trk clk = (false, trk, clk)).
Proof.
  intros v trk clk.
  assert (Habs : AttendanceTracker.is_currently_present v trk = false ->
                 AttendanceTracker.check_out v trk clk = (false, trk, clk)).
  { unfold AttendanceTracker.is_currently_present, AttendanceTracker.check_out.
    intros Hp. apply (scan_none_iff v _ clk) in Hp. now rewrite Hp. }
  split; [|split; [exact Habs|]].
  - destruct (AttendanceTracker.is_currently_present v trk) eqn:Hp.
    + unfold AttendanceTracker.is_currently_present in Hp.
      unfold AttendanceTracker.check_out.
      destruct (AttendanceTracker.check_out_scan v
                  (rev (AttendanceTracker.attendance_records trk)) clk)
        as [[rs clk']|] eqn:Hscan; [reflexivity|].
      apply scan_none_iff in Hscan. congruence.
    + now rewrite Habs.
  - intros Hhist. apply Habs.
    destruct (AttendanceTracker.is_currently_present v trk) eqn:Hp; [|reflexivity].
    apply is_currently_present_count in Hp.
    unfold active_records, AttendanceTracker.get_visitor_history in *.
    pose proof (active_among_history v (AttendanceTracker.attendance_records trk)) as Hle.
    rewrite Hhist in Hle. simpl in Hle. lia.
Qed.

(** ** The daily figures *)

Lemma sum_map_set (f : AttendanceTracker.Counters -> Z) (day : date)
    (c' : AttendanceTracker.Counters)
    (stats : dict date AttendanceTracker.Counters) :
  Library.sum (map (fun e => f (snd e)) (dict_set day c' stats))
  = Library.sum (map (fun e => f (snd e)) stats)
    - match dict_get day stats with Some c => f c | None => 0 end
    + f c'.
Proof.
  induction stats as [|[d0 c0] stats IH]; simpl.
  - rewrite sum_cons. unfold Library.sum. simpl. lia.
  - destruct (Z.eqb day d0); simpl; rewrite !sum_cons; simpl.
    + lia.
    + rewrite IH. lia.
Qed.

Lemma shape_zero : counters_shape AttendanceTracker.zero_counters.
Proof. exists 0, 0, 0. repeat split; lia. Qed.

(** The counters of the day once the day is known to the statistics. *)
Lemma day_opened (day : date) (stats : dict date AttendanceTracker.Counters) :
  (forall d c, In (d, c) stats -> counters_shape c) ->
  let stats0 :=
    if negb (dict_contains day stats)
    then dict_set day AttendanceTracker.zero_counters stats else stats in
  exists c0,
    dict_get day stats0 = Some c0
    /\ counters_shape c0
    /\ (forall d c, In (d, c) stats0 -> counters_shape c)
    /\ (forall key,
          Library.sum (map (fun e => figure key (snd e)) stats0)
          = Library.sum (map (fun e => figure key (snd e)) stats)).
Proof.
  intros Hshape. unfold dict_contains.
  destruct (dict_get day stats) as [c|] eqn:Hg; simpl.
  - exists c. split; [exact Hg|]. split; [|auto].
    apply dict_get_In_key in Hg. eauto.
  - exists AttendanceTracker.zero_counters.
    rewrite dict_get_set_same. split; [reflexivity|].
    split; [apply shape_zero|]. split.
    + intros d c Hin. apply dict_set_In_key in Hin.
      destruct Hin as [Hin|[= _ ->]]; [eauto | apply shape_zero].
    + intros key. rewrite sum_map_set, Hg.
      assert (figure key AttendanceTracker.zero_counters = 0).
      { unfold figure, AttendanceTracker.zero_counters. simpl.
        repeat match goal with |- context [if ?b then _ else _] => destruct b end;
          reflexivity. }
      lia.
Qed.

(** What the two increments of a check-in do to the statistics. *)
Lemma check_in_figures (vt : VisitorType) (day : date)
    (stats0 : dict date AttendanceTracker.Counters)
    (c0 : AttendanceTracker.Counters) :
  dict_get day stats0 = Some c0 -> counters_shape c0 ->
  (forall d c, In (d, c) stats0 -> counters_shape c) ->
  exists stats1,
    AttendanceTracker.bump day "total_visitors" stats0 = Returns stats1
    /\ (forall d c, In (d, c) stats1 -> counters_shape c)
    /\ Library.sum (map (fun e => figure "total_visitors" (snd e)) stats1)
       = Library.sum (map (fun e => figure "total_visitors" (snd e)) stats0) + 1
    /\ Library.sum (map (fun e => figure "members" (snd e)) stats1)
       = Library.sum (map (fun e => figure "members" (snd e)) stats0)
    /\ Library.sum (map (fun e => figure "visitors" (snd e)) stats1)
       = Library.sum (map (fun e => figure "visitors" (snd e)) stats0)
    /\ match vt with
       | STAFF =>
           AttendanceTracker.bump day
             (String.append (VisitorType_value vt) "s") stats1
           = Raises KeyError
       | _ =>
           exists stats2,
             AttendanceTracker.bump day
               (String.append (VisitorType_value vt) "s") stats1
             = Returns stats2
             /\ (forall d c, In (d, c) stats2 -> counters_shape c)
             /\ Library.sum (map (fun e => figure "total_visitors" (snd e)) stats2)
                = Library.sum (map (fun e => figure "total_visitors" (snd e)) stats1)
             /\ Library.sum (map (fun e => figure "members" (snd e)) stats2)
                = Library.sum (map (fun e => figure "members" (snd e)) stats1)
                  + (if is_of_type MEMBER
                          (AttendanceRecord.mk "" "" vt 0 None "" true)
                     then 1 else 0)
             /\ Library.sum (map (fun e => figure "visitors" (snd e)) stats2)
                = Library.sum (map (fun e => figure "visitors" (snd e)) stats1)
                  + (if is_of_type VISITOR
                          (AttendanceRecord.mk "" "" vt 0 None "" true)
                     then 1 else 0)
       end.
Proof.
  intros Hg (t & m & v & -> & Hm & Hv & Hsum) Hshape.
  unfold AttendanceTracker.bump at 1, dict_item. rewrite Hg. simpl.
  eexists. split; [reflexivity|].
  assert (Hshape1 : forall d c,
            In (d, c)
               (dict_set day
                  [("total_visitors", t + 1); ("members", m);
                   ("visitors", v); ("staff", 0)] stats0) ->
            counters_shape c).
  { intros d c Hin. apply dict_set_In_key in Hin.
    destruct Hin as [Hin|[= _ Hc]]; [eauto|]. subst c.
    exists (t + 1), m, v. repeat split; lia. }
  split; [exact Hshape1|].
  split; [rewrite sum_map_set, Hg; unfold figure; simpl; lia|].
  split; [rewrite sum_map_set, Hg; unfold figure; simpl; lia|].
  split; [rewrite sum_map_set, Hg; unfold figure; simpl; lia|].
  destruct vt; simpl; unfold AttendanceTracker.bump, dict_item;
    rewrite dict_get_set_same; simpl; [| |reflexivity].
  - eexists. split; [reflexivity|]. split.
    + intros d c Hin. apply dict_set_In_key in Hin.
      destruct Hin as [Hin|[= _ Hc]]; [eauto|]. subst c.
      exists (t + 1), (m + 1), v. repeat split; lia.
    + repeat split;
        rewrite sum_map_set, dict_get_set_same; unfold figure; simpl; lia.
  - eexists. split; [reflexivity|]. split.
    + intros d c Hin. apply dict_set_In_key in Hin.
      destruct Hin as [Hin|[= _ Hc]]; [eauto|]. subst c.
      exists (t + 1), m, (v + 1). repeat split; lia.
    + repeat split;
        rewrite sum_map_set, dict_get_set_same; unfold figure; simpl; lia.
Qed.

Lemma filter_length_app (A : Type) (p : A -> bool) (l l' : list A) :
  List.length (filter p (l ++ l'))
  = (List.length (filter p l) + List.length (filter p l'))%nat.
Proof. now rewrite filter_app, length_app. Qed.

(** A check-in of a visitor who is not present: its result, the state it
    leaves and the figures of that state. *)
Lemma check_in_outcome v n vt p trk clk :
  figures_match trk ->
  AttendanceTracker.is_currently_present v trk = false ->
  exists stats',
    AttendanceTracker.check_in v n vt p trk clk
    = (match vt with STAFF => Raises KeyError | _ => Returns true end,
       AttendanceTracker.mk
         (AttendanceTracker.attendance_records trk
          ++ [AttendanceRecord.mk v n vt (reading clk (ticks clk)) None p true])
         stats',
       mkClock (reading clk) (S (S (ticks clk))))
    /\ figures_match
         (AttendanceTracker.mk
            (AttendanceTracker.attendance_records trk
             ++ [AttendanceRecord.mk v n vt (reading clk (ticks clk)) None p true])
            stats').
Proof.
  intros (Hshape & Htot & Hmem & Hvis) Habs.
  unfold AttendanceTracker.check_in. rewrite Habs.
  unfold AttendanceRecord.init, AttendanceRecord.set_purpose, today, now.
  cbn [reading ticks AttendanceRecord.visitor_id AttendanceRecord.name
       AttendanceRecord.visitor_type AttendanceRecord.entry_time
       AttendanceRecord.exit_time AttendanceRecord.is_active].
  set (day := date_of (reading clk (S (ticks clk)))).
  destruct (day_opened day (AttendanceTracker.daily_stats trk) Hshape)
    as (c0 & Hg0 & Hc0 & Hshape0 & Hsum0).
  cbv zeta in Hg0, Hshape0, Hsum0.
  set (stats0 := if negb (dict_contains day (AttendanceTracker.daily_stats trk))
                 then dict_set day AttendanceTracker.zero_counters
                        (AttendanceTracker.daily_stats trk)
                 else AttendanceTracker.daily_stats trk) in *.
  destruct (check_in_figures vt day stats0 c0 Hg0 Hc0 Hshape0)
    as (stats1 & Hb1 & Hshape1 & Ht1 & Hm1 & Hv1 & Hsecond).
  rewrite Hb1.
  unfold figures_match, overall, records_of_type in *.
  cbn [AttendanceTracker.attendance_records AttendanceTracker.daily_stats] in *.
  destruct vt.
  - destruct Hsecond as (stats2 & Hb2 & Hshape2 & Ht2 & Hm2 & Hv2).
    rewrite Hb2. exists stats2. split; [reflexivity|].
    rewrite !filter_length_app, length_app. simpl in *.
    rewrite Ht2, Hm2, Hv2, Ht1, Hm1, Hv1, !Hsum0, Htot, Hmem, Hvis.
    repeat split; auto; lia.
  - destruct Hsecond as (stats2 & Hb2 & Hshape2 & Ht2 & Hm2 & Hv2).
    rewrite Hb2. exists stats2. split; [reflexivity|].
    rewrite !filter_length_app, length_app. simpl in *.
    rewrite Ht2, Hm2, Hv2, Ht1, Hm1, Hv1, !Hsum0, Htot, Hmem, Hvis.
    repeat split; auto; lia.
  - lazy beta iota in Hsecond. rewrite Hsecond. exists stats1. split; [reflexivity|].
    rewrite !filter_length_app, length_app. simpl.
    rewrite Ht1, Hm1, Hv1, !Hsum0, Htot, Hmem, Hvis.
    repeat split; auto; lia.
Qed.

(** The scan of [check_out] touches nothing but the end of one visit. *)
Lemma check_out_scan_visits v rs clk rs' clk' :
  AttendanceTracker.check_out_scan v rs clk = Some (rs', clk') ->
  map visit_of rs' = map visit_of rs
  /\ clk' = mkClock (reading clk) (S (ticks clk))
  /\ (List.length (filter AttendanceRecord.is_active rs)
      = S (List.length (filter AttendanceRecord.is_active rs')))%nat
  /\ (forall i r, nth_error rs i = Some r ->
        AttendanceRecord.is_active r = false -> nth_error rs' i = Some r).
Proof.
  revert rs'. induction rs as [|r rs IH]; intros rs'; simpl; [discriminate|].
  destruct (AttendanceTracker.active_for v r) eqn:Hact.
  - unfold AttendanceRecord.check_out, now. intros [= <- <-].
    unfold AttendanceTracker.active_for in Hact.
    apply andb_true_iff in Hact. destruct Hact as [_ Hon].
    simpl. rewrite Hon. repeat split; auto.
    intros [|i] r0; simpl; [|auto]. intros [= <-]. congruence.
  - destruct (AttendanceTracker.check_out_scan v rs clk) as [[rs'' clk'']|];
      [|discriminate].
    intros [= <- <-]. destruct (IH _ eq_refl) as (Hmap & Hclk & Hlen & Hkeep).
    simpl. rewrite Hmap. repeat split; auto.
    + destruct (AttendanceRecord.is_active r); simpl; lia.
    + intros [|i] r0; simpl; auto.
Qed.

Lemma type_count_visits (vt : VisitorType) (rs rs' : list AttendanceRecord.t) :
  map visit_of rs' = map visit_of rs ->
  List.length (filter (is_of_type vt) rs') = List.length (filter (is_of_type vt) rs).
Proof.
  revert rs'. induction rs as [|r rs IH]; intros [|r' rs']; simpl; try discriminate;
    [reflexivity|].
  intros [= Hid Hn Hty Hen Hp Hrest].
  assert (Hsame : is_of_type vt r' = is_of_type vt r)
    by (unfold is_of_type; now rewrite Hty).
  rewrite Hsame. destruct (is_of_type vt r); simpl; now rewrite (IH _ Hrest).
Qed.

Lemma check_out_keeps_figures v trk clk :
  figures_match trk ->
  figures_match (snd (fst (AttendanceTracker.check_out v trk clk))).
Proof.
  intros Hf. unfold AttendanceTracker.check_out.
  destruct (AttendanceTracker.check_out_scan v
              (rev (AttendanceTracker.attendance_records trk)) clk)
    as [[rs clk']|] eqn:Hscan; [|exact Hf].
  apply check_out_scan_visits in Hscan. destruct Hscan as (Hmap & _).
  assert (Hvisits : map visit_of (rev rs)
                    = map visit_of (AttendanceTracker.attendance_records trk)).
  { rewrite map_rev, Hmap, <- map_rev, rev_involutive. reflexivity. }
  destruct Hf as (Hshape & Htot & Hmem & Hvis).
  unfold figures_match, overall, records_of_type in *. simpl.
  rewrite !(type_count_visits _ _ _ Hvisits).
  assert (Hlen : List.length (rev rs)
                 = List.length (AttendanceTracker.attendance_records trk)).
  { rewrite <- (length_map visit_of (rev rs)), Hvisits. apply length_map. }
  rewrite Hlen. auto.
Qed.

Lemma call_keeps_figures op trk clk :
  figures_match trk ->
  figures_match (snd (fst (AttendanceTracker.call op trk clk))).
Proof.
  intros Hf. destruct op as [v n vt p|v]; simpl.
  - destruct (AttendanceTracker.is_currently_present v trk) eqn:Hp.
    + rewrite check_in_refused by exact Hp. exact Hf.
    + destruct (check_in_outcome v n vt p trk clk Hf Hp) as (stats' & -> & Hf').
      exact Hf'.
  - pose proof (check_out_keeps_figures v trk clk Hf) as Hf'.
    destruct (AttendanceTracker.check_out v trk clk) as [[b trk'] clk'].
    exact Hf'.
Qed.

Lemma run_keeps_figures ops : forall trk clk,
  figures_match trk -> figures_match (fst (AttendanceTracker.run ops trk clk)).
Proof.
  induction ops as [|op ops IH]; intros trk clk Hf; simpl; [exact Hf|].
  pose proof (@call_keeps_figures op trk clk Hf) as Hstep.
  destruct (AttendanceTracker.call op trk clk) as [[r trk'] clk']. now apply IH.
Qed.

Lemma reachable_figures trk :
  AttendanceTracker.reachable trk -> figures_match trk.
Proof.
  intros (ops & clk & <-). apply run_keeps_figures.
  unfold figures_match, overall, records_of_type. simpl.
  repeat split; auto. intros d c [].
Qed.

Lemma sum_of_zeros (A : Type) (f : A -> Z) (l : list A) :
  (forall x, In x l -> f x = 0) -> Library.sum (map f l) = 0.
Proof.
  induction l as [|x l IH]; intros Hz; simpl; [reflexivity|].
  rewrite sum_cons, (Hz x (or_introl eq_refl)), IH; [reflexivity|].
  intros y Hy. apply Hz. now right.
Qed.

(** X16.  In every state of the tracker reached from the empty one, the
    daily figures summed over all days count the check-ins made: the
    totals add up to the number of records, the member and visitor
    figures to the number of member and visitor records, and nothing is
    ever counted under [staff].  The counters returned for any date have
    the four keys, with [staff] at 0 and the total at least the members
    plus the visitors. *)
Theorem daily_figures_count_the_records :
  forall trk : AttendanceTracker.t, AttendanceTracker.reachable trk ->
    overall "total_visitors" trk
    = Z.of_nat (List.length (AttendanceTracker.attendance_records trk))
    /\ overall "members" trk = Z.of_nat (List.length (records_of_type MEMBER trk))
    /\ overall "visitors" trk = Z.of_nat (List.length (records_of_type VISITOR trk))
    /\ overall "staff" trk = 0
    /\ (forall (d : date) (clk : Clock),
          exists t m v,
            fst (AttendanceTracker.get_daily_stats (Some d) trk clk)
            = [("total_visitors", t); ("members", m); ("visitors", v); ("staff", 0)]
            /\ 0 <= m /\ 0 <= v /\ m + v <= t).
Proof.
  intros trk Hr. destruct (reachable_figures trk Hr) as (Hshape & Htot & Hmem & Hvis).
  repeat split; auto.
  - unfold overall. apply sum_of_zeros. intros [d c] Hin.
    destruct (Hshape d c Hin) as (t & m & v & -> & _). reflexivity.
  - intros d clk. unfold AttendanceTracker.get_daily_stats. simpl.
    destruct (dict_get d (AttendanceTracker.daily_stats trk)) as [c|] eqn:Hg.
    + apply dict_get_In_key in Hg. exact (Hshape d c Hg).
    + exact shape_zero.
Qed.

Lemma daily_figures_count_the_records_witness :
  overall "total_visitors" late_morning = 3
  /\ overall "visitors" late_morning = 2
  /\ overall "staff" late_morning = 0
  /\ overall "total_visitors" late_morning
     = Z.of_nat (List.length (AttendanceTracker.attendance_records late_morning)).
Proof.
  split; [reflexivity|]. split; [reflexivity|]. split; [reflexivity|].
  exact (proj1 (daily_figures_count_the_records late_morning late_morning_reachable)).
Defined.

Lemma present_after_check_in v n vt p trk stats' t :
  AttendanceTracker.is_currently_present v
    (AttendanceTracker.mk
       (AttendanceTracker.attendance_records trk
        ++ [AttendanceRecord.mk v n vt t None p true]) stats') = true.
Proof.
  unfold AttendanceTracker.is_currently_present. simpl.
  rewrite rev_unit. simpl. unfold AttendanceTracker.active_for. simpl.
  now rewrite String.eqb_refl.
Qed.

(** X17.  In a state of the tracker reached from the empty one, checking
    in a visitor who is not present stores one active record dated with
    the instant read, after which the visitor is present; the call
    returns [True] for a member or a visitor, and raises [KeyError] for a
    staff member, whose counter is looked up under a key that does not
    exist. *)
Theorem check_in_of_absent_visitor :
  forall (trk : AttendanceTracker.t) (v n : string) (vt : VisitorType)
         (p : string) (clk : Clock),
    AttendanceTracker.reachable trk ->
    AttendanceTracker.is_currently_present v trk = false ->
    exists trk',
      AttendanceTracker.check_in v n vt p trk clk
      = (match vt with STAFF => Raises KeyError | _ => Returns true end,
         trk', mkClock (reading clk) (S (S (ticks clk))))
      /\ AttendanceTracker.attendance_records trk'
         = AttendanceTracker.attendance_records trk
           ++ [AttendanceRecord.mk v n vt (reading clk (ticks clk)) None p true]
      /\ AttendanceTracker.is_currently_present v trk' = true.
Proof.
  intros trk v n vt p clk Hr Habs.
  destruct (check_in_outcome v n vt p trk clk (reachable_figures trk Hr) Habs)
    as (stats' & Hci & _).
  eexists. split; [exact Hci|]. split; [reflexivity|].
  apply present_after_check_in.
Qed.

Lemma check_in_of_absent_visitor_witness :
  (exists trk',
     AttendanceTracker.check_in "S2" "Sue" STAFF "" late_morning wall_clock
     = (Raises KeyError, trk', mkClock (reading wall_clock) 2)
     /\ AttendanceTracker.is_currently_present "S2" trk' = true)
  /\ (exists trk',
        AttendanceTracker.check_in "V3" "Vic" VISITOR "" late_morning wall_clock
        = (Returns true, trk', mkClock (reading wall_clock) 2)
        /\ AttendanceTracker.is_currently_present "V3" trk' = true).
Proof.
  split.
  - destruct (check_in_of_absent_visitor late_morning "S2" "Sue" STAFF ""
                wall_clock late_morning_reachable eq_refl)
      as (trk' & Hci & _ & Hp).
    exists trk'. split; assumption.
  - destruct (check_in_of_absent_visitor late_morning "V3" "Vic" VISITOR ""
                wall_clock late_morning_reachable eq_refl)
      as (trk' & Hci & _ & Hp).
    exists trk'. split; assumption.
Defined.

Lemma presence_by_count v trk trk' :
  List.length (active_records v trk') = List.length (active_records v trk) ->
  AttendanceTracker.is_currently_present v trk'
  = AttendanceTracker.is_currently_present v trk.
Proof.
  intros Hc.
  destruct (AttendanceTracker.is_currently_present v trk) eqn:Hp.
  - apply is_currently_present_count. apply is_currently_present_count in Hp. lia.
  - destruct (AttendanceTracker.is_currently_present v trk') eqn:Hp';
      [|reflexivity].
    apply is_currently_present_count in Hp'. rewrite Hc in Hp'.
    apply is_currently_present_count in Hp'. congruence.
Qed.

(** X18.  In a state of the tracker reached from the empty one, checking
    out a visitor who is present returns [True], reads the clock once and
    leaves the visitor absent; every record still describes the same
    visit, the daily figures are untouched, the presence of the other
    visitors is unchanged and the current visitors are one fewer. *)
Theorem check_out_of_present_visitor :
  forall (trk : AttendanceTracker.t) (v : string) (clk : Clock),
    AttendanceTracker.reachable trk ->
    AttendanceTracker.is_currently_present v trk = true ->
    exists trk',
      AttendanceTracker.check_out v trk clk
      = (true, trk', mkClock (reading clk) (S (ticks clk)))
      /\ AttendanceTracker.is_currently_present v trk' = false
      /\ map visit_of (AttendanceTracker.attendance_records trk')
         = map visit_of (AttendanceTracker.attendance_records trk)
      /\ AttendanceTracker.daily_stats trk' = AttendanceTracker.daily_stats trk
      /\ (forall v', v' <> v ->
            AttendanceTracker.is_currently_present v' trk'
            = AttendanceTracker.is_currently_present v' trk)
      /\ List.length (AttendanceTracker.get_current_visitors trk)
         = S (List.length (AttendanceTracker.get_current_visitors trk')).
Proof.
  intros trk v clk Hr Hp.
  pose proof (reachable_single Hr v) as Hone.
  pose proof (fun v' => @check_out_count v trk clk v') as Hcount.
  unfold AttendanceTracker.check_out in *.
  destruct (AttendanceTracker.check_out_scan v
              (rev (AttendanceTracker.attendance_records trk)) clk)
    as [[rs clk']|] eqn:Hscan.
  2:{ apply scan_none_iff in Hscan.
      unfold AttendanceTracker.is_currently_present in Hp. congruence. }
  destruct (check_out_scan_visits _ _ _ _ _ Hscan) as (Hmap & -> & Hlen & _).
  simpl in Hcount.
  eexists. split; [reflexivity|].
  assert (Hpc := proj1 (is_currently_present_count v trk) Hp).
  split; [|split; [|split; [reflexivity|split]]].
  - destruct (AttendanceTracker.is_currently_present v
                (AttendanceTracker.mk (rev rs) (AttendanceTracker.daily_stats trk)))
      eqn:Hp'; [|reflexivity].
    apply is_currently_present_count in Hp'.
    specialize (Hcount v). rewrite String.eqb_refl in Hcount. lia.
  - simpl. rewrite map_rev, Hmap, <- map_rev, rev_involutive. reflexivity.
  - intros v' Hne. apply presence_by_count.
    specialize (Hcount v'). apply String.eqb_neq in Hne.
    rewrite String.eqb_sym in Hne. rewrite Hne in Hcount. lia.
  - unfold AttendanceTracker.get_current_visitors. simpl.
    rewrite filter_rev, length_rev in Hlen. rewrite Hlen.
    now rewrite filter_rev, length_rev.
Qed.

Lemma check_out_of_present_visitor_witness :
  exists trk',
    AttendanceTracker.check_out "V1" late_morning wall_clock
    = (true, trk', mkClock (reading wall_clock) 1)
    /\ AttendanceTracker.is_currently_present "V1" trk' = false
    /\ List.length (AttendanceTracker.get_current_visitors late_morning)
       = S (List.length (AttendanceTracker.get_current_visitors trk')).
Proof.
  destruct (check_out_of_present_visitor late_morning "V1" wall_clock
              late_morning_reachable eq_refl)
    as (trk' & Hco & Hp & _ & _ & _ & Hn).
  exists trk'. repeat split; assumption.
Defined.

(** X19.  A whole visit.  In a state of the tracker reached from the
    empty one, checking in a visitor who is not present and checking the
    visitor out next appends one closed record to the records -- entered
    at the first instant read, left at the third -- leaves the visitor
    absent again, and adds that record at the end of the visitor's
    history. *)
Theorem visit_leaves_one_closed_record :
  forall (trk : AttendanceTracker.t) (v n : string) (vt : VisitorType)
         (p : string) (clk : Clock),
    AttendanceTracker.reachable trk ->
    AttendanceTracker.is_currently_present v trk = false ->
    let closed :=
      AttendanceRecord.mk v n vt (reading clk (ticks clk))
        (Some (reading clk (S (S (ticks clk))))) p false in
    exists trk1 clk1 trk2,
      AttendanceTracker.check_in v n vt p trk clk
      = (match vt with STAFF => Raises KeyError | _ => Returns true end,
         trk1, clk1)
      /\ AttendanceTracker.check_out v trk1 clk1
         = (true, trk2, mkClock (reading clk) (S (S (S (ticks clk)))))
      /\ AttendanceTracker.attendance_records trk2
         = AttendanceTracker.attendance_records trk ++ [closed]
      /\ AttendanceTracker.is_currently_present v trk2 = false
      /\ AttendanceTracker.get_visitor_history v trk2
         = AttendanceTracker.get_visitor_history v trk ++ [closed].
Proof.
  intros trk v n vt p clk Hr Habs closed.
  destruct (check_in_outcome v n vt p trk clk (reachable_figures trk Hr) Habs)
    as (stats' & Hci & _).
  eexists _, _, _. split; [exact Hci|].
  unfold AttendanceTracker.check_out. simpl.
  rewrite rev_unit. simpl.
  unfold AttendanceTracker.active_for at 1. simpl. rewrite String.eqb_refl. simpl.
  rewrite rev_involutive.
  split; [reflexivity|]. split; [reflexivity|]. split.
  - unfold AttendanceTracker.is_currently_present. simpl.
    rewrite rev_unit. simpl.
    unfold AttendanceTracker.active_for at 1. simpl. rewrite andb_false_r.
    exact Habs.
  - unfold AttendanceTracker.get_visitor_history. simpl.
    rewrite filter_app. simpl. now rewrite String.eqb_refl.
Qed.

Lemma visit_leaves_one_closed_record_witness :
  exists trk1 clk1 trk2,
    AttendanceTracker.check_in "V3" "Vic" VISITOR "tour" late_morning wall_clock
    = (Returns true, trk1, clk1)
    /\ AttendanceTracker.check_out "V3" trk1 clk1
       = (true, trk2, mkClock (reading wall_clock) 3)
    /\ AttendanceTracker.get_visitor_history "V3" trk2
       = [AttendanceRecord.mk "V3" "Vic" VISITOR opening_time
            (Some (opening_time + 2)) "tour" false].
Proof.
  destruct (visit_leaves_one_closed_record late_morning "V3" "Vic" VISITOR "tour"
              wall_clock late_morning_reachable eq_refl)
    as (trk1 & clk1 & trk2 & Hci & Hco & _ & _ & Hh).
  exists trk1, clk1, trk2. repeat split; assumption.
Defined.

(** ** Records are kept *)

Lemma Forall2_rev (A B : Type) (R : A -> B -> Prop) (l : list A) (l' : list B) :
  Forall2 R l l' -> Forall2 R (rev l) (rev l').
Proof.
  induction 1 as [|x y l l' Hxy Hl IH]; simpl; [constructor|].
  apply Forall2_app; [exact IH | repeat constructor; exact Hxy].
Qed.

Lemma kept_refl (rs : list AttendanceRecord.t) : Forall2 kept rs rs.
Proof. induction rs; constructor; [now left | assumption]. Qed.

Lemma kept_trans r1 r2 r3 : kept r1 r2 -> kept r2 r3 -> kept r1 r3.
Proof.
  intros [->|[Hact Hv]] [->|[Hact' Hv']].
  - now left.
  - right. auto.
  - right. auto.
  - right. split; [exact Hact | congruence].
Qed.

Lemma Forall2_kept_trans (l1 l2 l3 : list AttendanceRecord.t) :
  Forall2 kept l1 l2 -> Forall2 kept l2 l3 -> Forall2 kept l1 l3.
Proof.
  intros H12. revert l3. induction H12 as [|x y l l' Hxy Hl IH]; intros l3 H23.
  - inversion H23. constructor.
  - inversion H23 as [|y' z l2' l3' Hyz Hl' E1 E2]. subst.
    constructor; [eapply kept_trans; eauto | now apply IH].
Qed.

Lemma extends_refl rs : extends rs rs.
Proof. exists rs, []. rewrite app_nil_r. split; [reflexivity | apply kept_refl]. Qed.

Lemma extends_trans rs1 rs2 rs3 :
  extends rs1 rs2 -> extends rs2 rs3 -> extends rs1 rs3.
Proof.
  intros (u1 & e1 & -> & H1) (u2 & e2 & -> & H2).
  apply Forall2_app_inv_l in H2.
  destruct H2 as (u2a & u2b & Ha & Hb & ->).
  exists u2a, (u2b ++ e2). rewrite app_assoc. split; [reflexivity|].
  eapply Forall2_kept_trans; eauto.
Qed.

Lemma check_out_scan_kept v rs clk rs' clk' :
  AttendanceTracker.check_out_scan v rs clk = Some (rs', clk') ->
  Forall2 kept rs rs'.
Proof.
  revert rs'. induction rs as [|r rs IH]; intros rs'; simpl; [discriminate|].
  destruct (AttendanceTracker.active_for v r) eqn:Hact.
  - unfold AttendanceRecord.check_out, now. intros [= <- <-].
    unfold AttendanceTracker.active_for in Hact.
    apply andb_true_iff in Hact. destruct Hact as [_ Hon].
    constructor; [|apply kept_refl]. right. split; [exact Hon | reflexivity].
  - destruct (AttendanceTracker.check_out_scan v rs clk) as [[rs'' clk'']|];
      [|discriminate].
    intros [= <- <-]. constructor; [now left | now apply IH].
Qed.

Lemma call_extends op trk clk :
  extends (AttendanceTracker.attendance_records trk)
          (AttendanceTracker.attendance_records
             (snd (fst (AttendanceTracker.call op trk clk)))).
Proof.
  destruct op as [v n vt p|v]; simpl.
  - destruct (AttendanceTracker.is_currently_present v trk) eqn:Hp.
    + rewrite check_in_refused by exact Hp. apply extends_refl.
    + rewrite check_in_records by exact Hp.
      eexists _, _. split; [reflexivity | apply kept_refl].
  - unfold AttendanceTracker.check_out.
    destruct (AttendanceTracker.check_out_scan v
                (rev (AttendanceTracker.attendance_records trk)) clk)
      as [[rs clk']|] eqn:Hscan; simpl; [|apply extends_refl].
    apply check_out_scan_kept, Forall2_rev in Hscan.
    rewrite rev_involutive in Hscan.
    exists (rev rs), []. rewrite app_nil_r. auto.
Qed.

Lemma run_extends ops : forall trk clk,
  extends (AttendanceTracker.attendance_records trk)
          (AttendanceTracker.attendance_records
             (fst (AttendanceTracker.run ops trk clk))).
Proof.
  induction ops as [|op ops IH]; intros trk clk; simpl; [apply extends_refl|].
  pose proof (call_extends op trk clk) as Hstep.
  destruct (AttendanceTracker.call op trk clk) as [[r trk'] clk'].
  eapply extends_trans; [exact Hstep | apply IH].
Qed.

Lemma kept_visits (rs upd : list AttendanceRecord.t) :
  Forall2 kept rs upd -> map visit_of upd = map visit_of rs.
Proof.
  induction 1 as [|r r' rs upd Hk Hrest IH]; simpl; [reflexivity|].
  rewrite IH. f_equal. destruct Hk as [->|[_ Hv]]; auto.
Qed.

Lemma kept_closed (rs upd : list AttendanceRecord.t) :
  Forall2 kept rs upd ->
  forall i r, nth_error rs i = Some r -> AttendanceRecord.is_active r = false ->
              nth_error upd i = Some r.
Proof.
  induction 1 as [|r0 r' rs upd Hk Hrest IH]; intros [|i] r; simpl;
    try discriminate.
  - intros [= ->] Hoff. destruct Hk as [->|[Hon _]]; [reflexivity|congruence].
  - apply IH.
Qed.

(** X20.  Records are never deleted, reordered or rewritten: whatever
    calls are made, the records already there stay in place and describe
    the same visits, new records only come after them, and a record that
    is closed stays exactly as it is. *)
Theorem records_are_kept :
  forall (ops : list AttendanceTracker.Op) (trk : AttendanceTracker.t)
         (clk : Clock),
    (exists later,
       map visit_of (AttendanceTracker.attendance_records
                       (fst (AttendanceTracker.run ops trk clk)))
       = map visit_of (AttendanceTracker.attendance_records trk) ++ later)
    /\ (forall i r,
          nth_error (AttendanceTracker.attendance_records trk) i = Some r ->
          AttendanceRecord.is_active r = false ->
          nth_error (AttendanceTracker.attendance_records
                       (fst (AttendanceTracker.run ops trk clk))) i = Some r).
Proof.
  intros ops trk clk.
  destruct (run_extends ops trk clk) as (upd & extra & -> & Hk). split.
  - exists (map visit_of extra). now rewrite map_app, (kept_visits _ _ Hk).
  - intros i r Hn Hoff. pose proof (kept_closed _ _ Hk i r Hn Hoff) as Hu.
    rewrite nth_error_app1; [exact Hu|].
    apply nth_error_Some. congruence.
Qed.

(** X21.  [is_currently_present] and [get_current_visitors] agree: a
    visitor is present exactly when the list of current visitors holds a
    record of that visitor. *)
Theorem present_iff_listed :
  forall (v : string) (trk : AttendanceTracker.t),
    AttendanceTracker.is_currently_present v trk = true
    <-> exists r, In r (AttendanceTracker.get_current_visitors trk)
                  /\ AttendanceRecord.visitor_id r = v.
Proof.
  intros v trk. rewrite is_currently_present_count.
  rewrite <- current_records_active. unfold current_records_of. split.
  - intros Hlen.
    destruct (filter _ (AttendanceTracker.get_current_visitors trk))
      as [|r rs] eqn:Hf; [simpl in Hlen; lia|].
    assert (Hin : In r (r :: rs)) by now left.
    rewrite <- Hf in Hin. apply filter_In in Hin. destruct Hin as [Hin Hid].
    exists r. split; [exact Hin | now apply String.eqb_eq].
  - intros (r & Hin & Hid).
    assert (Hf : In r (filter (fun r0 => String.eqb (AttendanceRecord.visitor_id r0) v)
                         (AttendanceTracker.get_current_visitors trk))).
    { apply filter_In. split; [exact Hin | now apply String.eqb_eq]. }
    destruct (filter _ (AttendanceTracker.get_current_visitors trk));
      [destruct Hf | simpl; lia].
Qed.

(* ================================================================== *)
(** * Peak hours                                                       *)
(* ================================================================== *)

Lemma entered_at_app h rs rs' :
  entered_at h (rs ++ rs') = entered_at h rs + entered_at h rs'.
Proof. unfold entered_at. rewrite filter_app, length_app. lia. Qed.

Lemma entered_at_nonneg h rs : 0 <= entered_at h rs.
Proof. unfold entered_at. lia. Qed.

Lemma tally_step done r counts :
  breakdown_of done counts ->
  breakdown_of (done ++ [r]) (AttendanceTracker.tally counts r).
Proof.
  intros [Hd Hg]. unfold AttendanceTracker.tally.
  set (h0 := AttendanceTracker.hour_of (AttendanceRecord.entry_time r)).
  split; [now apply dict_set_distinct|].
  intros h. rewrite entered_at_app.
  assert (Hone : entered_at h [r] = if Z.eqb h0 h then 1 else 0).
  { unfold entered_at. simpl. fold h0. now destruct (Z.eqb h0 h). }
  rewrite Hone. pose proof (entered_at_nonneg h done) as Hpos.
  destruct (Z.eqb_spec h0 h) as [E0|Hne].
  - rewrite <- E0 in *. clear E0. rewrite dict_get_set_same, Hg.
    destruct (Z.eqb_spec (entered_at h0 done) 0) as [E|E];
      destruct (Z.eqb_spec (entered_at h0 done + 1) 0); try lia.
    + now rewrite E.
    + reflexivity.
  - rewrite dict_get_set_other by exact Hne. rewrite Hg, Z.add_0_r. reflexivity.
Qed.

Lemma tally_all rs : forall done counts,
  breakdown_of done counts ->
  breakdown_of (done ++ rs) (fold_left AttendanceTracker.tally rs counts).
Proof.
  induction rs as [|r rs IH]; intros done counts Hb; simpl.
  - now rewrite app_nil_r.
  - replace (done ++ r :: rs) with ((done ++ [r]) ++ rs)
      by (now rewrite <- app_assoc).
    apply IH, tally_step, Hb.
Qed.

(** [max] gives the first of the largest. *)
Lemma max_by_count_first items : forall best,
  exists pre post,
    best :: items = pre ++ AttendanceTracker.max_by_count best items :: post
    /\ (forall x, In x pre -> snd x < snd (AttendanceTracker.max_by_count best items))
    /\ (forall x, In x post -> snd x <= snd (AttendanceTracker.max_by_count best items)).
Proof.
  induction items as [|x items IH]; intros best; cbn [AttendanceTracker.max_by_count].
  - exists [], []. repeat split; intros y [].
  - destruct (Z.ltb_spec (snd best) (snd x)) as [Hlt|Hge].
    + destruct (IH x) as (pre & post & Heq & Hpre & Hpost).
      set (r := AttendanceTracker.max_by_count x items) in *.
      exists (best :: pre), post. split; [simpl; now rewrite <- Heq|].
      split; [|exact Hpost].
      intros y [<-|Hy]; [|now apply Hpre].
      destruct pre as [|p pre]; simpl in Heq; injection Heq as E _.
      * rewrite <- E. exact Hlt.
      * subst p. specialize (Hpre x (or_introl eq_refl)). lia.
    + destruct (IH best) as (pre & post & Heq & Hpre & Hpost).
      set (r := AttendanceTracker.max_by_count best items) in *.
      destruct pre as [|p pre]; simpl in Heq; injection Heq as E Hrest.
      * exists [], (x :: post). split; [simpl; congruence|].
        split; [intros y []|].
        intros y [<-|Hy]; [rewrite <- E; exact Hge | now apply Hpost].
      * subst p. exists (best :: x :: pre), post.
        split; [simpl; congruence|]. split; [|exact Hpost].
        pose proof (Hpre best (or_introl eq_refl)) as Hb.
        intros y [<-|[<-|Hy]]; [exact Hb | lia | apply Hpre; now right].
Qed.

(** X22.  [get_peak_hours] for a date: the breakdown lists each hour in
    which a record of that date was entered, with the number of such
    records; on a date without records the peak is hour 0 with count 0;
    otherwise the peak count is the largest number of entries in one hour,
    the peak hour is an hour with that many entries, and among the hours
    that tie it is the one whose first entry came first -- every hour
    listed before it has strictly fewer entries. *)
Theorem peak_hour_is_first_busiest_hour :
  forall (d : date) (trk : AttendanceTracker.t) (clk : Clock),
    let day := fst (AttendanceTracker.get_daily_attendance (Some d) trk clk) in
    let peak := fst (AttendanceTracker.get_peak_hours (Some d) trk clk) in
    (forall h,
       dict_get h (AttendanceTracker.hourly_breakdown peak)
       = if entered_at h day =? 0 then None else Some (entered_at h day))
    /\ (day = [] ->
        AttendanceTracker.peak_hour peak = 0
        /\ AttendanceTracker.peak_count peak = 0)
    /\ (day <> [] ->
        AttendanceTracker.peak_count peak
        = entered_at (AttendanceTracker.peak_hour peak) day
        /\ 1 <= AttendanceTracker.peak_count peak
        /\ (forall h, entered_at h day <= AttendanceTracker.peak_count peak)
        /\ exists before after,
             AttendanceTracker.hourly_breakdown peak
             = before
               ++ (AttendanceTracker.peak_hour peak,
                   AttendanceTracker.peak_count peak) :: after
             /\ forall x, In x before ->
                          snd x < AttendanceTracker.peak_count peak).
Proof.
  intros d trk clk. unfold AttendanceTracker.get_peak_hours,
    AttendanceTracker.get_daily_attendance, AttendanceTracker.date_or_today.
  cbn [fst snd].
  set (day := filter _ (AttendanceTracker.attendance_records trk)).
  assert (Hb : breakdown_of day (fold_left AttendanceTracker.tally day [])).
  { apply (tally_all day [] []). split; [reflexivity|]. intros h. reflexivity. }
  destruct Hb as [Hd Hg].
  set (counts := fold_left AttendanceTracker.tally day []) in *.
  cbn [AttendanceTracker.hourly_breakdown AttendanceTracker.peak_hour
       AttendanceTracker.peak_count].
  split; [exact Hg|]. split.
  - intros Hday. unfold counts. rewrite Hday. simpl. auto.
  - intros Hday. unfold dict_items.
    destruct counts as [|x rest] eqn:Hc.
    { destruct day as [|r day']; [congruence|].
      specialize (Hg (AttendanceTracker.hour_of (AttendanceRecord.entry_time r))).
      simpl in Hg. unfold entered_at in Hg. simpl in Hg.
      rewrite Z.eqb_refl in Hg. simpl in Hg. discriminate. }
    destruct (max_by_count_first rest x) as (pre & post & Heq & Hpre & Hpost).
    set (best := AttendanceTracker.max_by_count x rest) in *.
    assert (Hin : In best (x :: rest)) by (rewrite Heq; apply in_elt).
    assert (Hval : dict_get (fst best) (x :: rest) = Some (snd best)).
    { apply distinct_keys_get; [exact Hd|]. now destruct best. }
    rewrite Hg in Hval.
    pose proof (entered_at_nonneg (fst best) day) as Hpos.
    destruct (Z.eqb_spec (entered_at (fst best) day) 0) as [|Hnz];
      [discriminate|]. injection Hval as Hval.
    split; [now rewrite Hval|]. split; [lia|]. split.
    + intros h. pose proof (entered_at_nonneg h day) as Hh.
      specialize (Hg h).
      destruct (Z.eqb_spec (entered_at h day) 0) as [E|E]; [lia|].
      apply dict_get_In_key in Hg. rewrite Heq in Hg.
      apply in_app_or in Hg. destruct Hg as [Hg|[Hg|Hg]].
      * specialize (Hpre _ Hg). simpl in Hpre. lia.
      * rewrite Hg. simpl. lia.
      * specialize (Hpost _ Hg). simpl in Hpost. lia.
    + exists pre, post. split; [|exact Hpre].
      rewrite Heq. now destruct best.
Qed.

(** The day of the three arrivals at 9, 9 and 14 o'clock. *)
Example peak_of_nine_nine_fourteen :
  fst (AttendanceTracker.get_peak_hours (Some (date_of opening_time))
         three_arrivals wall_clock)
  = AttendanceTracker.mkPeak [(9, 2); (14, 1)] 9 2.
Proof. reflexivity. Qed.

(* ================================================================== *)
(** * One book, one member                                             *)
(* ================================================================== *)

(** X23.  On a single book: [borrow] refuses when no copy is on the
    shelf, [return_book] refuses a member who is not among the borrowers,
    and both refusals change nothing; lending a copy to a member who is
    not yet a borrower and taking it back gives the book exactly as it
    was, shelf count and borrowers alike. *)
Theorem book_borrow_then_return :
  forall (member_id : string) (b : Book.t) (clk : Clock),
    (Book.is_available b = false -> Book.borrow member_id b clk = (false, b, clk))
    /\ (dict_contains member_id (Book.borrowed_by b) = false ->
        Book.return_book member_id b = (Returns false, b))
    /\ (Book.is_available b = true ->
        dict_contains member_id (Book.borrowed_by b) = false ->
        exists b1,
          Book.borrow member_id b clk
          = (true, b1, mkClock (reading clk) (S (ticks clk)))
          /\ Book.get_borrower_info b1
             = Book.get_borrower_info b ++ [(member_id, reading clk (ticks clk))]
          /\ Book.return_book member_id b1 = (Returns true, b)).
Proof.
  intros member_id b clk. unfold Book.borrow, Book.return_book.
  split; [intros ->; reflexivity|]. split; [intros ->; reflexivity|].
  intros -> Hnew. simpl. eexists. split; [reflexivity|].
  unfold Book.get_borrower_info. simpl.
  split; [now apply dict_set_new_app|].
  rewrite dict_contains_set, (dict_del_set_new _ _ _ Hnew).
  destruct b. unfold Book.with_loans. simpl. f_equal. f_equal. lia.
Qed.

(** X24.  On a single member: [borrow_book] refuses at the limit,
    [return_book] refuses a book that is not in the list, and both
    refusals change nothing; borrowing a book not yet in the list and
    returning it gives back the list as it was and adds one tuple to the
    history. *)
Theorem member_borrow_then_return :
  forall (book_id : string) (m : Member.t) (clk : Clock),
    (Member.can_borrow m = false -> Member.borrow_book book_id m = (false, m))
    /\ (list_contains book_id (Member.borrowed_books m) = false ->
        Member.return_book book_id m clk = (Returns false, m, clk))
    /\ (Member.can_borrow m = true ->
        list_contains book_id (Member.borrowed_books m) = false ->
        exists m1,
          Member.borrow_book book_id m = (true, m1)
          /\ Member.get_borrowed_books m1 = Member.get_borrowed_books m ++ [book_id]
          /\ Member.return_book book_id m1 clk
             = (Returns true,
                Member.with_loans (Member.borrowed_books m)
                  (Member.borrowing_history m
                   ++ [(book_id, reading clk (ticks clk),
                        reading clk (S (ticks clk)))]) m,
                mkClock (reading clk) (S (S (ticks clk))))).
Proof.
  intros book_id m clk. unfold Member.borrow_book.
  split; [intros ->; reflexivity|].
  split; [unfold Member.return_book; intros ->; reflexivity|].
  intros -> Hnew. eexists. split; [reflexivity|]. split; [reflexivity|].
  unfold Member.return_book. simpl.
  rewrite list_contains_last, (list_remove_last _ _ Hnew). reflexivity.
Qed.

(** X25.  The attendance calls of the library never touch the books, the
    members or the log, and [check_in_member] refuses an id that is not
    in the directory without creating any record. *)
Theorem attendance_calls_leave_catalog_alone :
  forall (s : Library.t) (clk : Clock),
    (forall member_id,
       Library.get_member member_id s = None ->
       Library.check_in_member member_id s clk = (Returns false, s, clk))
    /\ (forall r s' clk',
          (exists member_id, Library.check_in_member member_id s clk = (r, s', clk'))
          \/ (exists v n p, Library.check_in_visitor v n p s clk = (r, s', clk'))
          \/ (exists v n, Library.check_in_staff v n s clk = (r, s', clk'))
          \/ (exists v, Library.check_out v s clk = (r, s', clk')) ->
          Library.books s' = Library.books s
          /\ Library.members s' = Library.members s
          /\ Library.transactions s' = Library.transactions s).
Proof.
  intros s clk. split.
  - intros member_id Hm. unfold Library.check_in_member. now rewrite Hm.
  - assert (Hon : forall x r s' clk',
              Library.on_tracker x s = (r, s', clk') ->
              Library.books s' = Library.books s
              /\ Library.members s' = Library.members s
              /\ Library.transactions s' = Library.transactions s).
    { intros [[r0 a] c] r s' clk'. unfold Library.on_tracker.
      intros [= _ <- _]. simpl. auto. }
    intros r s' clk' [[m H]|[(v & n & p & H)|[(v & n & H)|[v H]]]].
    + unfold Library.check_in_member in H.
      destruct (Library.get_member m s); [eauto|].
      injection H as _ <- _. auto.
    + eapply Hon, H.
    + eapply Hon, H.
    + eapply Hon, H.
Qed.
